(** * MatrixTestApp report symbolication: a shallow embedding

    This development embeds [symbolicate_matrix_report.py] in Rocq and
    proves properties of its address-resolution and frame-classification
    engine.

    Conventions of the embedding.
    - Python integers are unbounded, so addresses and sizes are [Z] and
      [image_addr + image_size] does not wrap.
    - A Python [str] is a sequence of code points; here it is the
      [string] of its UTF-8 bytes, and a character is a sequence of one
      to four bytes ([Unicode]).  [strip] and the class [\d] work on
      characters, with the tables of the interpreter's Unicode database.
      The tests [in], [startswith], [split] and [basename] against ASCII
      texts, and the class [[^)]], give the same answer on the bytes as
      on the code points.  [lower] and [upper] are modelled on the ASCII
      range only: a letter outside it is left as it is.
    - A JSON object is a record with one [option] field per key the
      program reads ([None]: the key is absent, so [dict.get] yields its
      default), and, where the program compares objects with [==], a
      field [extra] that stands for the keys it never reads.  A key that
      is present holds a value of its JSON type.  The name of a thread,
      which the data model of the specification declares nullable, is the
      exception: it may hold null, and the exception that line 353 raises
      on it is an outcome of the run ([RaisedAttributeError]).
    - A modification time is a [Z]: only the order of the times matters.
    - What the program learns from the outside (file system, [dwarfdump],
      [atos]) is a [World] record of oracles, which are functions: the
      outside does not change during a run.  What the program does to the
      outside is a list of [Event]s: the lines it prints ([Msg], one
      constructor per print site), the processes it spawns, and what it
      does with the output file.  [run_events] replays them on the state
      of the process ([sys.stdout], the file handle). *)

From Stdlib Require Import String Ascii List ZArith Bool Lia HexString Sorted
  Permutation.
Import ListNotations.

Local Open Scope string_scope.
Local Open Scope list_scope.
Local Open Scope Z_scope.

(* ================================================================== *)
(** * Part I.  The embedding *)
(* ================================================================== *)

(** ** Python helpers *)

(** [d.get(key, default)] on a field that may be absent. *)
Definition get {A : Type} (field : option A) (default : A) : A :=
  match field with
  | Some v => v
  | None => default
  end.

(** ** Characters

    The characters of a [str], read off its UTF-8 bytes, and the two
    classes of the Unicode database that the script's calls consult:
    white space ([str.strip]) and the decimal digits (the class [\d] of
    [re] in a [str] pattern).  The tables are those of Unicode 14.0, the
    database of CPython 3.11; both classes hold the same ASCII characters
    in every version. *)
Module Unicode.

(** What a continuation byte (10xxxxxx) carries. *)
Definition continuation (b : ascii) : option N :=
  let n := N_of_ascii b in
  if ((128 <=? n) && (n <? 192))%N then Some (n - 128)%N else None.

(** The code point of one character, given as its UTF-8 bytes: one byte
    below 128, or a leading byte and one to three continuation bytes, in
    the shortest form. *)
Definition code_point (t : string) : option N :=
  match t with
  | String b1 EmptyString =>
      let n := N_of_ascii b1 in
      if (n <? 128)%N then Some n else None
  | String b1 (String b2 EmptyString) =>
      let n := N_of_ascii b1 in
      match continuation b2 with
      | Some c2 =>
          if ((194 <=? n) && (n <? 224))%N
          then Some ((n - 192) * 64 + c2)%N else None
      | None => None
      end
  | String b1 (String b2 (String b3 EmptyString)) =>
      let n := N_of_ascii b1 in
      match continuation b2, continuation b3 with
      | Some c2, Some c3 =>
          let c := ((n - 224) * 4096 + c2 * 64 + c3)%N in
          if ((224 <=? n) && (n <? 240) && (2048 <=? c))%N
          then Some c else None
      | _, _ => None
      end
  | String b1 (String b2 (String b3 (String b4 EmptyString))) =>
      let n := N_of_ascii b1 in
      match continuation b2, continuation b3, continuation b4 with
      | Some c2, Some c3, Some c4 =>
          let c := ((n - 240) * 262144 + c2 * 4096 + c3 * 64 + c4)%N in
          if ((240 <=? n) && (n <? 245) && (65536 <=? c) && (c <? 1114112))%N
          then Some c else None
      | _, _, _ => None
      end
  | _ => None
  end.

Definition in_ranges (ranges : list (N * N)) (c : N) : bool :=
  existsb (fun r => ((fst r <=? c) && (c <=? snd r))%N) ranges.

(** The code points on which [str.isspace] holds; [str.strip] removes
    them. *)
Definition whitespace : list (N * N) :=
  [(0x09, 0x0D); (0x1C, 0x20); (0x85, 0x85); (0xA0, 0xA0);
   (0x1680, 0x1680); (0x2000, 0x200A); (0x2028, 0x2029);
   (0x202F, 0x202F); (0x205F, 0x205F); (0x3000, 0x3000)]%N.

(** The decimal digits (category Nd): the class [\d]. *)
Definition decimal_digits : list (N * N) :=
  [(0x30, 0x39); (0x660, 0x669); (0x6F0, 0x6F9); (0x7C0, 0x7C9);
   (0x966, 0x96F); (0x9E6, 0x9EF); (0xA66, 0xA6F); (0xAE6, 0xAEF);
   (0xB66, 0xB6F); (0xBE6, 0xBEF); (0xC66, 0xC6F); (0xCE6, 0xCEF);
   (0xD66, 0xD6F); (0xDE6, 0xDEF); (0xE50, 0xE59); (0xED0, 0xED9);
   (0xF20, 0xF29); (0x1040, 0x1049); (0x1090, 0x1099); (0x17E0, 0x17E9);
   (0x1810, 0x1819); (0x1946, 0x194F); (0x19D0, 0x19D9); (0x1A80, 0x1A89);
   (0x1A90, 0x1A99); (0x1B50, 0x1B59); (0x1BB0, 0x1BB9); (0x1C40, 0x1C49);
   (0x1C50, 0x1C59); (0xA620, 0xA629); (0xA8D0, 0xA8D9); (0xA900, 0xA909);
   (0xA9D0, 0xA9D9); (0xA9F0, 0xA9F9); (0xAA50, 0xAA59); (0xABF0, 0xABF9);
   (0xFF10, 0xFF19); (0x104A0, 0x104A9); (0x10D30, 0x10D39);
   (0x11066, 0x1106F); (0x110F0, 0x110F9); (0x11136, 0x1113F);
   (0x111D0, 0x111D9); (0x112F0, 0x112F9); (0x11450, 0x11459);
   (0x114D0, 0x114D9); (0x11650, 0x11659); (0x116C0, 0x116C9);
   (0x11730, 0x11739); (0x118E0, 0x118E9); (0x11950, 0x11959);
   (0x11C50, 0x11C59); (0x11D50, 0x11D59); (0x11DA0, 0x11DA9);
   (0x16A60, 0x16A69); (0x16AC0, 0x16AC9); (0x16B50, 0x16B59);
   (0x1D7CE, 0x1D7FF); (0x1E140, 0x1E149); (0x1E2F0, 0x1E2F9);
   (0x1E950, 0x1E959); (0x1FBF0, 0x1FBF9)]%N.

(** The character [t] belongs to the class [ranges]. *)
Definition in_class (ranges : list (N * N)) (t : string) : bool :=
  match code_point t with
  | Some c => in_ranges ranges c
  | None => false
  end.

Definition is_space : string -> bool := in_class whitespace.
Definition is_decimal : string -> bool := in_class decimal_digits.

(** The character of class [p] that [s] starts with, and what follows
    it. *)
Definition leading (p : string -> bool) (s : string)
  : option (string * string) :=
  match s with
  | EmptyString => None
  | String b1 s1 =>
    if p (String b1 "") then Some (String b1 "", s1) else
    match s1 with
    | EmptyString => None
    | String b2 s2 =>
      if p (String b1 (String b2 "")) then Some (String b1 (String b2 ""), s2)
      else
      match s2 with
      | EmptyString => None
      | String b3 s3 =>
        if p (String b1 (String b2 (String b3 "")))
        then Some (String b1 (String b2 (String b3 "")), s3) else
        match s3 with
        | EmptyString => None
        | String b4 s4 =>
          if p (String b1 (String b2 (String b3 (String b4 ""))))
          then Some (String b1 (String b2 (String b3 (String b4 ""))), s4)
          else None
        end
      end
    end
  end.

End Unicode.

(** The string methods and operators the script uses. *)
Module PyStr.

(** [s.startswith(p)] *)
Fixpoint startswith (s p : string) {struct p} : bool :=
  match p, s with
  | EmptyString, _ => true
  | String a p', String b s' => Ascii.eqb a b && startswith s' p'
  | String _ _, EmptyString => false
  end.

(** [sub in s] *)
Fixpoint contains (sub s : string) : bool :=
  startswith s sub ||
  match s with
  | EmptyString => false
  | String _ s' => contains sub s'
  end.

Definition in_range (lo hi : nat) (c : ascii) : bool :=
  (Nat.leb lo (nat_of_ascii c) && Nat.leb (nat_of_ascii c) hi)%bool.

Definition is_upper (c : ascii) : bool := in_range 65 90 c.
Definition is_lower (c : ascii) : bool := in_range 97 122 c.
Definition is_digit (c : ascii) : bool := in_range 48 57 c.

Definition lower_char (c : ascii) : ascii :=
  if is_upper c then ascii_of_nat (nat_of_ascii c + 32) else c.

Definition upper_char (c : ascii) : ascii :=
  if is_lower c then ascii_of_nat (nat_of_ascii c - 32) else c.

Fixpoint map (f : ascii -> ascii) (s : string) : string :=
  match s with
  | EmptyString => EmptyString
  | String c s' => String (f c) (map f s')
  end.

(** [s.lower()] and [s.upper()], on the ASCII letters; a byte of a
    character outside the ASCII range is left as it is. *)
Definition lower : string -> string := map lower_char.
Definition upper : string -> string := map upper_char.

(** Truth value of a string: non-empty. *)
Definition truthy (s : string) : bool :=
  match s with
  | EmptyString => false
  | String _ _ => true
  end.

(** [s.lstrip()]: [s] without the white-space characters it starts
    with. *)
Fixpoint lstrip (s : string) : string :=
  match s with
  | EmptyString => s
  | String b1 s1 =>
    if Unicode.is_space (String b1 "") then lstrip s1 else
    match s1 with
    | EmptyString => s
    | String b2 s2 =>
      if Unicode.is_space (String b1 (String b2 "")) then lstrip s2 else
      match s2 with
      | EmptyString => s
      | String b3 s3 =>
        if Unicode.is_space (String b1 (String b2 (String b3 "")))
        then lstrip s3 else
        match s3 with
        | EmptyString => s
        | String b4 s4 =>
          if Unicode.is_space
               (String b1 (String b2 (String b3 (String b4 ""))))
          then lstrip s4 else s
        end
      end
    end
  end.

(** [s.rstrip()]: [s] up to the first place from which only white space
    follows. *)
Fixpoint rstrip (s : string) : string :=
  match s with
  | EmptyString => EmptyString
  | String c s' => if truthy (lstrip s) then String c (rstrip s') else EmptyString
  end.

(** [s.strip()] *)
Definition strip (s : string) : string := rstrip (lstrip s).

(** [os.path.basename(p)] (posixpath): what follows the last slash. *)
Fixpoint basename (p : string) : string :=
  match p with
  | EmptyString => EmptyString
  | String _ p' => if contains "/" p then basename p' else p
  end.

(** [s.split('\n')] *)
Fixpoint split_lines (s : string) : list string :=
  match s with
  | EmptyString => [EmptyString]
  | String c s' =>
      if Ascii.eqb c "010" then EmptyString :: split_lines s'
      else match split_lines s' with
           | [] => [String c EmptyString]
           | l :: ls => String c l :: ls
           end
  end.

(** [x in [a, b, ...]] for strings. *)
Definition mem (x : string) (l : list string) : bool :=
  existsb (String.eqb x) l.

End PyStr.

(** Truth value of an optional string ([None] and [''] are false). *)
Definition truthy_opt (o : option string) : bool :=
  match o with
  | Some s => PyStr.truthy s
  | None => false
  end.

(** Truth value of an integer that may be [None]. *)
Definition truthy_int (o : option Z) : bool :=
  match o with
  | Some z => negb (z =? 0)
  | None => false
  end.

(** ** Regular expressions

    The fragment of [re] that the script's three patterns use, with the
    backtracking semantics of [re.search]: leftmost start, ordered
    alternation, greedy repetition.  The matcher is written in
    continuation-passing style; a capturing group records what it
    consumed when it closes (the patterns nest no groups, so the groups
    are numbered as [re] numbers them). *)
Module Re.

Inductive regex : Type :=
| Str (w : string)                 (* a literal text *)
| ClassPlus (p : ascii -> bool)    (* [...]+ , greedy; a class of bytes *)
| CharPlus (p : string -> bool)    (* \d+ , greedy; a class of characters *)
| Seq (r1 r2 : regex)              (* r1 r2 *)
| Alt (r1 r2 : regex)              (* r1|r2 *)
| Group (r : regex).               (* ( r ), capturing *)

(** [s] without its prefix [w], when it has it. *)
Fixpoint strip_prefix (w s : string) {struct w} : option string :=
  match w, s with
  | EmptyString, _ => Some s
  | String a w', String b s' =>
      if Ascii.eqb a b then strip_prefix w' s' else None
  | String _ _, EmptyString => None
  end.

Definition Captures := list string.
Definition Cont := string -> Captures -> option Captures.

(** Zero or more characters of class [p], longest first. *)
Fixpoint star (p : ascii -> bool) (s : string) (caps : Captures) (k : Cont)
  : option Captures :=
  match s with
  | String c s' =>
      if p c then
        match star p s' caps k with
        | Some r => Some r
        | None => k s caps
        end
      else k s caps
  | EmptyString => k s caps
  end.

(** Zero or more characters of class [p], each of one to four bytes,
    longest first. *)
Fixpoint ustar (p : string -> bool) (s : string) (caps : Captures) (k : Cont)
  : option Captures :=
  let more (r : option Captures) :=
    match r with
    | Some r => Some r
    | None => k s caps
    end in
  match s with
  | EmptyString => k s caps
  | String b1 s1 =>
    if p (String b1 "") then more (ustar p s1 caps k) else
    match s1 with
    | EmptyString => k s caps
    | String b2 s2 =>
      if p (String b1 (String b2 "")) then more (ustar p s2 caps k) else
      match s2 with
      | EmptyString => k s caps
      | String b3 s3 =>
        if p (String b1 (String b2 (String b3 "")))
        then more (ustar p s3 caps k) else
        match s3 with
        | EmptyString => k s caps
        | String b4 s4 =>
          if p (String b1 (String b2 (String b3 (String b4 ""))))
          then more (ustar p s4 caps k) else k s caps
        end
      end
    end
  end.

(** The text [s] lost on the way to its suffix [s']. *)
Definition consumed (s s' : string) : string :=
  substring 0 (String.length s - String.length s') s.

Fixpoint rmatch (r : regex) (s : string) (caps : Captures) (k : Cont)
  : option Captures :=
  match r with
  | Str w =>
      match strip_prefix w s with
      | Some s' => k s' caps
      | None => None
      end
  | ClassPlus p =>
      match s with
      | String c s' => if p c then star p s' caps k else None
      | EmptyString => None
      end
  | CharPlus p =>
      match Unicode.leading p s with
      | Some (_, s') => ustar p s' caps k
      | None => None
      end
  | Seq r1 r2 => rmatch r1 s caps (fun s' caps' => rmatch r2 s' caps' k)
  | Alt r1 r2 =>
      match rmatch r1 s caps k with
      | Some r => Some r
      | None => rmatch r2 s caps k
      end
  | Group r1 =>
      rmatch r1 s caps (fun s' caps' => k s' (caps' ++ [consumed s s']))
  end.

(** [re.match]: a match that starts at the head of [s]. *)
Definition match_here (r : regex) (s : string) : option Captures :=
  rmatch r s [] (fun _ caps => Some caps).

(** [re.search]: the match at the leftmost position that has one. *)
Fixpoint search (r : regex) (s : string) : option Captures :=
  match match_here r s with
  | Some caps => Some caps
  | None =>
      match s with
      | EmptyString => None
      | String _ s' => search r s'
      end
  end.

(** [match.group(n)], n >= 1. *)
Definition group (n : nat) (caps : Captures) : string :=
  nth (n - 1) caps EmptyString.

End Re.

(** ** The report (data model) *)

Module Image.
(** An element of [binary_images]. *)
Record t : Type := mk {
  name : option string;
  image_addr : option Z;
  image_size : option Z;
  uuid : option string
}.
End Image.

Module Frame.
(** An element of [backtrace.contents]. *)
Record t : Type := mk {
  object_name : option string;
  symbol_name : option string;      (* absent and null read alike *)
  instruction_addr : option Z;
  extra : string                    (* the keys the script never reads *)
}.
End Frame.

Module Backtrace.
Record t : Type := mk {
  contents : option (list Frame.t);
  extra : string
}.
End Backtrace.

Module Thread.
(** An element of [crash.threads]. *)
Record t : Type := mk {
  index : option Z;
  name : option (option string);   (* absent; [Some None]: null; a string *)
  crashed : option bool;
  backtrace : option Backtrace.t;
  extra : string
}.
End Thread.

Module Report.
Record t : Type := mk {
  cpu_arch : option string;          (* system.cpu_arch *)
  binary_images : list Image.t;      (* absent reads as [] *)
  threads : list Thread.t            (* crash.threads, absent reads as [] *)
}.
End Report.

(** ** The outside world and the program's effects *)

(** Why [subprocess.run] raised instead of returning. *)
Inductive RunError : Type :=
| TimeoutExpired          (* the 5 s timeout elapsed *)
| OtherError.             (* e.g. the tool is not installed *)

(** What [subprocess.run(cmd, capture_output=True, text=True, timeout=5)]
    gives. *)
Inductive RunResult : Type :=
| Completed (returncode : Z) (stdout stderr : string)
| Raised (e : RunError).

Record World : Type := {
  expanduser : string -> string;           (* os.path.expanduser *)
  glob : string -> list string;            (* glob.glob *)
  path_exists : string -> bool;            (* os.path.exists *)
  getmtime : string -> Z;                  (* os.path.getmtime, as a total order *)
  run : list string -> RunResult;          (* subprocess.run on a command line *)
  load_json : string -> option Report.t;   (* open + json.load; None: it raised *)
  open_w : string -> bool                  (* open(path, 'w') succeeds *)
}.

(** The label a selected thread is shown under: ['主线程'], ['崩溃线程'],
    [f'应用线程 {thread_idx}']. *)
Inductive ThreadLabel : Type :=
| MainLabel
| CrashedLabel
| AppLabel (thread_idx : option Z).

(** One constructor per print site; an f-string keeps its interpolated
    values, a constant text is a [Line]. *)
Inductive Msg : Type :=
| Line (text : string)
(* find_app_binary *)
| OriginalPath (simulator_path : option string)          (* l.89 *)
| ReportUuid (report_uuid : string)                      (* l.91 *)
| FoundCandidates (n : nat)                              (* l.112 *)
| Candidate (candidate : string) (binary_uuid : option string) (* l.119-121 *)
| Chosen (latest : string)                               (* l.134 *)
(* symbolicate_address, parse_symbol_output: verbose tracing *)
| VCommand (cmd : list string)                           (* l.173 *)
| VReturnCode (returncode : Z)                           (* l.178 *)
| VOutput (text : string)                                (* l.179 *)
| VStderr (text : string)                                (* l.181 *)
| VException                                             (* l.191 *)
| VParseInput (symbol_str : string)                      (* l.200 *)
| VParseOk (file_name line_num : string)                 (* l.208 *)
(* symbolicate_report *)
| ErrFileMissing (report_path : string)                  (* l.257 *)
| SavingTo (output_file : string)                        (* l.267 *)
| ErrCannotCreateOutput                                  (* l.269 *)
| ErrReadFailed                                          (* l.277 *)
| AppBinary (binary_path : string)                       (* l.291 *)
| LoadAddress (load_addr : Z)                            (* l.292 *)
| VModule (base_name : string) (image_addr : Z)          (* l.300 *)
| VMoreModules (n : nat)                                 (* l.302 *)
| BinaryPathHint (binary_path : string)                  (* l.308 *)
| CpuArch (arch : string)                                (* l.314 *)
| FoundMainThread (t : Thread.t)                         (* l.368 *)
| FoundCrashedThread (t : Thread.t)                      (* l.373 *)
| FoundAppThread (t : Thread.t)                          (* l.381 *)
| ThreadTitle (label : ThreadLabel) (t : Thread.t)       (* l.398-399 *)
| FrameCounts (frames app_frames : nat)                  (* l.421 *)
| VFrame (i : nat) (obj_name : string) (symbol : option string) (addr : Z)
                                                         (* l.437 *)
| VMark (file_name : string) (is_framework is_app_code : bool) (* l.488 *)
| FrameResolved (marker : bool) (i : nat) (display_name : string) (addr : Z)
                                                         (* l.514 *)
| SymbolText (symbolicated : string)                     (* l.515 *)
| FrameLib (i : nat) (lib_name : string) (addr : Z)      (* l.524, l.539 *)
| FrameAppFailed (i : nat) (addr : Z)                    (* l.526 *)
| FrameUnknownLib (i : nat) (obj_name : string) (addr : Z) (* l.528 *)
| FrameSymbol (i : nat) (obj_name : string) (addr : Z) (symbol : string)
                                                         (* l.533 *)
| FramePlain (i : nat) (obj_name : string) (addr : Z)    (* l.541, l.543 *)
| ThreadSymbolicated (count : nat)                       (* l.549 *)
| Total (count : nat)                                    (* l.556 *)
| LocWithFile (thread : ThreadLabel) (file_name line_num : string) (* l.587 *)
| LocNoFile (thread : ThreadLabel)                       (* l.591 *)
| LocSymbol (symbol : string)                            (* l.588, l.592 *)
| SavedTo (output_file : string)                         (* l.627 *)
| ViewFile (output_file : string).                       (* l.628 *)

(** What the program does besides returning: it prints to [sys.stdout] or
    to the stream saved as [original_stdout], spawns a process, and
    handles the output file. *)
Inductive Event : Type :=
| Print (m : Msg)                  (* print(...) *)
| PrintOriginal (m : Msg)          (* print(..., file=original_stdout) *)
| Spawn (cmd : list string)        (* subprocess.run(cmd, ...) *)
| OpenOutput (path : string)       (* output_handle = open(path, 'w') *)
| RedirectStdout                   (* sys.stdout = output_handle *)
| RestoreStdout                    (* sys.stdout = original_stdout *)
| CloseOutput.                     (* output_handle.close() *)

Definition hex : Z -> string := HexString.of_Z.

(** ["=" * 80] and ["-" * 80] *)
Fixpoint repeat_char (c : ascii) (n : nat) : string :=
  match n with
  | O => EmptyString
  | S n' => String c (repeat_char c n')
  end.

Definition say (texts : list string) : list Event :=
  List.map (fun t => Print (Line t)) texts.

(** ** get_binary_uuid (lines 17-31) *)

(** The class [[A-F0-9-]]. *)
Definition uuid_char (c : ascii) : bool :=
  PyStr.in_range 65 70 c || PyStr.is_digit c || Ascii.eqb c "-".

(** [r'UUID: ([A-F0-9-]+)'] *)
Definition uuid_re : Re.regex :=
  Re.Seq (Re.Str "UUID: ") (Re.Group (Re.ClassPlus uuid_char)).

(** The loop over the lines of the tool's output. *)
Fixpoint scan_uuid_lines (arch : string) (lines : list string) : option string :=
  match lines with
  | [] => None
  | line :: rest =>
      if PyStr.contains arch line || PyStr.contains "arm64" line then
        match Re.search uuid_re line with
        | Some m => Some (PyStr.upper (Re.group 1 m))
        | None => scan_uuid_lines arch rest
        end
      else scan_uuid_lines arch rest
  end.

Definition get_binary_uuid (w : World) (binary_path : string) (arch : string)
  : option string * list Event :=
  let cmd := ["dwarfdump"; "--uuid"; binary_path] in
  (match run w cmd with
   | Completed returncode stdout _ =>
       if returncode =? 0 then
         scan_uuid_lines arch (PyStr.split_lines stdout)
       else None
   | Raised _ => None                       (* except: pass *)
   end,
   [Spawn cmd]).

(** ** find_all_possible_binaries (lines 33-56) *)

Fixpoint endswith_slash (s : string) : bool :=
  match s with
  | EmptyString => false
  | String c EmptyString => Ascii.eqb c "/"
  | String _ s' => endswith_slash s'
  end.

(** [os.path.join(a, b)] for two components. *)
Definition path_join (a b : string) : string :=
  if PyStr.startswith b "/" then b
  else if negb (PyStr.truthy a) || endswith_slash a then (a ++ b)%string
  else (a ++ "/" ++ b)%string.

Definition patterns : list string :=
  [ "*/Build/Products/Debug-iphonesimulator/MatrixTestApp.app/MatrixTestApp";
    "*/Build/Products/Debug-iphoneos/MatrixTestApp.app/MatrixTestApp";
    "*/Build/Products/Debug/MatrixTestApp.app/MatrixTestApp" ].

(** [binaries.sort(key=lambda x: x[1], reverse=True)]: a stable sort,
    largest key first; equal keys keep their order. *)
Fixpoint insert_desc (x : string * Z) (l : list (string * Z))
  : list (string * Z) :=
  match l with
  | [] => [x]
  | y :: l' => if snd x <? snd y then y :: insert_desc x l' else x :: l
  end.

Definition sort_desc (l : list (string * Z)) : list (string * Z) :=
  fold_right insert_desc [] l.

Definition find_all_possible_binaries (w : World) : list string :=
  let derived_data := expanduser w "~/Library/Developer/Xcode/DerivedData" in
  let binaries :=
    flat_map (fun pattern =>
      let full_pattern := path_join derived_data pattern in
      let matches := glob w full_pattern in
      List.map (fun m => (m, getmtime w m))
               (List.filter (path_exists w) matches))
      patterns in
  List.map fst (sort_desc binaries).

(** ** find_app_binary (lines 58-146) *)

Definition app_binary_names : list string :=
  ["MatrixTestApp"; "MatrixTestApp.app"; "MatrixTestApp.app/MatrixTestApp"].

(** The three locals the first part of the function fills in. *)
Record Identity : Type := {
  simulator_path : option string;
  load_addr : option Z;
  report_uuid : option string
}.

Definition no_identity : Identity :=
  {| simulator_path := None; load_addr := None; report_uuid := None |}.

Definition identity_of (image : Image.t) : Identity :=
  {| simulator_path := Some (get (Image.name image) "");
     load_addr := Some (get (Image.image_addr image) 0);
     report_uuid := Some (PyStr.upper (get (Image.uuid image) "")) |}.

(** The loop of lines 67-74: stop at the first image with a known name. *)
Fixpoint scan_app_image (binary_images : list Image.t) : Identity :=
  match binary_images with
  | [] => no_identity
  | image :: rest =>
      let name := PyStr.basename (get (Image.name image) "") in
      if PyStr.mem name app_binary_names then identity_of image
      else scan_app_image rest
  end.

(** [a < b] on the keys [x.get('image_addr', float('inf'))]. *)
Definition key_lt (a b : option Z) : bool :=
  match a, b with
  | Some x, Some y => x <? y
  | Some _, None => true
  | None, _ => false
  end.

(** [min(seq, key=...)] keeps the first of the smallest elements. *)
Fixpoint min_from (best : Image.t) (l : list Image.t) : Image.t :=
  match l with
  | [] => best
  | x :: l' =>
      min_from (if key_lt (Image.image_addr x) (Image.image_addr best)
                then x else best) l'
  end.

(** Lines 66-82: the declared identity, and whether the fallback of
    line 77 ran (it prints the warning of line 78). *)
Definition declared_identity (binary_images : list Image.t)
  : Identity * list Event :=
  let found := scan_app_image binary_images in
  if negb (truthy_int (load_addr found)) then
    match binary_images with
    | first :: others =>
        let first_image := min_from first others in
        (identity_of first_image,
         say ["⚠️  未找到明确的应用镜像，尝试使用第一个镜像"])
    | [] => (found, [])
    end
  else (found, []).

(** The loop of lines 117-129 over the candidates. *)
Fixpoint match_candidates (w : World) (report_uuid : string)
  (candidates : list string) : option string * list Event :=
  match candidates with
  | [] => (None, [])
  | candidate :: rest =>
      let '(binary_uuid, spawned) := get_binary_uuid w candidate "arm64" in
      let shown := spawned ++ [Print (Candidate candidate binary_uuid)] in
      if truthy_opt binary_uuid
         && String.eqb (get binary_uuid "") report_uuid then
        (Some candidate, shown ++ say ["     ✅ UUID 匹配！"; ""])
      else
        let mismatch :=
          if truthy_opt binary_uuid then say ["     ⚠️  UUID 不匹配"]
          else [] in
        let '(r, later) := match_candidates w report_uuid rest in
        (r, shown ++ mismatch ++ say [""] ++ later)
  end.

(** (The [except] clause of lines 142-146 catches what the body raises;
    on a report of the types above nothing in the body raises.) *)
Definition find_app_binary (w : World) (report_data : Report.t)
  : (option string * option Z) * list Event :=
  let binary_images := Report.binary_images report_data in
  let '(id, out1) := declared_identity binary_images in
  if negb (truthy_int (load_addr id)) then
    ((None, None), out1 ++ say ["⚠️  报告中没有找到应用的二进制信息"])
  else
    let out2 :=
      out1 ++ say ["📋 报告信息:"]
           ++ [Print (OriginalPath (simulator_path id))]
           ++ (if truthy_opt (report_uuid id)
               then [Print (ReportUuid (get (report_uuid id) ""))] else [])
           ++ say [""] in
    if truthy_opt (simulator_path id)
       && path_exists w (get (simulator_path id) "") then
      ((simulator_path id, load_addr id),
       out2 ++ say ["✅ 使用报告中的路径"])
    else
      let out3 := out2 ++ say ["🔍 从 DerivedData 查找二进制文件..."] in
      let candidates := find_all_possible_binaries w in
      match candidates with
      | [] =>
          ((None, load_addr id),
           out3 ++ say ["❌ 未找到任何二进制文件"; ""; "请确保:";
                        "  1. 已在 Xcode 中编译过应用";
                        "  2. DerivedData 未被清理"; ""])
      | latest :: _ =>
          let out4 :=
            out3 ++ [Print (FoundCandidates (List.length candidates))]
                 ++ say [""] in
          let '(matched, out5) :=
            if truthy_opt (report_uuid id)
            then match_candidates w (get (report_uuid id) "") candidates
            else (None, []) in
          match matched with
          | Some candidate => ((Some candidate, load_addr id), out4 ++ out5)
          | None =>
              ((Some latest, load_addr id),
               out4 ++ out5
                 ++ say ["⚠️  无法通过 UUID 匹配，使用最新的二进制文件"]
                 ++ [Print (Chosen latest)]
                 ++ say [""; "⚠️  警告: 二进制文件可能与报告不匹配";
                         "   建议: 重新运行应用并立即生成新报告"; ""])
          end
      end.

(** ** get_cpu_arch (lines 148-159) *)

Definition get_cpu_arch (report_data : Report.t) : string :=
  let cpu_arch := get (Report.cpu_arch report_data) "" in
  if PyStr.contains "arm64" (PyStr.lower cpu_arch)
     || PyStr.contains "arm" (PyStr.lower cpu_arch) then "arm64"
  else if PyStr.contains "x86_64" (PyStr.lower cpu_arch) then "x86_64"
  else "arm64".

(** ** symbolicate_address (lines 161-193) *)

Definition symbolicate_address (w : World) (binary_path : string)
  (load_addr target_addr : Z) (arch : string) (verbose : bool)
  : option string * list Event :=
  let cmd := ["atos"; "-arch"; arch; "-o"; binary_path;
              "-l"; hex load_addr; hex target_addr] in
  let out1 := (if verbose then [Print (VCommand cmd)] else []) ++ [Spawn cmd] in
  match run w cmd with
  | Completed returncode stdout stderr =>
      let out2 :=
        out1 ++ (if verbose then
                   [Print (VReturnCode returncode);
                    Print (VOutput (PyStr.strip stdout))]
                   ++ (if PyStr.truthy stderr
                       then [Print (VStderr (PyStr.strip stderr))] else [])
                 else []) in
      if returncode =? 0 then
        let symbol := PyStr.strip stdout in
        if PyStr.truthy symbol
           && negb (String.eqb symbol (hex target_addr))
           && negb (PyStr.contains "0x" symbol)
        then (Some symbol, out2)
        else (None, out2)
      else (None, out2)
  | Raised _ =>
      (None, out1 ++ (if verbose then [Print VException] else []))
  end.

(** ** parse_symbol_output (lines 195-215) *)

(** [r'\(([^)]+\.(?:m|mm|c|cpp|swift)):(\d+)\)'] *)
Definition source_loc_re : Re.regex :=
  Re.Seq (Re.Str "(")
    (Re.Seq
       (Re.Group
          (Re.Seq (Re.ClassPlus (fun c => negb (Ascii.eqb c ")")))
             (Re.Seq (Re.Str ".")
                (Re.Alt (Re.Str "m")
                   (Re.Alt (Re.Str "mm")
                      (Re.Alt (Re.Str "c")
                         (Re.Alt (Re.Str "cpp") (Re.Str "swift"))))))))
       (Re.Seq (Re.Str ":")
          (Re.Seq (Re.Group (Re.CharPlus Unicode.is_decimal)) (Re.Str ")")))).

Definition parse_symbol_output (symbol_str : string) (verbose : bool)
  : (option string * option string) * list Event :=
  let out1 := if verbose then [Print (VParseInput symbol_str)] else [] in
  match Re.search source_loc_re symbol_str with
  | Some m =>
      let file_name := Re.group 1 m in
      let line_num := Re.group 2 m in
      ((Some file_name, Some line_num),
       out1 ++ (if verbose then [Print (VParseOk file_name line_num)] else []))
  | None =>
      ((None, None),
       out1 ++ (if verbose then say ["     [parse] 失败: 未匹配"] else []))
  end.

(** ** find_library_for_address (lines 217-250) *)

Fixpoint find_library_for_address (address : Z) (binary_images : list Image.t)
  : option string :=
  match binary_images with
  | [] => None
  | image :: rest =>
      let image_addr := get (Image.image_addr image) 0 in
      let image_size := get (Image.image_size image) 0 in
      if (image_addr <=? address) && (address <? image_addr + image_size) then
        let name := get (Image.name image) "" in
        let base_name := PyStr.basename name in
        if PyStr.startswith base_name "libsystem_" then Some "libsystem_*"
        else if PyStr.startswith base_name "libobjc" then
          Some "libobjc (Obj-C Runtime)"
        else if PyStr.startswith base_name "libdispatch" then
          Some "libdispatch (GCD)"
        else if PyStr.contains "UIKitCore" base_name
                || PyStr.contains "UIKit" base_name then Some "UIKit"
        else if PyStr.contains "CoreFoundation" base_name then
          Some "CoreFoundation"
        else if PyStr.contains "Foundation" base_name then Some "Foundation"
        else if PyStr.contains "QuartzCore" base_name then Some "QuartzCore"
        else if PyStr.contains "GraphicsServices" base_name then
          Some "GraphicsServices"
        else if PyStr.contains "dyld" (PyStr.lower base_name) then
          Some "dyld (动态链接器)"
        else Some base_name
      else find_library_for_address address rest
  end.

(** ** symbolicate_report (lines 252-628) *)

Definition app_name : string := "MatrixTestApp".

Definition option_eq_dec {A : Type} (dec : forall x y : A, {x = y} + {x <> y})
  (x y : option A) : {x = y} + {x <> y}.
Proof. decide equality. Defined.

Definition frame_eq_dec (a b : Frame.t) : {a = b} + {a <> b}.
Proof.
  decide equality;
    first [ apply string_dec
          | apply (option_eq_dec string_dec)
          | apply (option_eq_dec Z.eq_dec) ].
Defined.

Definition backtrace_eq_dec (a b : Backtrace.t) : {a = b} + {a <> b}.
Proof.
  decide equality;
    first [ apply string_dec
          | apply (option_eq_dec (list_eq_dec frame_eq_dec)) ].
Defined.

(** [a == b] on two thread objects: equality of all keys and values. *)
Definition thread_eq_dec (a b : Thread.t) : {a = b} + {a <> b}.
Proof.
  decide equality;
    first [ apply string_dec
          | apply (option_eq_dec (option_eq_dec string_dec))
          | apply (option_eq_dec Z.eq_dec)
          | apply (option_eq_dec bool_dec)
          | apply (option_eq_dec backtrace_eq_dec) ].
Defined.

(** [t == v] where the variable [v] may still hold [None]. *)
Definition thread_is (t : Thread.t) (v : option Thread.t) : bool :=
  match v with
  | Some t' => if thread_eq_dec t t' then true else false
  | None => false
  end.

(** [thread.get('backtrace', {}).get('contents', [])] *)
Definition frames_of (thread : Thread.t) : list Frame.t :=
  let backtrace :=
    get (Thread.backtrace thread)
        {| Backtrace.contents := None; Backtrace.extra := "" |} in
  get (Backtrace.contents backtrace) [].

(** The locals of the loop of lines 336-360. *)
Record Scan : Type := {
  main_thread : option Thread.t;
  crashed_thread : option Thread.t;
  app_code_threads : list Thread.t
}.

(** [thread.get('name', '未命名')]: [None] is Python's [None], which the
    key holds when the report says null. *)
Definition thread_name_of (thread : Thread.t) : option string :=
  get (Thread.name thread) (Some "未命名").

(** [thread_idx == 0] *)
Definition index_is_zero (thread : Thread.t) : bool :=
  match Thread.index thread with
  | Some thread_idx => thread_idx =? 0
  | None => false                                 (* '?' == 0 *)
  end.

(** The test of line 353 raises AttributeError: the index is not 0, so
    the right operand of [or] is evaluated, and the name is [None], which
    has no [lower]. *)
Definition main_test_raises (thread : Thread.t) : bool :=
  negb (index_is_zero thread)
  && match thread_name_of thread with
     | Some _ => false
     | None => true
     end.

(** The test of line 353, where it does not raise. *)
Definition is_main (thread : Thread.t) : bool :=
  index_is_zero thread
  || match thread_name_of thread with
     | Some thread_name => PyStr.contains "main" (PyStr.lower thread_name)
     | None => false
     end.

Definition has_app_code (thread : Thread.t) : bool :=
  existsb (fun frame =>
             PyStr.contains app_name (get (Frame.object_name frame) ""))
          (frames_of thread).

(** One turn of the loop. *)
Definition scan_thread (st : Scan) (thread : Thread.t) : Scan :=
  let is_crashed := get (Thread.crashed thread) false in
  {| main_thread := if is_main thread then Some thread else main_thread st;
     crashed_thread := if is_crashed then Some thread else crashed_thread st;
     app_code_threads :=
       if has_app_code thread then app_code_threads st ++ [thread]
       else app_code_threads st |}.

Definition scan_threads (threads : list Thread.t) : Scan :=
  fold_left scan_thread threads
    {| main_thread := None; crashed_thread := None; app_code_threads := [] |}.

(** Lines 362-381: the threads to show, with the lines that announce them,
    once the loop has run to its end (no thread made line 353 raise).
    ([if main_thread:] tests a dict for emptiness; a thread that passed
    [is_main] or carries [crashed] has at least that key.) *)
Definition threads_to_show (threads : list Thread.t)
  : list (ThreadLabel * Thread.t) * list Event :=
  let st := scan_threads threads in
  let '(shown1, out1) :=
    match main_thread st with
    | Some t => ([(MainLabel, t)], [Print (FoundMainThread t)])
    | None => ([], [])
    end in
  let '(shown2, out2) :=
    match crashed_thread st with
    | Some t =>
        if negb (thread_is t (main_thread st))
        then ([(CrashedLabel, t)], [Print (FoundCrashedThread t)])
        else ([], [])
    | None => ([], [])
    end in
  let others :=
    List.filter (fun thread =>
                   negb (thread_is thread (main_thread st)
                         || thread_is thread (crashed_thread st)))
                (app_code_threads st) in
  (shown1 ++ shown2
     ++ List.map (fun thread => (AppLabel (Thread.index thread), thread)) others,
   out1 ++ out2 ++ List.map (fun thread => Print (FoundAppThread thread)) others).

(** An entry of [app_code_locations]. *)
Module Loc.
Record t : Type := mk {
  thread : ThreadLabel;
  file : option string;
  line : option string;
  symbol : string
}.
End Loc.

(** [r'\(in ([^)]+)\)'] *)
Definition in_library_re : Re.regex :=
  Re.Seq (Re.Str "(in ")
    (Re.Seq (Re.Group (Re.ClassPlus (fun c => negb (Ascii.eqb c ")"))))
            (Re.Str ")")).

Definition framework_files : list string :=
  [ "KSCrash"; "KS"; "WCCrash"; "WCBlock"; "WCMemory"; "WCFPS"; "WCDump";
    "MatrixAdapter"; "MatrixPlugin"; "MatrixIssue"; "MatrixLog"; "MatrixDevice";
    "MatrixPath"; "MatrixBase"; "MatrixAppReboot";
    "logger_"; "memory_"; "stack_"; "object_" ].

(** [is_framework] of line 484. *)
Definition is_framework (file_name : string) : bool :=
  existsb (PyStr.startswith file_name) framework_files.

(** [is_app_code] as lines 474-494 compute it from the parsed file name. *)
Definition is_app_code (file_name : option string) : bool :=
  if truthy_opt file_name then negb (is_framework (get file_name ""))
  else true.

(** [not symbol or symbol == '<redacted>'] *)
Definition no_usable_symbol (symbol : option string) : bool :=
  negb (truthy_opt symbol) || String.eqb (get symbol "") "<redacted>".

(** Lines 442-451. *)
Definition should_symbolicate (app_frames : nat) (obj_name : string)
  (symbol : option string) : bool :=
  if Nat.ltb 0 app_frames then
    PyStr.contains app_name obj_name && no_usable_symbol symbol
  else
    String.eqb obj_name "???" && no_usable_symbol symbol.

(** What one turn of the frame loop leaves behind. *)
Record FrameStep : Type := {
  printed : list Event;
  counted : bool;                    (* the two counters were incremented *)
  location : option Loc.t            (* appended to app_code_locations *)
}.

(** The body of the loop of lines 431-543. *)
Definition symbolicate_frame (w : World) (binary_path : string) (load_addr : Z)
  (arch : string) (verbose : bool) (binary_images : list Image.t)
  (thread_label : ThreadLabel) (app_frames : nat) (i : nat) (frame : Frame.t)
  : FrameStep :=
  let obj_name := get (Frame.object_name frame) "???" in
  let symbol := Frame.symbol_name frame in
  let addr := get (Frame.instruction_addr frame) 0 in
  let trace := verbose && Nat.ltb i 3 in
  let out0 := if trace then [Print (VFrame i obj_name symbol addr)] else [] in
  if should_symbolicate app_frames obj_name symbol then
    let '(symbolicated, out1) :=
      symbolicate_address w binary_path load_addr addr arch trace in
    if truthy_opt symbolicated then
      let text := get symbolicated "" in
      let '((file_name, line_num), out2) := parse_symbol_output text trace in
      let display_name :=
        if String.eqb obj_name "???" then
          match Re.search in_library_re text with
          | Some in_match => Re.group 1 in_match
          | None =>
              let lib_name := find_library_for_address addr binary_images in
              if truthy_opt lib_name then get lib_name "" else obj_name
          end
        else obj_name in
      let out3 :=
        if truthy_opt file_name then
          if trace then
            [Print (VMark (get file_name "")
                          (is_framework (get file_name ""))
                          (is_app_code file_name))]
          else []
        else
          if trace then say ["     [标记] 未解析出文件名，默认为应用代码"]
          else [] in
      let display_name :=
        if String.eqb display_name "MatrixTestApp"
           && truthy_opt file_name
           && existsb (PyStr.startswith (get file_name "")) ["KS"; "WC"]
        then "MatrixTestApp [框架]" else display_name in
      {| printed :=
           out0 ++ out1 ++ out2 ++ out3
             ++ [Print (FrameResolved (is_app_code file_name) i display_name addr);
                 Print (SymbolText text)];
         counted := true;
         location :=
           if is_app_code file_name then
             Some {| Loc.thread := thread_label; Loc.file := file_name;
                     Loc.line := line_num; Loc.symbol := text |}
           else None |}
    else
      let lib_name := find_library_for_address addr binary_images in
      {| printed :=
           out0 ++ out1
             ++ [Print (if truthy_opt lib_name then
                          if negb (String.eqb (get lib_name "") "MatrixTestApp")
                          then FrameLib i (get lib_name "") addr
                          else FrameAppFailed i addr
                        else FrameUnknownLib i obj_name addr)];
         counted := false;
         location := None |}
  else
    {| printed :=
         out0
           ++ [Print (if truthy_opt symbol then
                        FrameSymbol i obj_name addr (get symbol "")
                      else if String.eqb obj_name "???" then
                        let lib_name :=
                          find_library_for_address addr binary_images in
                        if truthy_opt lib_name
                           && negb (String.eqb (get lib_name "") "MatrixTestApp")
                        then FrameLib i (get lib_name "") addr
                        else FramePlain i obj_name addr
                      else FramePlain i obj_name addr)];
       counted := false;
       location := None |}.

(** The accumulators of the walk. *)
Record Walk : Type := {
  output : list Event;
  total_symbolicated : nat;
  app_code_locations : list Loc.t
}.

Definition count_of (b : bool) : nat := if b then 1%nat else 0%nat.

(** The loop of line 431: [enumerate(frames)] from index [i] on;
    [acc] carries the output, [symbolicated_count] and the locations. *)
Fixpoint symbolicate_frames (w : World) (binary_path : string) (load_addr : Z)
  (arch : string) (verbose : bool) (binary_images : list Image.t)
  (thread_label : ThreadLabel) (app_frames : nat) (i : nat)
  (frames : list Frame.t) (acc : Walk) : Walk :=
  match frames with
  | [] => acc
  | frame :: rest =>
      let step :=
        symbolicate_frame w binary_path load_addr arch verbose binary_images
                          thread_label app_frames i frame in
      symbolicate_frames w binary_path load_addr arch verbose binary_images
        thread_label app_frames (S i) rest
        {| output := output acc ++ printed step;
           total_symbolicated :=
             (total_symbolicated acc + count_of (counted step))%nat;
           app_code_locations :=
             app_code_locations acc
               ++ match location step with Some l => [l] | None => [] end |}
  end.

Definition rule (c : ascii) : string := repeat_char c 80.

(** The body of the loop of lines 396-553 for one selected thread. *)
Definition symbolicate_thread (w : World) (binary_path : string) (load_addr : Z)
  (arch : string) (verbose : bool) (binary_images : list Image.t)
  (acc : Walk) (entry : ThreadLabel * Thread.t) : Walk :=
  let '(thread_label, target_thread) := entry in
  let out1 :=
    output acc ++ say [rule "="]
      ++ [Print (ThreadTitle thread_label target_thread)]
      ++ say [rule "="; ""] in
  let frames := frames_of target_thread in
  match frames with
  | [] =>
      {| output := out1 ++ say ["⚠️  该线程没有堆栈信息"; ""];
         total_symbolicated := total_symbolicated acc;
         app_code_locations := app_code_locations acc |}
  | _ :: _ =>
      let app_frames :=
        List.filter (fun frame =>
                       PyStr.contains app_name
                         (get (Frame.object_name frame) "???"))
                    frames in
      let out2 :=
        out1 ++ [Print (FrameCounts (List.length frames) (List.length app_frames))]
             ++ say [""]
             ++ (if Nat.eqb (List.length app_frames) 0
                 then say ["⚠️  未识别出应用代码栈帧，将尝试符号化所有地址"; ""]
                 else [])
             ++ say [rule "-"] in
      let scanned :=
        symbolicate_frames w binary_path load_addr arch verbose binary_images
          thread_label (List.length app_frames) 0 frames
          {| output := out2; total_symbolicated := 0;
             app_code_locations := app_code_locations acc |} in
      let symbolicated_count := total_symbolicated scanned in
      {| output :=
           output scanned ++ say [rule "-"; ""]
             ++ (if Nat.ltb 0 symbolicated_count
                 then [Print (ThreadSymbolicated symbolicated_count)]
                 else say ["⚠️  该线程没有符号化任何地址"])
             ++ say [""];
         total_symbolicated :=
           (total_symbolicated acc + symbolicated_count)%nat;
         app_code_locations := app_code_locations scanned |}
  end.

(** Lines 580-593: one entry of the closing list. *)
Definition show_location (loc : Loc.t) : list Event :=
  if truthy_opt (Loc.file loc) && truthy_opt (Loc.line loc) then
    [Print (LocWithFile (Loc.thread loc) (get (Loc.file loc) "")
                        (get (Loc.line loc) ""));
     Print (LocSymbol (Loc.symbol loc))] ++ say [""]
  else
    [Print (LocNoFile (Loc.thread loc)); Print (LocSymbol (Loc.symbol loc))]
      ++ say [""].

(** Lines 555-621: the closing summary. *)
Definition summary (walk : Walk) : list Event :=
  say [rule "="] ++ [Print (Total (total_symbolicated walk))]
    ++ say [rule "="; ""]
    ++ (if Nat.ltb 0 (total_symbolicated walk) then
          say ["💡 如何阅读报告:";
               "   👉 标记的是你的应用代码 - 重点关注这些";
               "   📌 主线程的堆栈通常是导致卡顿的真正原因";
               "   📂 文件名和行号在符号化信息中显示";
               "";
               "📚 堆栈说明:";
               "   👉 你的应用代码 - 重点关注（如 TestLagViewController.mm）";
               "   • MatrixTestApp [框架] - Matrix 监控内部代码（如 KSCrash, WC*）";
               "   • UIKit, Foundation, GCD 等 - iOS 系统框架";
               "   ⚠️ 符号化失败 - 应用代码但缺少调试信息";
               ""]
        else [])
    ++ (match app_code_locations walk with
        | [] => []
        | _ :: _ =>
            say [rule "="; "🎯 发现的应用代码位置（重点关注）:"; rule "="; ""]
              ++ flat_map show_location (app_code_locations walk)
              ++ say [rule "="; ""]
        end)
    ++ (if Nat.eqb (total_symbolicated walk) 0 then
          say ["⚠️  没有符号化任何应用代码地址";
               "";
               "💡 说明:";
               "   堆栈中显示的可能都是系统库代码（UIKit, Foundation等）";
               "   这些是 iOS 系统框架，不需要符号化";
               "";
               "🔍 如果应该有应用代码但没符号化，可能的原因:";
               "  1. 二进制文件与报告不匹配（UUID 不同）";
               "  2. 应用以 Release 模式编译（符号被剥离）";
               "  3. 报告太旧，对应的二进制文件已被重新编译";
               "";
               "💡 推荐的解决方法:";
               "  1. 在 Xcode 中重新运行应用 (Cmd+R)";
               "  2. 在应用中立即触发卡顿:";
               "     Matrix 功能演示 → 卡顿监控 → 模拟主线程卡顿";
               "  3. 立即再次运行此脚本";
               "";
               "⚙️  或检查 Xcode 设置:";
               "  - Build Settings → Debug Information Format = DWARF with dSYM File";
               "  - Build Settings → Strip Debug Symbols = NO (Debug)"]
        else [])
    ++ say [""; rule "="].

(** Lines 295-303: the module list of a verbose run. *)
Definition show_modules (binary_images : list Image.t) : list Event :=
  say [""; "📦 报告中的所有模块:"]
    ++ List.map (fun img =>
                   Print (VModule (PyStr.basename (get (Image.name img) "???"))
                                  (get (Image.image_addr img) 0)))
                (firstn 10 binary_images)
    ++ (if Nat.ltb 10 (List.length binary_images)
        then [Print (VMoreModules (List.length binary_images - 10))] else [])
    ++ say [""].

(** The [return] statement (or the end of the body) a call leaves by, or
    the exception that ends it. *)
Inductive Return : Type :=
| ReturnFileMissing          (* l.258 *)
| ReturnCannotCreateOutput   (* l.270 *)
| ReturnReadFailed           (* l.278 *)
| ReturnNoBinary             (* l.289 *)
| ReturnBinaryMissing        (* l.310 *)
| ReturnNoThreads            (* l.323 *)
| RaisedAttributeError       (* l.353, in the loop; nothing catches it *)
| ReturnNoRelevantThreads    (* l.385 *)
| ReturnEnd.                 (* l.628 *)

(** Lines 272-621, entered once the output stream is set up. *)
Definition walk_report (w : World) (report_path : string) (verbose : bool)
  : Return * list Event :=
  match load_json w report_path with
  | None => (ReturnReadFailed, [Print ErrReadFailed])
  | Some data =>
      let out1 := say [rule "="; "🔍 Matrix 报告符号化工具"; rule "="; ""] in
      let '((binary_path, load_addr), out2) := find_app_binary w data in
      if negb (truthy_opt binary_path) || negb (truthy_int load_addr) then
        (ReturnNoBinary,
         out1 ++ out2 ++ say ["❌ 无法从报告中找到应用二进制文件信息"])
      else
        let binary_path := get binary_path "" in
        let load_addr := get load_addr 0 in
        let out3 :=
          out1 ++ out2
            ++ [Print (AppBinary binary_path); Print (LoadAddress load_addr)]
            ++ (if verbose then show_modules (Report.binary_images data)
                else []) in
        if negb (path_exists w binary_path) then
          (ReturnBinaryMissing,
           out3 ++ say ["⚠️  警告: 二进制文件不存在"]
                ++ [Print (BinaryPathHint binary_path)]
                ++ say ["   提示: 可能需要重新编译应用"])
        else
          let arch := get_cpu_arch data in
          let out4 := out3 ++ [Print (CpuArch arch)] ++ say [""] in
          let threads := Report.threads data in
          match threads with
          | [] => (ReturnNoThreads, out4 ++ say ["❌ 报告中没有线程信息"])
          | _ :: _ =>
              let out5 := out4 ++ say ["🔍 分析所有线程..."; ""] in
              if existsb main_test_raises threads then
                (RaisedAttributeError, out5)
              else
              let '(shown, out6) := threads_to_show threads in
              match shown with
              | [] =>
                  (ReturnNoRelevantThreads,
                   out5 ++ out6 ++ say ["❌ 无法找到重要线程"])
              | _ :: _ =>
                  let binary_images := Report.binary_images data in
                  let walk :=
                    fold_left
                      (symbolicate_thread w binary_path load_addr arch verbose
                                          binary_images)
                      shown
                      {| output := out5 ++ out6 ++ say [""];
                         total_symbolicated := 0;
                         app_code_locations := [] |} in
                  (ReturnEnd, output walk ++ summary walk)
              end
          end
  end.

Definition symbolicate_report (w : World) (report_path : string)
  (output_file : option string) (verbose : bool) : Return * list Event :=
  if negb (path_exists w report_path) then
    (ReturnFileMissing, [Print (ErrFileMissing report_path)])
  else if truthy_opt output_file then
    let path := get output_file "" in
    if open_w w path then
      let out1 := [OpenOutput path; RedirectStdout; PrintOriginal (SavingTo path)] in
      let '(ret, out2) := walk_report w report_path verbose in
      match ret with
      | ReturnEnd =>
          (ReturnEnd,
           out1 ++ out2
             ++ [RestoreStdout; CloseOutput;
                 Print (SavedTo path); Print (ViewFile path)])
      | _ => (ret, out1 ++ out2)
      end
    else (ReturnCannotCreateOutput, [PrintOriginal ErrCannotCreateOutput])
  else walk_report w report_path verbose.

(** ** main (lines 630-656) *)

(** The parsed command line. *)
Module Args.
Record t : Type := mk {
  report : string;
  output : option string;
  verbose : bool
}.
End Args.

(** [main] has no [sys.exit] and no [try]: once [symbolicate_report] has
    returned, by whichever [return], the interpreter ends with status 0;
    when an exception ended it, the interpreter writes the traceback to
    the standard error stream (not modelled) and ends with status 1. *)
Definition main (w : World) (args : Args.t) : Z * list Event :=
  let '(ret, events) :=
    symbolicate_report w (Args.report args) (Args.output args)
                       (Args.verbose args) in
  (match ret with
   | RaisedAttributeError => 1
   | _ => 0
   end, events).

(** ** The state the events act on *)

Inductive Stream : Type := Console | OutputFile.

Inductive Handle : Type := NoHandle | Opened | Closed.

Record Sys : Type := {
  stdout : Stream;                   (* sys.stdout *)
  output_handle : Handle;
  console : list Msg;                (* written to the terminal *)
  file : list Msg;                   (* written to the output file *)
  spawned : list (list string)       (* the processes run, in order *)
}.

(** A fresh process: [sys.stdout] is the terminal. *)
Definition boot : Sys :=
  {| stdout := Console; output_handle := NoHandle;
     console := []; file := []; spawned := [] |}.

Definition exec (st : Sys) (e : Event) : Sys :=
  match e with
  | Print m =>
      match stdout st with
      | Console =>
          {| stdout := stdout st; output_handle := output_handle st;
             console := console st ++ [m]; file := file st;
             spawned := spawned st |}
      | OutputFile =>
          {| stdout := stdout st; output_handle := output_handle st;
             console := console st; file := file st ++ [m];
             spawned := spawned st |}
      end
  | PrintOriginal m =>
      {| stdout := stdout st; output_handle := output_handle st;
         console := console st ++ [m]; file := file st;
         spawned := spawned st |}
  | Spawn cmd =>
      {| stdout := stdout st; output_handle := output_handle st;
         console := console st; file := file st;
         spawned := spawned st ++ [cmd] |}
  | OpenOutput _ =>
      {| stdout := stdout st; output_handle := Opened;
         console := console st; file := []; spawned := spawned st |}
  | RedirectStdout =>
      {| stdout := OutputFile; output_handle := output_handle st;
         console := console st; file := file st; spawned := spawned st |}
  | RestoreStdout =>
      {| stdout := Console; output_handle := output_handle st;
         console := console st; file := file st; spawned := spawned st |}
  | CloseOutput =>
      {| stdout := stdout st; output_handle := Closed;
         console := console st; file := file st; spawned := spawned st |}
  end.

(** The state a run ends in. *)
Definition run_events (events : list Event) : Sys := fold_left exec events boot.

(* ================================================================== *)
(** * Part II.  The vocabulary of the specification *)
(* ================================================================== *)

(** The notions the properties are stated with.  They follow the words
    of the specification, not the code; the theorems of Part IV relate
    the two. *)

(** ** Image Map *)

(** The rule table of the Image Map, as the specification words it: an
    ordered list of tests on the basename, the first that applies gives
    the label, and the basename itself is the label when none does. *)
Inductive Rule : Type :=
| Prefix (p : string)              (* the basename starts with p *)
| Substring (p : string)           (* the basename contains p *)
| SubstringAnyCase (p : string).   (* the lower-cased basename contains p *)

Definition rule_applies (r : Rule) (base_name : string) : bool :=
  match r with
  | Prefix p => PyStr.startswith base_name p
  | Substring p => PyStr.contains p base_name
  | SubstringAnyCase p => PyStr.contains p (PyStr.lower base_name)
  end.

Fixpoint first_rule (table : list (Rule * string)) (base_name : string)
  : string :=
  match table with
  | [] => base_name
  | (r, label) :: table' =>
      if rule_applies r base_name then label else first_rule table' base_name
  end.

Definition platform_rules : list (Rule * string) :=
  [ (Prefix "libsystem_", "libsystem_*");
    (Prefix "libobjc", "libobjc (Obj-C Runtime)");
    (Prefix "libdispatch", "libdispatch (GCD)");
    (Substring "UIKit", "UIKit");
    (Substring "CoreFoundation", "CoreFoundation");
    (Substring "Foundation", "Foundation");
    (Substring "QuartzCore", "QuartzCore");
    (Substring "GraphicsServices", "GraphicsServices") ].

(** The table with the dynamic-linker rule read as a plain substring
    test, and with the test the code makes (on the lower-cased name). *)
Definition rule_table_as_worded : list (Rule * string) :=
  platform_rules ++ [(Substring "dyld", "dyld (动态链接器)")].

Definition rule_table : list (Rule * string) :=
  platform_rules ++ [(SubstringAnyCase "dyld", "dyld (动态链接器)")].

Definition derived_label (table : list (Rule * string)) (image : Image.t)
  : string :=
  first_rule table (PyStr.basename (get (Image.name image) "")).

(** [I.image_addr <= a < I.image_addr + I.image_size] *)
Definition contains_address (a : Z) (image : Image.t) : bool :=
  (get (Image.image_addr image) 0 <=? a)
  && (a <? get (Image.image_addr image) 0 + get (Image.image_size image) 0).

(** ** Symbol Resolver *)

(** The command line [symbolicate_address] runs. *)
Definition atos_cmd (arch binary_path : string) (load_addr target_addr : Z)
  : list string :=
  ["atos"; "-arch"; arch; "-o"; binary_path; "-l"; hex load_addr; hex target_addr].

(** The failures the specification lists: the invocation raised (its
    timeout elapsed), exited non-zero, printed nothing, or echoed the
    address. *)
Definition unresolved_as_worded (r : RunResult) (target_addr : Z) : Prop :=
  match r with
  | Raised _ => True
  | Completed returncode stdout _ =>
      returncode <> 0 \/ PyStr.strip stdout = ""
      \/ PyStr.strip stdout = hex target_addr
  end.

(** The failures the code knows: as above, with any output that
    contains 0x in place of the echoed address. *)
Definition unresolved (r : RunResult) : Prop :=
  match r with
  | Raised _ => True
  | Completed returncode stdout _ =>
      returncode <> 0 \/ PyStr.strip stdout = ""
      \/ PyStr.contains "0x" (PyStr.strip stdout) = true
  end.

(** ** Regular expressions, declaratively *)

(** Every character of [s] is in the class [p]. *)
Fixpoint str_all (p : ascii -> bool) (s : string) : bool :=
  match s with
  | EmptyString => true
  | String c s' => p c && str_all p s'
  end.

(** [s] is made of characters of the class [p], each of one to four
    bytes. *)
Fixpoint ustr_all (p : string -> bool) (s : string) : bool :=
  match s with
  | EmptyString => true
  | String b1 s1 =>
    if p (String b1 "") then ustr_all p s1 else
    match s1 with
    | EmptyString => false
    | String b2 s2 =>
      if p (String b1 (String b2 "")) then ustr_all p s2 else
      match s2 with
      | EmptyString => false
      | String b3 s3 =>
        if p (String b1 (String b2 (String b3 ""))) then ustr_all p s3 else
        match s3 with
        | EmptyString => false
        | String b4 s4 =>
          p (String b1 (String b2 (String b3 (String b4 ""))))
          && ustr_all p s4
        end
      end
    end
  end.

(** [matches r u c c']: the expression [r] can consume exactly the text
    [u], and turns the captures [c] into [c']. *)
Inductive matches : Re.regex -> string -> Re.Captures -> Re.Captures -> Prop :=
| MStr (w : string) (c : Re.Captures) : matches (Re.Str w) w c c
| MPlus (p : ascii -> bool) (u : string) (c : Re.Captures) :
    u <> EmptyString -> str_all p u = true -> matches (Re.ClassPlus p) u c c
| MCharPlus (p : string -> bool) (u : string) (c : Re.Captures) :
    u <> EmptyString -> ustr_all p u = true -> matches (Re.CharPlus p) u c c
| MSeq (r1 r2 : Re.regex) (u1 u2 : string) (c c1 c2 : Re.Captures) :
    matches r1 u1 c c1 -> matches r2 u2 c1 c2 ->
    matches (Re.Seq r1 r2) (u1 ++ u2)%string c c2
| MAltL (r1 r2 : Re.regex) (u : string) (c c' : Re.Captures) :
    matches r1 u c c' -> matches (Re.Alt r1 r2) u c c'
| MAltR (r1 r2 : Re.regex) (u : string) (c c' : Re.Captures) :
    matches r2 u c c' -> matches (Re.Alt r1 r2) u c c'
| MGroup (r : Re.regex) (u : string) (c c' : Re.Captures) :
    matches r u c c' -> matches (Re.Group r) u c (c' ++ [u]).

(** ** The source-location fragment *)

Definition source_extensions : list string := ["m"; "mm"; "c"; "cpp"; "swift"].

(** The class [[^x]]. *)
Definition not_char (x : ascii) (c : ascii) : bool := negb (Ascii.eqb c x).

(** [<file>.<ext>]: a non-empty stem without a closing parenthesis, a dot
    and one of the source extensions. *)
Definition is_source_file (file_name : string) : Prop :=
  exists stem ext,
    file_name = (stem ++ "." ++ ext)%string
    /\ stem <> EmptyString
    /\ str_all (not_char ")") stem = true
    /\ In ext source_extensions.

(** [<line>]: a non-empty string of decimal digits, those of any
    script. *)
Definition is_line_number (line_num : string) : Prop :=
  line_num <> EmptyString /\ ustr_all Unicode.is_decimal line_num = true.

(** [(<file>.<ext>:<line>)] *)
Definition source_fragment (file_name line_num : string) : string :=
  ("(" ++ file_name ++ ":" ++ line_num ++ ")")%string.

(** A fragment of that form starts at the head of [s]. *)
Definition fragment_starts (s : string) : Prop :=
  exists file_name line_num rest,
    is_source_file file_name /\ is_line_number line_num
    /\ s = (source_fragment file_name line_num ++ rest)%string.

(** A check, by running the matcher, that no fragment starts inside [pre]
    when [pre] is followed by [t]. *)
Fixpoint no_match_before (pre t : string) : bool :=
  match pre with
  | EmptyString => true
  | String _ pre' =>
      match Re.match_here source_loc_re (pre ++ t)%string with
      | Some _ => false
      | None => no_match_before pre' t
      end
  end.

(** ** Thread selection *)

(** The last element of [l] that satisfies [p]. *)
Fixpoint last_such {A : Type} (p : A -> bool) (l : list A) : option A :=
  match l with
  | [] => None
  | x :: l' =>
      match last_such p l' with
      | Some y => Some y
      | None => if p x then Some x else None
      end
  end.

(** [thread.get('crashed', False)] *)
Definition flagged_crashed (thread : Thread.t) : bool :=
  get (Thread.crashed thread) false.

(** A thread of interest: main, flagged crashed, or with an app frame. *)
Definition qualifies (thread : Thread.t) : bool :=
  is_main thread || flagged_crashed thread || has_app_code thread.

(** The list the selection policy describes: the main thread, then the
    crashed thread when it differs from it, then the other threads with
    application frames, in report order. *)
Definition selection_policy (threads : list Thread.t)
  : list (ThreadLabel * Thread.t) :=
  let main := last_such is_main threads in
  let crashed := last_such flagged_crashed threads in
  match main with Some m => [(MainLabel, m)] | None => [] end
  ++ match crashed with
     | Some c => if thread_is c main then [] else [(CrashedLabel, c)]
     | None => []
     end
  ++ List.map (fun t => (AppLabel (Thread.index t), t))
       (List.filter (fun t => has_app_code t
                              && negb (thread_is t main)
                              && negb (thread_is t crashed))
                    threads).

(** ** Thread selection, in the words of the policy *)













(** ** Frame classification *)

(** The two classes a resolved frame falls in; the code keeps the
    distinction as the flag [is_app_code]. *)
Inductive Classification : Type := AppCode | FrameworkCode.

Definition classification (file_name : option string) : Classification :=
  if is_app_code file_name then AppCode else FrameworkCode.

(** The monitoring-framework prefixes, as the specification lists
    them. *)
Definition monitoring_prefixes : list string :=
  [ "KSCrash"; "KS"; "WCCrash"; "WCBlock"; "WCMemory"; "WCFPS"; "WCDump";
    "MatrixAdapter"; "MatrixPlugin"; "MatrixIssue"; "MatrixLog";
    "MatrixDevice"; "MatrixPath"; "MatrixBase"; "MatrixAppReboot";
    "logger_"; "memory_"; "stack_"; "object_" ].

(** The file name starts with one of them. *)
Definition has_monitoring_prefix (file_name : string) : Prop :=
  exists prefix rest : string,
    In prefix monitoring_prefixes /\ file_name = (prefix ++ rest)%string.

(** ** Binary Locator *)

(** The basename is one of the known application-binary names. *)
Definition has_app_name (image : Image.t) : bool :=
  PyStr.mem (PyStr.basename (get (Image.name image) "")) app_binary_names.

(** The first image, in declaration order, with such a name. *)
Definition first_named (images : list Image.t) : option Image.t :=
  List.find has_app_name images.

(** [J] is the image with the smallest [image_addr], the first of them
    when several share it; an image without [image_addr] counts as
    infinitely far. *)
Definition first_smallest (J : Image.t) (images : list Image.t) : Prop :=
  exists pre post,
    images = pre ++ J :: post
    /\ (forall K, In K pre ->
                  key_lt (Image.image_addr J) (Image.image_addr K) = true)
    /\ (forall K, In K post ->
                  key_lt (Image.image_addr K) (Image.image_addr J) = false).

(** The warning of line 78. *)
Definition fallback_warning : list Event :=
  say ["⚠️  未找到明确的应用镜像，尝试使用第一个镜像"].

(** The command line [get_binary_uuid] runs. *)
Definition dwarfdump_cmd (binary_path : string) : list string :=
  ["dwarfdump"; "--uuid"; binary_path].

(** The processes a list of events spawns, in order. *)
Fixpoint spawns (events : list Event) : list (list string) :=
  match events with
  | [] => []
  | Spawn cmd :: rest => cmd :: spawns rest
  | _ :: rest => spawns rest
  end.

(** Equality of two UUID strings up to letter case. *)
Definition eq_ignoring_case (a b : string) : Prop :=
  PyStr.upper a = PyStr.upper b.

(** At least as recently modified. *)
Definition newer_first (w : World) (a b : string) : Prop :=
  getmtime w b <= getmtime w a.

(** ** Exits and the output file *)


(** A run of the identity tool (and so not of the symbolizer). *)
Definition is_dwarfdump (cmd : list string) : Prop :=
  exists binary_path, cmd = dwarfdump_cmd binary_path.

(** Events that leave [sys.stdout] and the output handle alone. *)
Definition plain (e : Event) : bool :=
  match e with
  | Print _ | Spawn _ => true
  | _ => false
  end.

(** ** The candidates, before they are sorted *)

(** The matches of the three patterns that exist, in the order the loop
    of lines 45-51 meets them. *)
Definition existing_matches (w : World) : list string :=
  flat_map (fun pattern =>
              List.filter (path_exists w)
                (glob w (path_join
                           (expanduser w "~/Library/Developer/Xcode/DerivedData")
                           pattern)))
           patterns.

(** The paths of [l] that were last modified at time [k]. *)
Definition modified_at (w : World) (k : Z) (l : list string) : list string :=
  List.filter (fun p => getmtime w p =? k) l.

(** ** The threads shown *)

(** What the label a thread is shown under says of it: it is the main
    thread; it is the crashed thread and not the main one; it has
    application frames, is neither of the two and carries the index of
    the label. *)
Definition shown_as (threads : list Thread.t) (label : ThreadLabel)
  (t : Thread.t) : Prop :=
  match label with
  | MainLabel => last_such is_main threads = Some t
  | CrashedLabel =>
      last_such flagged_crashed threads = Some t
      /\ last_such is_main threads <> Some t
  | AppLabel idx =>
      idx = Thread.index t /\ has_app_code t = true
      /\ last_such is_main threads <> Some t
      /\ last_such flagged_crashed threads <> Some t
  end.

(** ** The frames of a thread *)

(** [len(app_frames)] of line 421. *)
Definition app_frame_count (frames : list Frame.t) : nat :=
  List.length
    (List.filter (fun frame =>
                    PyStr.contains app_name
                      (get (Frame.object_name frame) "???"))
                 frames).

(** The frame is one that lines 442-451 send to the symbolizer, in a
    thread whose frames are [frames]. *)
Definition eligible (frames : list Frame.t) (frame : Frame.t) : bool :=
  should_symbolicate (app_frame_count frames)
    (get (Frame.object_name frame) "???") (Frame.symbol_name frame).

(** The symbolizer runs a thread asks for, in frame order. *)
Definition lookups (arch binary_path : string) (load_addr : Z)
  (thread : Thread.t) : list (list string) :=
  List.map (fun frame =>
              atos_cmd arch binary_path load_addr
                       (get (Frame.instruction_addr frame) 0))
           (List.filter (eligible (frames_of thread)) (frames_of thread)).

(** The index on the line that lists a frame (lines 514, 524, 526, 528,
    533, 539, 541, 543); no other line lists one. *)
Definition frame_line (e : Event) : option nat :=
  match e with
  | Print (FrameResolved _ i _ _) | Print (FrameLib i _ _)
  | Print (FrameAppFailed i _) | Print (FrameUnknownLib i _ _)
  | Print (FrameSymbol i _ _ _) | Print (FramePlain i _ _) => Some i
  | _ => None
  end.

(** The indices of the frames a run lists, in order. *)
Fixpoint frame_lines (events : list Event) : list nat :=
  match events with
  | [] => []
  | e :: rest =>
      match frame_line e with
      | Some i => i :: frame_lines rest
      | None => frame_lines rest
      end
  end.

(** The line of a resolved frame, and of one marked as application code. *)
Definition resolved_line_of (e : Event) : bool :=
  match e with
  | Print (FrameResolved _ _ _ _) => true
  | _ => false
  end.

Definition marked_line_of (e : Event) : bool :=
  match e with
  | Print (FrameResolved true _ _ _) => true
  | _ => false
  end.

Definition count_lines (p : Event -> bool) (events : list Event) : nat :=
  List.length (List.filter p events).

(** An event that lists no frame. *)
Definition lists_no_frame (e : Event) : bool :=
  match frame_line e with
  | Some _ => false
  | None => true
  end.

(** ** Runs compared *)

(** [l'] is [l] with printed lines added, and nothing else changed. *)
Inductive with_added_lines : list Event -> list Event -> Prop :=
| added_nil : with_added_lines [] []
| added_line (m : Msg) (l l' : list Event) :
    with_added_lines l l' -> with_added_lines l (Print m :: l')
| added_keep (e : Event) (l l' : list Event) :
    with_added_lines l l' -> with_added_lines (e :: l) (e :: l').

(** What a list of events prints to [sys.stdout], in order. *)
Fixpoint prints (events : list Event) : list Msg :=
  match events with
  | [] => []
  | Print m :: rest => m :: prints rest
  | _ :: rest => prints rest
  end.

(** The accumulators the loop over the shown threads starts from, and
    what it leaves, on the report [data] with the binary at
    [binary_path], loaded at [load_addr], when [header] was printed
    before it. *)
Definition walk_from (w : World) (verbose : bool) (data : Report.t)
  (binary_path : string) (load_addr : Z) (header : list Event) : Walk :=
  fold_left
    (symbolicate_thread w binary_path load_addr (get_cpu_arch data) verbose
                        (Report.binary_images data))
    (fst (threads_to_show (Report.threads data)))
    {| output := header; total_symbolicated := 0; app_code_locations := [] |}.

(** A run of the symbolizer against the located binary. *)
Definition is_lookup (arch binary_path : string) (load_addr : Z)
  (threads : list Thread.t) (cmd : list string) : Prop :=
  exists thread frame,
    In thread threads /\ In frame (frames_of thread)
    /\ cmd = atos_cmd arch binary_path load_addr
                      (get (Frame.instruction_addr frame) 0).

(** Two states of the accumulators that differ by added lines only. *)
Definition traced (quiet walk : Walk) : Prop :=
  with_added_lines (output quiet) (output walk)
  /\ total_symbolicated walk = total_symbolicated quiet
  /\ app_code_locations walk = app_code_locations quiet.

(** An entry of [app_code_locations] as the walk makes them: a resolved
    text, and either no file and no line, or the file and line of a
    source-location fragment whose file has no framework prefix. *)
Definition well_formed_location (loc : Loc.t) : Prop :=
  Loc.symbol loc <> EmptyString
  /\ PyStr.contains "0x" (Loc.symbol loc) = false
  /\ match Loc.file loc, Loc.line loc with
     | None, None => True
     | Some f, Some l =>
         is_source_file f /\ is_line_number l /\ ~ has_monitoring_prefix f
     | _, _ => False
     end.

(** No white-space character at either end. *)
Definition is_stripped (s : string) : Prop :=
  forall t rest : string,
    Unicode.is_space t = true ->
    s <> (t ++ rest)%string /\ s <> (rest ++ t)%string.

(* ================================================================== *)
(** * Part III.  Sample reports and machines *)
(* ================================================================== *)

(** Two overlapping images: the runtime at [0x1000, 0x2000) and UIKitCore
    at [0x1800, 0x3000). *)
Definition sample_objc : Image.t :=
  {| Image.name := Some "/usr/lib/libobjc.A.dylib";
     Image.image_addr := Some 4096; Image.image_size := Some 4096;
     Image.uuid := None |}.

Definition sample_uikit : Image.t :=
  {| Image.name := Some "/System/Library/PrivateFrameworks/UIKitCore";
     Image.image_addr := Some 6144; Image.image_size := Some 6144;
     Image.uuid := None |}.

(** An image of size 0 at 0x1000. *)
Definition sample_empty_image : Image.t :=
  {| Image.name := Some "/usr/lib/libempty.dylib";
     Image.image_addr := Some 4096; Image.image_size := Some 0;
     Image.uuid := None |}.

(** An image whose basename spells the linker's name in capitals. *)
Definition sample_dyld_caps : Image.t :=
  {| Image.name := Some "/usr/lib/DYLD";
     Image.image_addr := Some 4096; Image.image_size := Some 4096;
     Image.uuid := None |}.

(** A machine with no files and no tools, and variations of it. *)
Definition bare_world : World :=
  {| expanduser := fun p => p;
     glob := fun _ => [];
     path_exists := fun _ => false;
     getmtime := fun _ => 0;
     run := fun _ => Raised OtherError;
     load_json := fun _ => None;
     open_w := fun _ => false |}.

(** A machine whose every process exits with status 0 and prints [text]. *)
Definition printing_world (text : string) : World :=
  {| expanduser := expanduser bare_world;
     glob := glob bare_world;
     path_exists := path_exists bare_world;
     getmtime := getmtime bare_world;
     run := fun _ => Completed 0 text "";
     load_json := load_json bare_world;
     open_w := open_w bare_world |}.

Definition newline : string := String "010" EmptyString.

(** What [atos] prints for a frame it resolves with line information. *)
Definition resolved_line : string :=
  "-[Foo bar] (in MatrixTestApp) (Foo.mm:42)".

(** What [atos] prints for a frame of the monitoring framework. *)
Definition framework_line : string :=
  "kscm_handleException (in MatrixTestApp) (KSCrashMonitor.c:10)".

(** Characters outside the ASCII range, as their UTF-8 bytes: the no-break
    space U+00A0, the ideographic space U+3000, the superscript two U+00B2
    (a digit, but not a decimal one) and 42 written with the Arabic-Indic
    digits U+0664 and U+0662. *)
Definition no_break_space : string := String "194" (String "160" "").
Definition ideographic_space : string :=
  String "227" (String "128" (String "128" "")).
Definition superscript_two : string := String "194" (String "178" "").
Definition arabic_indic_42 : string :=
  String "217" (String "164" (String "217" (String "162" ""))).

(** The application's image, 1 MiB at 0x100000000, with a UUID in small
    letters. *)
Definition sample_app_image : Image.t :=
  {| Image.name := Some "/sim/MatrixTestApp.app/MatrixTestApp";
     Image.image_addr := Some 4294967296;
     Image.image_size := Some 1048576;
     Image.uuid := Some "abcd-1234" |}.

Definition frame_in (object_name : string) (addr : Z) : Frame.t :=
  {| Frame.object_name := Some object_name;
     Frame.symbol_name := None;
     Frame.instruction_addr := Some addr;
     Frame.extra := "" |}.

Definition thread_with (index : Z) (name : option string) (crashed : bool)
  (frames : list Frame.t) : Thread.t :=
  {| Thread.index := Some index;
     Thread.name := option_map Some name;
     Thread.crashed := Some crashed;
     Thread.backtrace :=
       Some {| Backtrace.contents := Some frames; Backtrace.extra := "" |};
     Thread.extra := "" |}.

Definition sample_main : Thread.t :=
  thread_with 0 (Some "com.apple.main-thread") false
              [frame_in "UIKitCore" 6400].

Definition sample_crashed : Thread.t :=
  thread_with 3 None true [frame_in "libobjc.A.dylib" 4100].

Definition sample_app : Thread.t :=
  thread_with 5 (Some "worker") false [frame_in "MatrixTestApp" 4294971392].





Definition sample_idle : Thread.t :=
  thread_with 7 None false [frame_in "libsystem_kernel.dylib" 4100].

Definition sample_report (threads : list Thread.t) : Report.t :=
  {| Report.cpu_arch := Some "arm64";
     Report.binary_images := [sample_app_image; sample_objc];
     Report.threads := threads |}.

(** A machine on which every path exists, every file opens, the report
    file holds [data] and every process prints [text] and exits with 0. *)
Definition sample_world (data : Report.t) (text : string) : World :=
  {| expanduser := fun p => p;
     glob := fun _ => [];
     path_exists := fun _ => true;
     getmtime := fun _ => 0;
     run := fun _ => Completed 0 text "";
     load_json := fun _ => Some data;
     open_w := fun _ => true |}.

(** Two images that are both loaded at address 0: the linker, declared first,
    and the application. *)
Definition zero_dyld_image : Image.t :=
  {| Image.name := Some "/usr/lib/dyld";
     Image.image_addr := Some 0; Image.image_size := Some 4096;
     Image.uuid := Some "AAAA-0000" |}.

Definition zero_app_image : Image.t :=
  {| Image.name := Some "/sim/MatrixTestApp.app/MatrixTestApp";
     Image.image_addr := Some 0; Image.image_size := Some 4096;
     Image.uuid := Some "BBBB-1111" |}.

Definition zero_world : World :=
  sample_world
    {| Report.cpu_arch := None;
       Report.binary_images := [zero_dyld_image; zero_app_image];
       Report.threads := [sample_main] |}
    "".

(** Two builds in DerivedData. *)
Definition old_build : string :=
  "/dd/A/Build/Products/Debug-iphonesimulator/MatrixTestApp.app/MatrixTestApp".

Definition new_build : string :=
  "/dd/B/Build/Products/Debug-iphonesimulator/MatrixTestApp.app/MatrixTestApp".

(** The older build has the report's UUID, the newer one another. *)
Definition search_world : World :=
  {| expanduser := fun _ => "/dd";
     glob := fun pattern =>
       if String.eqb pattern
            "/dd/*/Build/Products/Debug-iphonesimulator/MatrixTestApp.app/MatrixTestApp"
       then [old_build; new_build] else [];
     path_exists := fun p => PyStr.startswith p "/dd/";
     getmtime := fun p => if String.eqb p new_build then 200 else 100;
     run := fun cmd =>
       match cmd with
       | [tool; _; p] =>
           if String.eqb tool "dwarfdump" then
             if String.eqb p new_build
             then Completed 0 ("UUID: FFFF-0000 (arm64) " ++ p ++ newline)%string ""
             else Completed 0 ("UUID: ABCD-1234 (arm64) " ++ p ++ newline)%string ""
           else Raised OtherError
       | _ => Completed 0 (resolved_line ++ newline)%string ""
       end;
     load_json := fun _ => Some (sample_report [sample_app]);
     open_w := fun _ => true |}.






(** A main thread with one application frame whose symbol is redacted,
    and a machine on which the symbolizer resolves it. *)
Definition redacted_main : Thread.t :=
  thread_with 0 None false
    [{| Frame.object_name := Some "MatrixTestApp";
        Frame.symbol_name := Some "<redacted>";
        Frame.instruction_addr := Some 4294971392;
        Frame.extra := "" |};
     frame_in "UIKitCore" 6400].

Definition resolving_world : World :=
  sample_world (sample_report [redacted_main]) (resolved_line ++ newline)%string.

(** A machine whose every process prints [text] and exits with
    [returncode]. *)
Definition exit_world (returncode : Z) (text : string) : World :=
  {| expanduser := expanduser bare_world;
     glob := glob bare_world;
     path_exists := path_exists bare_world;
     getmtime := getmtime bare_world;
     run := fun _ => Completed returncode text "";
     load_json := load_json bare_world;
     open_w := open_w bare_world |}.

(** What the identity tool prints for a build that has an Intel slice
    only. *)
Definition intel_only : string :=
  ("UUID: ABCD-1234 (x86_64) /dd/A/MatrixTestApp" ++ newline)%string.

(** The application's image with a UUID that no build in DerivedData has,
    and with no UUID at all. *)
Definition stale_app_image : Image.t :=
  {| Image.name := Some "/sim/MatrixTestApp.app/MatrixTestApp";
     Image.image_addr := Some 4294967296;
     Image.image_size := Some 1048576;
     Image.uuid := Some "0000-0000" |}.

Definition anonymous_app_image : Image.t :=
  {| Image.name := Some "/sim/MatrixTestApp.app/MatrixTestApp";
     Image.image_addr := Some 4294967296;
     Image.image_size := Some 1048576;
     Image.uuid := None |}.

Definition report_of (image : Image.t) : Report.t :=
  {| Report.cpu_arch := Some "arm64";
     Report.binary_images := [image];
     Report.threads := [sample_app] |}.

(* ================================================================== *)
(** * Part IV.  Properties *)
(* ================================================================== *)

(** ** The helpers on the values the Python library gives

    Each line below is the value CPython 3 computes for the same
    expression. *)

Example ex_basename :
  PyStr.basename "/usr/lib/libobjc.A.dylib" = "libobjc.A.dylib"
  /\ PyStr.basename "a/b/" = ""
  /\ PyStr.basename "MatrixTestApp.app/MatrixTestApp" = "MatrixTestApp".
Proof. repeat split. Qed.

Example ex_split_lines :
  PyStr.split_lines ("a" ++ newline ++ "b" ++ newline)%string = ["a"; "b"; ""]
  /\ PyStr.split_lines "" = [""].
Proof. repeat split. Qed.

Example ex_strip :
  PyStr.strip (" " ++ newline ++ "main + 52  " ++ newline)%string = "main + 52".
Proof. reflexivity. Qed.

(** White space is that of [str.isspace], also outside the ASCII range,
    and only at the two ends. *)
Example ex_strip_unicode :
  PyStr.strip
    (ideographic_space ++ "main + 52" ++ no_break_space ++ newline)%string
  = "main + 52"
  /\ PyStr.strip (no_break_space ++ newline)%string = ""
  /\ PyStr.strip ("a" ++ no_break_space ++ "b")%string
     = ("a" ++ no_break_space ++ "b")%string
  /\ PyStr.strip (superscript_two ++ " ")%string = superscript_two
  /\ PyStr.strip ("动态 " ++ ideographic_space)%string = "动态".
Proof. repeat split. Qed.

Example ex_hex :
  hex 0 = "0x0" /\ hex 255 = "0xff" /\ hex (-255) = "-0xff"
  /\ hex 4294971392 = "0x100001000".
Proof. repeat split. Qed.

Example ex_path_join :
  path_join "/h/DD" "*/x" = "/h/DD/*/x"
  /\ path_join "" "x" = "x" /\ path_join "a/" "x" = "a/x".
Proof. repeat split. Qed.

Example ex_sort_desc :
  sort_desc [("a", 1); ("b", 2); ("c", 1); ("d", 2)]
  = [("b", 2); ("d", 2); ("a", 1); ("c", 1)].
Proof. reflexivity. Qed.

(** [min] keeps the first of the smallest, and an image without
    [image_addr] never wins against one that has it. *)
Example ex_min_from :
  min_from {| Image.name := Some "a"; Image.image_addr := Some 5;
              Image.image_size := None; Image.uuid := None |}
           [ {| Image.name := Some "b"; Image.image_addr := Some 3;
                Image.image_size := None; Image.uuid := None |};
             {| Image.name := Some "c"; Image.image_addr := None;
                Image.image_size := None; Image.uuid := None |};
             {| Image.name := Some "d"; Image.image_addr := Some 3;
                Image.image_size := None; Image.uuid := None |} ]
  = {| Image.name := Some "b"; Image.image_addr := Some 3;
       Image.image_size := None; Image.uuid := None |}.
Proof. reflexivity. Qed.

Example ex_source_loc_re :
  List.map (Re.search source_loc_re)
    [ "-[Foo bar] (in MatrixTestApp) (Foo.mm:42)";
      "(A.m:1) (B.m:2)";
      "f(x (Foo.mm:42)";
      "f (a.m:1.c:22)";
      "f (a.cpp:22)";
      "(.m:1)";
      "(a.mmm:1)";
      "(a.m:)";
      "(a.swift:12) x";
      "((a.m:1)";
      "(a.c:1(b.m:2)" ]
  = [ Some ["Foo.mm"; "42"];
      Some ["A.m"; "1"];
      Some ["x (Foo.mm"; "42"];
      Some ["a.m:1.c"; "22"];
      Some ["a.cpp"; "22"];
      None;
      None;
      None;
      Some ["a.swift"; "12"];
      Some ["(a.m"; "1"];
      Some ["a.c:1(b.m"; "2"] ].
Proof. reflexivity. Qed.

(** The class [\d] holds the decimal digits of every script, and no other
    digit. *)
Example ex_source_loc_re_digits :
  List.map (Re.search source_loc_re)
    [ ("(Foo.mm:" ++ arabic_indic_42 ++ ")")%string;
      ("(Foo.mm:4" ++ arabic_indic_42 ++ ") (B.m:2)")%string;
      ("f (Foo.mm:" ++ arabic_indic_42 ++ ") (B.m:2)")%string;
      ("(a.m:" ++ superscript_two ++ ")")%string;
      "(动态.swift:7)" ]
  = [ Some ["Foo.mm"; arabic_indic_42];
      Some ["Foo.mm"; ("4" ++ arabic_indic_42)%string];
      Some ["Foo.mm"; arabic_indic_42];
      None;
      Some ["动态.swift"; "7"] ].
Proof. reflexivity. Qed.

(** The identity tool prints capitals; a line in small letters yields no
    UUID, and a mixed one yields its leading capitals. *)
Example ex_uuid_re :
  scan_uuid_lines "arm64" ["UUID: ABCD-1234 (arm64) /x"] = Some "ABCD-1234"
  /\ scan_uuid_lines "arm64" ["UUID: abcd-1234 (arm64) /x"] = None
  /\ scan_uuid_lines "arm64" ["UUID: ABCD-12ef (arm64) /x"] = Some "ABCD-12"
  /\ scan_uuid_lines "arm64" ["UUID: ABCD-1234 (x86_64) /x"] = None.
Proof. repeat split. Qed.

(** ** Strings *)

Section StringFacts.

Lemma startswith_app_l (p q s : string) :
  PyStr.startswith s (p ++ q)%string = true -> PyStr.startswith s p = true.
Proof.
  revert s; induction p as [|a p IH]; intros s H; [reflexivity|].
  destruct s as [|b s]; cbn in *; [discriminate|].
  apply andb_true_iff in H as [Hab H]. rewrite Hab. now apply IH.
Qed.

Lemma contains_app_l (p q s : string) :
  PyStr.contains (p ++ q)%string s = true -> PyStr.contains p s = true.
Proof.
  induction s as [|c s IH]; cbn [PyStr.contains]; intros H.
  - apply orb_true_iff in H as [H|H]; [|discriminate].
    apply startswith_app_l in H. now rewrite H.
  - apply orb_true_iff in H as [H|H].
    + apply startswith_app_l in H. now rewrite H.
    + rewrite (IH H). apply orb_true_r.
Qed.

Lemma contains_middle (x a b : string) :
  PyStr.contains x (a ++ x ++ b)%string = true.
Proof.
  induction a as [|c a IH].
  - cbn [append]. assert (H : PyStr.startswith (x ++ b)%string x = true).
    { clear. induction x as [|c x IH]; [reflexivity|].
      cbn. now rewrite Ascii.eqb_refl, IH. }
    destruct (x ++ b)%string; cbn [PyStr.contains]; now rewrite H.
  - cbn [append PyStr.contains]. rewrite IH. apply orb_true_r.
Qed.

(** [s.startswith(p)]: [s] is [p] followed by something. *)
Lemma startswith_spec (s p : string) :
  PyStr.startswith s p = true <-> exists rest, s = (p ++ rest)%string.
Proof.
  revert s; induction p as [|a p IH]; intros s; cbn [PyStr.startswith append].
  - split; [now exists s | reflexivity].
  - destruct s as [|b s].
    + split; [discriminate | intros [rest H]; discriminate].
    + rewrite andb_true_iff, IH. split.
      * intros [Hab [rest ->]]. apply Ascii.eqb_eq in Hab as ->. now exists rest.
      * intros [rest [= -> ->]]. split; [apply Ascii.eqb_refl | now exists rest].
Qed.


End StringFacts.

(** ** Image Map *)

Lemma empty_image_contains_nothing (a : Z) (image : Image.t) :
  get (Image.image_size image) 0 = 0 -> contains_address a image = false.
Proof.
  intros H. unfold contains_address. rewrite H.
  destruct (Z.leb_spec (get (Image.image_addr image) 0) a);
    destruct (Z.ltb_spec a (get (Image.image_addr image) 0 + 0));
    simpl; auto; lia.
Qed.

Lemma find_library_for_address_find (a : Z) (images : list Image.t) :
  find_library_for_address a images
  = option_map (derived_label rule_table) (List.find (contains_address a) images).
Proof.
  induction images as [|image rest IH]; [reflexivity|].
  cbn [find_library_for_address List.find].
  fold (contains_address a image).
  destruct (contains_address a image); [|exact IH].
  cbn [option_map]. unfold derived_label.
  generalize (PyStr.basename (get (Image.name image) "")); intros b.
  cbn [rule_table platform_rules app first_rule rule_applies].
  destruct (PyStr.startswith b "libsystem_"); [reflexivity|].
  destruct (PyStr.startswith b "libobjc"); [reflexivity|].
  destruct (PyStr.startswith b "libdispatch"); [reflexivity|].
  destruct (PyStr.contains "UIKit" b) eqn:Hui.
  - rewrite orb_true_r. reflexivity.
  - destruct (PyStr.contains "UIKitCore" b) eqn:Hcore.
    + apply (contains_app_l "UIKit" "Core") in Hcore. congruence.
    + cbn [orb].
      destruct (PyStr.contains "CoreFoundation" b); [reflexivity|].
      destruct (PyStr.contains "Foundation" b); [reflexivity|].
      destruct (PyStr.contains "QuartzCore" b); [reflexivity|].
      destruct (PyStr.contains "GraphicsServices" b); [reflexivity|].
      destruct (PyStr.contains "dyld" (PyStr.lower b)); reflexivity.
Qed.

(** C1 (as amended).  For every list of binary images and every address
    [a], [find_library_for_address] returns the derived label of the first
    image in declaration order with
    [image_addr <= a < image_addr + image_size], and null when no image
    contains [a]; the label is the first applicable rule of the ordered
    table (libsystem_, libobjc, libdispatch prefixes; UIKit,
    CoreFoundation, Foundation, QuartzCore, GraphicsServices substrings;
    dyld as a substring of the lower-cased basename; otherwise the
    basename); an image of size 0 contains no address. *)
Theorem find_library_for_address_first_match :
  forall (a : Z) (images : list Image.t),
    (forall pre I post,
        images = pre ++ I :: post ->
        forallb (fun J => negb (contains_address a J)) pre = true ->
        contains_address a I = true ->
        find_library_for_address a images = Some (derived_label rule_table I))
    /\ (forallb (fun J => negb (contains_address a J)) images = true ->
        find_library_for_address a images = None)
    /\ (forall I, get (Image.image_size I) 0 = 0 -> contains_address a I = false).
Proof.
  intros a images. split; [|split].
  - intros pre I post -> Hpre HI.
    rewrite find_library_for_address_find.
    induction pre as [|J pre IH]; cbn [app List.find].
    + now rewrite HI.
    + cbn [forallb] in Hpre. apply andb_true_iff in Hpre as [HJ Hpre].
      apply negb_true_iff in HJ. rewrite HJ. now apply IH.
  - intros Hall. rewrite find_library_for_address_find.
    induction images as [|J images IH]; [reflexivity|].
    cbn [forallb] in Hall. apply andb_true_iff in Hall as [HJ Hall].
    apply negb_true_iff in HJ. cbn [List.find]. rewrite HJ. now apply IH.
  - intros I. apply empty_image_contains_nothing.
Qed.

(** At 0x1900, inside both sample images, the first one declared wins;
    address 100 is in neither; an image of size 0 contains not even its
    own base address. *)
Lemma find_library_for_address_first_match_witness :
  find_library_for_address 6400 [sample_objc; sample_uikit]
  = Some (derived_label rule_table sample_objc)
  /\ find_library_for_address 100 [sample_objc; sample_uikit] = None
  /\ contains_address 4096 sample_empty_image = false.
Proof.
  split; [|split].
  - apply (proj1 (find_library_for_address_first_match
                    6400 [sample_objc; sample_uikit])
                 [] sample_objc [sample_uikit]); reflexivity.
  - apply (proj1 (proj2 (find_library_for_address_first_match
                           100 [sample_objc; sample_uikit]))).
    reflexivity.
  - apply (proj2 (proj2 (find_library_for_address_first_match 4096 []))
                 sample_empty_image).
    reflexivity.
Defined.

(** C1 as the specification words it, with the dynamic-linker rule read
    as a plain substring test, does not hold: the basename DYLD does not
    contain dyld, yet the image gets the dynamic-linker label and not its
    basename. *)
Lemma find_library_for_address_dyld_case :
  ~ (forall (a : Z) (images pre : list Image.t) (I : Image.t)
            (post : list Image.t),
        images = pre ++ I :: post ->
        forallb (fun J => negb (contains_address a J)) pre = true ->
        contains_address a I = true ->
        find_library_for_address a images
        = Some (derived_label rule_table_as_worded I)).
Proof.
  intros H.
  specialize (H 4100 [sample_dyld_caps] [] sample_dyld_caps []
                eq_refl eq_refl eq_refl).
  vm_compute in H. discriminate H.
Qed.

(** ** Symbol Resolver *)

Lemma hex_contains_0x (n : Z) : PyStr.contains "0x" (hex n) = true.
Proof. destruct n; reflexivity. Qed.

Lemma truthy_false_iff (s : string) : PyStr.truthy s = false <-> s = "".
Proof. destruct s; simpl; split; congruence. Qed.

Lemma symbolicate_address_result (w : World) (binary_path : string)
  (load_addr target_addr : Z) (arch : string) (verbose : bool) :
  fst (symbolicate_address w binary_path load_addr target_addr arch verbose)
  = match run w (atos_cmd arch binary_path load_addr target_addr) with
    | Completed returncode stdout _ =>
        if (returncode =? 0) && PyStr.truthy (PyStr.strip stdout)
           && negb (PyStr.contains "0x" (PyStr.strip stdout))
        then Some (PyStr.strip stdout) else None
    | Raised _ => None
    end.
Proof.
  unfold symbolicate_address, atos_cmd.
  destruct (run w _) as [rc out err|e]; [|reflexivity].
  destruct (rc =? 0); [|reflexivity].
  destruct (PyStr.truthy (PyStr.strip out)); [|reflexivity].
  destruct (String.eqb_spec (PyStr.strip out) (hex target_addr)) as [E|E].
  - rewrite E, hex_contains_0x. reflexivity.
  - cbn [negb andb]. destruct (PyStr.contains "0x" (PyStr.strip out)); reflexivity.
Qed.

(** C2 (as amended).  [symbolicate_address] returns Unresolved exactly
    when the symbolizer invocation raises (its timeout included), exits
    non-zero, prints nothing but white space, or prints a text that
    contains 0x, which the echoed hex address always does; in every other
    case it returns the stripped output. *)
Theorem symbolicate_address_unresolved :
  forall (w : World) (binary_path : string) (load_addr target_addr : Z)
         (arch : string) (verbose : bool),
    let result := run w (atos_cmd arch binary_path load_addr target_addr) in
    let symbol :=
      fst (symbolicate_address w binary_path load_addr target_addr arch verbose) in
    (symbol = None <-> unresolved result)
    /\ (unresolved_as_worded result target_addr -> unresolved result)
    /\ (~ unresolved result ->
        exists returncode stdout stderr,
          result = Completed returncode stdout stderr
          /\ symbol = Some (PyStr.strip stdout)).
Proof.
  intros w bp la ta arch v result symbol.
  assert (Hsym := symbolicate_address_result w bp la ta arch v).
  fold result symbol in Hsym.
  destruct result as [rc out err|e]; cbn [unresolved unresolved_as_worded].
  - destruct (Z.eqb_spec rc 0) as [Hrc|Hrc];
      destruct (PyStr.truthy (PyStr.strip out)) eqn:Ht;
      destruct (PyStr.contains "0x" (PyStr.strip out)) eqn:Hx;
      cbn [andb negb] in Hsym; rewrite Hsym;
      try apply truthy_false_iff in Ht.
    all: split; [split; [try discriminate; tauto | intros [?|[?|?]]; try reflexivity;
                          try congruence; try (rewrite H in Ht; discriminate)]
                |split].
    all: try (intros [?|[?|E]]; [tauto|tauto|
              rewrite E, hex_contains_0x in Hx; try discriminate; tauto]).
    all: try (intros Hn; exfalso; apply Hn; tauto).
    all: try (intros _; now exists rc, out, err).
  - rewrite Hsym. split; [tauto|split; [tauto|]]. intros Hn. now destruct Hn.
Qed.

(** A symbolizer that resolves the address, with white space of two
    scripts around the line: the stripped line comes back.  A symbolizer
    that echoes the address, and one that prints only a no-break space:
    the result is Unresolved. *)
Lemma symbolicate_address_unresolved_witness :
  fst (symbolicate_address
         (printing_world
            (ideographic_space ++ resolved_line ++ no_break_space
             ++ newline)%string)
         "/b/MatrixTestApp" 4096 4100 "arm64" false)
  = Some resolved_line
  /\ fst (symbolicate_address (printing_world ("0x1004" ++ newline))
            "/b/MatrixTestApp" 4096 4100 "arm64" false)
     = None
  /\ fst (symbolicate_address
            (printing_world (no_break_space ++ newline)%string)
            "/b/MatrixTestApp" 4096 4100 "arm64" false)
     = None.
Proof.
  split; [|split].
  - destruct (proj2 (proj2 (symbolicate_address_unresolved
                              (printing_world
                                 (ideographic_space ++ resolved_line
                                  ++ no_break_space ++ newline)%string)
                              "/b/MatrixTestApp" 4096 4100 "arm64" false)))
      as (rc & out & err & Hrun & Hsym).
    + intros [H|[H|H]]; [now apply H | discriminate H | discriminate H].
    + injection Hrun as _ <- _. exact Hsym.
  - apply (proj1 (symbolicate_address_unresolved
                    (printing_world ("0x1004" ++ newline))
                    "/b/MatrixTestApp" 4096 4100 "arm64" false)).
    apply (proj1 (proj2 (symbolicate_address_unresolved
                           (printing_world ("0x1004" ++ newline))
                           "/b/MatrixTestApp" 4096 4100 "arm64" false))).
    right. right. reflexivity.
  - apply (proj1 (symbolicate_address_unresolved
                    (printing_world (no_break_space ++ newline)%string)
                    "/b/MatrixTestApp" 4096 4100 "arm64" false)).
    right. left. reflexivity.
Defined.

(** C2 as the specification words it does not hold on an output that
    holds 0x without being
    the echoed address: the tool exits with 0 and prints
    [main + 0x10], and the result is still Unresolved. *)
Lemma symbolicate_address_rejects_0x :
  ~ (forall (w : World) (binary_path : string) (load_addr target_addr : Z)
            (arch : string) (verbose : bool),
        fst (symbolicate_address w binary_path load_addr target_addr arch verbose)
        = None
        <-> unresolved_as_worded
              (run w (atos_cmd arch binary_path load_addr target_addr))
              target_addr).
Proof.
  intros H.
  destruct (H (printing_world "main + 0x10") "/b/MatrixTestApp" 4096 4100
              "arm64" false) as [Hnone _].
  destruct (Hnone eq_refl) as [E|[E|E]];
    [now apply E | discriminate E | discriminate E].
Qed.

(** ** Regular expressions: what the matcher finds *)

Section ReFacts.

Local Open Scope string_scope.

Lemma append_assoc (a b c : string) : (a ++ b) ++ c = a ++ (b ++ c).
Proof. induction a as [|x a IH]; cbn; [reflexivity | now rewrite IH]. Qed.

Lemma append_nil_r (a : string) : a ++ "" = a.
Proof. induction a as [|x a IH]; cbn; [reflexivity | now rewrite IH]. Qed.

Lemma length_append (a b : string) :
  String.length (a ++ b) = (String.length a + String.length b)%nat.
Proof. induction a as [|x a IH]; cbn; [reflexivity | now rewrite IH]. Qed.

Lemma substring_prefix (a b : string) :
  substring 0 (String.length a) (a ++ b) = a.
Proof.
  induction a as [|x a IH]; cbn.
  - destruct b; reflexivity.
  - now rewrite IH.
Qed.

Lemma consumed_append (u s' : string) : Re.consumed (u ++ s') s' = u.
Proof.
  unfold Re.consumed. rewrite length_append.
  replace (String.length u + String.length s' - String.length s')%nat
    with (String.length u) by lia.
  apply substring_prefix.
Qed.

Lemma strip_prefix_spec (w s s' : string) :
  Re.strip_prefix w s = Some s' <-> s = w ++ s'.
Proof.
  revert s; induction w as [|a w IH]; intros s; cbn.
  - split; congruence.
  - destruct s as [|b s]; [split; discriminate|].
    destruct (Ascii.eqb_spec a b) as [->|Hab].
    + rewrite IH. split; congruence.
    + split; [discriminate | congruence].
Qed.

Lemma star_sound (p : ascii -> bool) (s : string) (c : Re.Captures)
  (k : Re.Cont) (res : Re.Captures) :
  Re.star p s c k = Some res ->
  exists u s', s = u ++ s' /\ str_all p u = true /\ k s' c = Some res.
Proof.
  induction s as [|a s IH]; cbn; intros H.
  - now exists "", "".
  - destruct (p a) eqn:Hpa.
    + destruct (Re.star p s c k) as [r|] eqn:Hs.
      * destruct (IH H) as (u & s' & -> & Hu & Hk).
        exists (String a u), s'. cbn. now rewrite Hpa.
      * now exists "", (String a s).
    + now exists "", (String a s).
Qed.

Lemma star_complete (p : ascii -> bool) (u s' : string) (c : Re.Captures)
  (k : Re.Cont) :
  str_all p u = true -> k s' c <> None -> Re.star p (u ++ s') c k <> None.
Proof.
  intros Hu Hk. induction u as [|a u IH]; cbn.
  - destruct s' as [|b s']; cbn; [exact Hk|].
    destruct (p b); [|exact Hk].
    destruct (Re.star p s' c k); [discriminate | exact Hk].
  - cbn in Hu. apply andb_true_iff in Hu as [Ha Hu]. rewrite Ha.
    specialize (IH Hu). destruct (Re.star p (u ++ s') c k); [discriminate|].
    now elim IH.
Qed.

(** The character that [leading] finds is a prefix of the class, and it
    is found whatever follows it. *)
Lemma leading_spec (p : string -> bool) (s t s' : string) :
  Unicode.leading p s = Some (t, s') ->
  s = t ++ s' /\ p t = true /\ t <> ""
  /\ forall y, Unicode.leading p (t ++ y) = Some (t, y).
Proof.
  destruct s as [|b1 s]; [discriminate|]. cbn [Unicode.leading].
  destruct (p (String b1 "")) eqn:E1.
  { intros [= <- <-]. repeat split; [exact E1 | discriminate|].
    intros y. cbn [append Unicode.leading]. now rewrite E1. }
  destruct s as [|b2 s]; [discriminate|].
  destruct (p (String b1 (String b2 ""))) eqn:E2.
  { intros [= <- <-]. repeat split; [exact E2 | discriminate|].
    intros y. cbn [append Unicode.leading]. now rewrite E1, E2. }
  destruct s as [|b3 s]; [discriminate|].
  destruct (p (String b1 (String b2 (String b3 "")))) eqn:E3.
  { intros [= <- <-]. repeat split; [exact E3 | discriminate|].
    intros y. cbn [append Unicode.leading]. now rewrite E1, E2, E3. }
  destruct s as [|b4 s]; [discriminate|].
  destruct (p (String b1 (String b2 (String b3 (String b4 ""))))) eqn:E4;
    [|discriminate].
  intros [= <- <-]. repeat split; [exact E4 | discriminate|].
  intros y. cbn [append Unicode.leading]. now rewrite E1, E2, E3, E4.
Qed.

Lemma leading_app (p : string -> bool) (s t s' x : string) :
  Unicode.leading p s = Some (t, s') ->
  Unicode.leading p (s ++ x) = Some (t, s' ++ x).
Proof.
  intros H. apply leading_spec in H as (-> & _ & _ & H).
  rewrite append_assoc. apply H.
Qed.

Lemma leading_shorter (p : string -> bool) (s t s' : string) :
  Unicode.leading p s = Some (t, s') ->
  (String.length s' < String.length s)%nat.
Proof.
  intros H. apply leading_spec in H as (-> & _ & Hne & _).
  rewrite length_append. destruct t; [congruence | cbn; lia].
Qed.

Lemma ustar_eq (p : string -> bool) (s : string) (c : Re.Captures)
  (k : Re.Cont) :
  Re.ustar p s c k
  = match Unicode.leading p s with
    | Some (_, s') =>
        match Re.ustar p s' c k with
        | Some r => Some r
        | None => k s c
        end
    | None => k s c
    end.
Proof.
  destruct s as [|b1 s]; [reflexivity|]. cbn [Re.ustar Unicode.leading].
  destruct (p (String b1 "")); [reflexivity|].
  destruct s as [|b2 s]; [reflexivity|].
  destruct (p (String b1 (String b2 ""))); [reflexivity|].
  destruct s as [|b3 s]; [reflexivity|].
  destruct (p (String b1 (String b2 (String b3 "")))); [reflexivity|].
  destruct s as [|b4 s]; [reflexivity|].
  destruct (p (String b1 (String b2 (String b3 (String b4 "")))));
    reflexivity.
Qed.

Lemma ustr_all_eq (p : string -> bool) (s : string) :
  ustr_all p s
  = match s with
    | "" => true
    | _ => match Unicode.leading p s with
           | Some (_, s') => ustr_all p s'
           | None => false
           end
    end.
Proof.
  destruct s as [|b1 s]; [reflexivity|]. cbn [ustr_all Unicode.leading].
  destruct (p (String b1 "")); [reflexivity|].
  destruct s as [|b2 s]; [reflexivity|].
  destruct (p (String b1 (String b2 ""))); [reflexivity|].
  destruct s as [|b3 s]; [reflexivity|].
  destruct (p (String b1 (String b2 (String b3 "")))); [reflexivity|].
  destruct s as [|b4 s]; [reflexivity|].
  destruct (p (String b1 (String b2 (String b3 (String b4 "")))));
    reflexivity.
Qed.

(** One more character in front. *)
Lemma ustr_all_char (p : string -> bool) (t u : string) :
  t <> "" -> (forall y, Unicode.leading p (t ++ y) = Some (t, y)) ->
  ustr_all p (t ++ u) = ustr_all p u.
Proof.
  intros Hne H. rewrite (ustr_all_eq p (t ++ u)), H.
  destruct t; [congruence | reflexivity].
Qed.

Lemma ustar_sound (p : string -> bool) (c : Re.Captures) (k : Re.Cont)
  (res : Re.Captures) :
  forall (n : nat) (s : string),
    (String.length s <= n)%nat ->
    Re.ustar p s c k = Some res ->
    exists u s', s = u ++ s' /\ ustr_all p u = true /\ k s' c = Some res.
Proof.
  induction n as [|n IH]; intros s Hn; rewrite ustar_eq.
  - destruct s; [|cbn in Hn; lia]. cbn. intros H. now exists "", "".
  - destruct (Unicode.leading p s) as [[t s1]|] eqn:E;
      [|intros H; now exists "", s].
    assert (Hlt := leading_shorter _ _ _ _ E).
    apply leading_spec in E as (-> & _ & Hne & Hlead).
    destruct (Re.ustar p s1 c k) as [r|] eqn:Es;
      [|intros H; now exists "", (t ++ s1)].
    intros [= ->].
    apply IH in Es as (u & s' & -> & Hu & Hk); [|lia].
    exists (t ++ u), s'. rewrite append_assoc, ustr_all_char by assumption.
    auto.
Qed.

Lemma ustar_complete (p : string -> bool) (s' : string) (c : Re.Captures)
  (k : Re.Cont) :
  k s' c <> None ->
  forall (n : nat) (u : string),
    (String.length u <= n)%nat ->
    ustr_all p u = true -> Re.ustar p (u ++ s') c k <> None.
Proof.
  intros Hk. induction n as [|n IH]; intros u Hn Hu; rewrite ustar_eq.
  - destruct u; [|cbn in Hn; lia]. cbn [append].
    destruct (Unicode.leading p s') as [[t s1]|]; [|exact Hk].
    destruct (Re.ustar p s1 c k); [discriminate | exact Hk].
  - destruct u as [|b u].
    + cbn [append].
      destruct (Unicode.leading p s') as [[t s1]|]; [|exact Hk].
      destruct (Re.ustar p s1 c k); [discriminate | exact Hk].
    + rewrite ustr_all_eq in Hu.
      destruct (Unicode.leading p (String b u)) as [[t u1]|] eqn:E;
        [|discriminate].
      assert (Hlt := leading_shorter _ _ _ _ E).
      rewrite (leading_app _ _ _ _ s' E).
      assert (H1 : Re.ustar p (u1 ++ s') c k <> None)
        by (apply IH; [cbn in *; lia | exact Hu]).
      destruct (Re.ustar p (u1 ++ s') c k); [discriminate | congruence].
Qed.

Lemma rmatch_sound (r : Re.regex) :
  forall (s : string) (c : Re.Captures) (k : Re.Cont) (res : Re.Captures),
    Re.rmatch r s c k = Some res ->
    exists u s' c', s = u ++ s' /\ matches r u c c' /\ k s' c' = Some res.
Proof.
  induction r as [w|p|p|r1 IH1 r2 IH2|r1 IH1 r2 IH2|r IH]; intros s c k res H;
    cbn [Re.rmatch] in H.
  - destruct (Re.strip_prefix w s) as [s'|] eqn:E; [|discriminate].
    apply strip_prefix_spec in E. exists w, s', c. repeat split; auto.
    constructor.
  - destruct s as [|a s]; [discriminate|].
    destruct (p a) eqn:Hpa; [|discriminate].
    apply star_sound in H as (u & s' & -> & Hu & Hk).
    exists (String a u), s', c. repeat split; auto.
    constructor; [discriminate | cbn; now rewrite Hpa].
  - destruct (Unicode.leading p s) as [[t s1]|] eqn:E; [|discriminate].
    apply leading_spec in E as (-> & _ & Hne & Hlead).
    apply (ustar_sound _ _ _ _ _ _ (Nat.le_refl _)) in H
      as (u & s' & -> & Hu & Hk).
    exists (t ++ u), s', c. rewrite append_assoc. repeat split; auto.
    constructor.
    + destruct t; [congruence | discriminate].
    + now rewrite ustr_all_char.
  - apply IH1 in H as (u1 & s1 & c1 & -> & M1 & H).
    apply IH2 in H as (u2 & s2 & c2 & -> & M2 & H).
    exists (u1 ++ u2), s2, c2. rewrite append_assoc. repeat split; auto.
    econstructor; eauto.
  - destruct (Re.rmatch r1 s c k) as [r|] eqn:E.
    + injection H as ->. apply IH1 in E as (u & s' & c' & -> & M & Hk).
      exists u, s', c'. repeat split; auto. now apply MAltL.
    + apply IH2 in H as (u & s' & c' & -> & M & Hk).
      exists u, s', c'. repeat split; auto. now apply MAltR.
  - apply IH in H as (u & s' & c' & -> & M & Hk).
    rewrite consumed_append in Hk.
    exists u, s', (c' ++ [u])%list. repeat split; auto. now constructor.
Qed.

Lemma rmatch_complete (r : Re.regex) (u : string) (c c' : Re.Captures) :
  matches r u c c' ->
  forall (s' : string) (k : Re.Cont),
    k s' c' <> None -> Re.rmatch r (u ++ s') c k <> None.
Proof.
  induction 1 as [w c|p u c Hne Hall|p u c Hne Hall
                 |r1 r2 u1 u2 c c1 c2 M1 IH1 M2 IH2
                 |r1 r2 u c c' M IH|r1 r2 u c c' M IH|r u c c' M IH];
    intros s' k Hk; cbn [Re.rmatch].
  - destruct (Re.strip_prefix w (w ++ s')) as [t|] eqn:E.
    + apply strip_prefix_spec in E.
      assert (t = s') as ->; [|exact Hk].
      clear -E. induction w; cbn in E; [congruence|]. injection E. auto.
    + assert (Re.strip_prefix w (w ++ s') = Some s') as E'
        by now apply strip_prefix_spec.
      congruence.
  - destruct u as [|a u]; [congruence|]. cbn in *.
    apply andb_true_iff in Hall as [Ha Hu]. rewrite Ha.
    now apply star_complete.
  - destruct u as [|a u]; [congruence|]. rewrite ustr_all_eq in Hall.
    destruct (Unicode.leading p (String a u)) as [[t u1]|] eqn:E;
      [|discriminate].
    rewrite (leading_app _ _ _ _ s' E).
    now apply (ustar_complete p s' c k Hk _ _ (Nat.le_refl _)).
  - rewrite append_assoc. apply IH1. now apply IH2.
  - specialize (IH s' k Hk).
    destruct (Re.rmatch r1 (u ++ s') c k); [discriminate | now elim IH].
  - destruct (Re.rmatch r1 (u ++ s') c k); [discriminate | now apply IH].
  - apply IH. now rewrite consumed_append.
Qed.

(** A match at the head of [s] consumes a prefix that [matches]. *)
Lemma match_here_sound (r : Re.regex) (s : string) (caps : Re.Captures) :
  Re.match_here r s = Some caps ->
  exists u s', s = u ++ s' /\ matches r u [] caps.
Proof.
  intros H. apply rmatch_sound in H as (u & s' & c' & -> & M & E).
  injection E as ->. now exists u, s'.
Qed.

(** Where a prefix [matches], the matcher finds a match. *)
Lemma match_here_complete (r : Re.regex) (u s' : string) (caps : Re.Captures) :
  matches r u [] caps -> Re.match_here r (u ++ s') <> None.
Proof.
  intros M. unfold Re.match_here.
  apply (rmatch_complete r u [] caps M). discriminate.
Qed.

Lemma search_none (r : Re.regex) (s : string) :
  Re.search r s = None <->
  forall s1 s2, s = s1 ++ s2 -> Re.match_here r s2 = None.
Proof.
  induction s as [|a s IH]; cbn [Re.search].
  - split.
    + intros H s1 s2 E. destruct s1; [|discriminate]. cbn in E. subst s2.
      now destruct (Re.match_here r "").
    + intros H. now rewrite (H "" "" eq_refl).
  - split.
    + intros H s1 s2 E.
      destruct (Re.match_here r (String a s)) eqn:Hm; [discriminate|].
      destruct s1 as [|b s1]; cbn in E; [now subst s2|].
      injection E as -> E. now apply (proj1 IH H s1 s2).
    + intros H. rewrite (H "" (String a s) eq_refl).
      apply IH. intros s1 s2 E. apply (H (String a s1) s2). cbn. now rewrite E.
Qed.

(** [search] returns the match at the leftmost position that has one. *)
Lemma search_leftmost (r : Re.regex) (pre t : string) (caps : Re.Captures) :
  Re.match_here r t = Some caps ->
  (forall pre1 pre2, pre = pre1 ++ pre2 -> pre2 <> "" ->
                     Re.match_here r (pre2 ++ t) = None) ->
  Re.search r (pre ++ t) = Some caps.
Proof.
  intros Ht. induction pre as [|a pre IH]; intros Hpre.
  - cbn [append]. destruct t; cbn [Re.search]; now rewrite Ht.
  - assert (E0 : Re.match_here r (String a pre ++ t) = None)
      by (apply (Hpre "" (String a pre) eq_refl); discriminate).
    cbn [append] in E0. cbn [append Re.search]. rewrite E0.
    apply IH. intros pre1 pre2 E Hne.
    apply (Hpre (String a pre1) pre2); [cbn; now rewrite E | exact Hne].
Qed.

End ReFacts.

(** ** The source-location suffix *)

Section SourceLocation.

Local Open Scope string_scope.

Lemma matches_str_inv w u c c' :
  matches (Re.Str w) u c c' -> u = w /\ c' = c.
Proof. inversion 1; subst; auto. Qed.

Lemma matches_plus_inv p u c c' :
  matches (Re.ClassPlus p) u c c' -> u <> "" /\ str_all p u = true /\ c' = c.
Proof. inversion 1; subst; auto. Qed.

Lemma matches_charplus_inv p u c c' :
  matches (Re.CharPlus p) u c c' -> u <> "" /\ ustr_all p u = true /\ c' = c.
Proof. inversion 1; subst; auto. Qed.

Lemma matches_seq_inv r1 r2 u c c' :
  matches (Re.Seq r1 r2) u c c' ->
  exists u1 u2 c1, u = u1 ++ u2 /\ matches r1 u1 c c1 /\ matches r2 u2 c1 c'.
Proof. inversion 1; subst; do 3 eexists; repeat split; eauto. Qed.

Lemma matches_alt_inv r1 r2 u c c' :
  matches (Re.Alt r1 r2) u c c' -> matches r1 u c c' \/ matches r2 u c c'.
Proof. inversion 1; subst; auto. Qed.

Lemma matches_group_inv r u c c' :
  matches (Re.Group r) u c c' ->
  exists c1, matches r u c c1 /\ c' = (c1 ++ [u])%list.
Proof. inversion 1; subst; eauto. Qed.

Lemma matches_seq r1 r2 u u1 u2 c c1 c2 :
  u = u1 ++ u2 -> matches r1 u1 c c1 -> matches r2 u2 c1 c2 ->
  matches (Re.Seq r1 r2) u c c2.
Proof. intros ->. apply MSeq. Qed.

Lemma str_all_app p a b : str_all p (a ++ b) = str_all p a && str_all p b.
Proof.
  induction a as [|x a IH]; cbn; [reflexivity|].
  now rewrite IH, andb_assoc.
Qed.

Lemma str_all_impl (p q : ascii -> bool) s :
  (forall c, p c = true -> q c = true) ->
  str_all p s = true -> str_all q s = true.
Proof.
  intros Hpq. induction s as [|x s IH]; cbn; [reflexivity|].
  intros H. apply andb_true_iff in H as [Hx Hs].
  now rewrite (Hpq _ Hx), IH.
Qed.

(** A decimal digit of one byte is one of 0 to 9. *)
Lemma decimal_byte (b : ascii) :
  Unicode.is_decimal (String b "") = true -> PyStr.is_digit b = true.
Proof.
  destruct b as [[] [] [] [] [] [] [] []]; vm_compute;
    intros H; try reflexivity; discriminate H.
Qed.

Lemma continuation_high (b : ascii) (c : N) :
  Unicode.continuation b = Some c -> (128 <=? N_of_ascii b)%N = true.
Proof.
  unfold Unicode.continuation.
  destruct (128 <=? N_of_ascii b)%N; [reflexivity | discriminate].
Qed.

(** The leading byte tells how many bytes the character has. *)
Lemma code_point_lead (b : ascii) (r : string) (c : N) :
  Unicode.code_point (String b r) = Some c ->
  let n := N_of_ascii b in
  (n < 128 /\ String.length r = 0%nat)%N
  \/ (194 <= n < 224 /\ String.length r = 1%nat)%N
  \/ (224 <= n < 240 /\ String.length r = 2%nat)%N
  \/ (240 <= n < 245 /\ String.length r = 3%nat)%N.
Proof.
  cbn zeta. destruct r as [|b2 [|b3 [|b4 [|b5 r]]]]; cbn [Unicode.code_point];
    repeat match goal with
           | |- context [Unicode.continuation ?x] =>
               destruct (Unicode.continuation x)
           end;
    try discriminate.
  - destruct (N.ltb_spec (N_of_ascii b) 128); [auto | discriminate].
  - destruct (N.leb_spec 194 (N_of_ascii b)); cbn [andb]; [|discriminate].
    destruct (N.ltb_spec (N_of_ascii b) 224); [auto 6 | discriminate].
  - destruct (N.leb_spec 224 (N_of_ascii b)); cbn [andb]; [|discriminate].
    destruct (N.ltb_spec (N_of_ascii b) 240); cbn [andb]; [|discriminate].
    intros _. cbn. auto 8.
  - destruct (N.leb_spec 240 (N_of_ascii b)); cbn [andb]; [|discriminate].
    destruct (N.ltb_spec (N_of_ascii b) 245); cbn [andb]; [|discriminate].
    intros _. cbn. auto 10.
Qed.

(** The bytes of a character of two bytes or more are all above the ASCII
    range. *)
Lemma code_point_high (b1 b2 : ascii) (r : string) (c : N) :
  Unicode.code_point (String b1 (String b2 r)) = Some c ->
  str_all (fun b => (128 <=? N_of_ascii b)%N) (String b1 (String b2 r)) = true.
Proof.
  intros H. assert (Hl := code_point_lead _ _ _ H). cbn zeta in Hl.
  assert (H1 : (128 <=? N_of_ascii b1)%N = true).
  { apply N.leb_le. cbn [String.length] in Hl.
    destruct Hl as [[_ Hl]|[[Hl _]|[[Hl _]|[Hl _]]]]; [discriminate|lia..]. }
  cbn [str_all]. rewrite H1. cbn [andb]. clear Hl H1. revert H.
  destruct r as [|b3 [|b4 [|b5 r]]]; cbn [Unicode.code_point str_all];
    repeat match goal with
           | |- context [Unicode.continuation ?x] =>
               let E := fresh "E" in
               destruct (Unicode.continuation x) eqn:E;
               [apply continuation_high in E; rewrite E|]
           end;
    intros H; try discriminate H; reflexivity.
Qed.

(** A string of decimal digits is made of the bytes 0 to 9 and of bytes
    above the ASCII range. *)
Lemma decimal_bytes (l : string) :
  ustr_all Unicode.is_decimal l = true ->
  str_all (fun b => PyStr.is_digit b || (128 <=? N_of_ascii b)%N) l = true.
Proof.
  assert (G : forall n l, (String.length l <= n)%nat ->
                          ustr_all Unicode.is_decimal l = true ->
                          str_all (fun b => PyStr.is_digit b
                                            || (128 <=? N_of_ascii b)%N) l
                          = true);
    [|intros H; exact (G _ l (Nat.le_refl _) H)].
  induction n as [|n IH]; intros s Hn; (destruct s as [|b s]; [reflexivity|]).
  - cbn in Hn. lia.
  - rewrite ustr_all_eq.
    destruct (Unicode.leading Unicode.is_decimal (String b s)) as [[t s1]|] eqn:E;
      [|discriminate].
    assert (Hlt := leading_shorter _ _ _ _ E).
    apply leading_spec in E as (-> & Ht & Hne & _). intros Hs.
    rewrite str_all_app, (IH s1) by (try assumption; lia).
    rewrite andb_true_r.
    destruct t as [|b1 [|b2 r]]; [congruence| |].
    + cbn. now rewrite (decimal_byte _ Ht).
    + unfold Unicode.is_decimal, Unicode.in_class in Ht.
      destruct (Unicode.code_point (String b1 (String b2 r))) as [cp|] eqn:Ec;
        [|discriminate].
      apply code_point_high in Ec. revert Ec. apply str_all_impl.
      intros x ->. apply orb_true_r.
Qed.

Lemma decimal_not_char (x : ascii) (l : string) :
  PyStr.is_digit x = false -> (N_of_ascii x <? 128)%N = true ->
  ustr_all Unicode.is_decimal l = true -> str_all (not_char x) l = true.
Proof.
  intros Hx Hlow Hl. apply decimal_bytes in Hl. revert Hl.
  apply str_all_impl. intros c Hc. unfold not_char.
  destruct (Ascii.eqb_spec c x) as [->|]; [|reflexivity].
  rewrite Hx in Hc. cbn [orb] in Hc.
  apply N.leb_le in Hc. apply N.ltb_lt in Hlow. lia.
Qed.

(** Cutting at the first occurrence of [x]. *)
Lemma split_first (x : ascii) u1 u2 r1 r2 :
  str_all (not_char x) u1 = true -> str_all (not_char x) u2 = true ->
  u1 ++ String x r1 = u2 ++ String x r2 -> u1 = u2 /\ r1 = r2.
Proof.
  revert u2; induction u1 as [|a u1 IH]; intros [|b u2] H1 H2 E; cbn in *.
  - injection E; auto.
  - injection E as -> _. unfold not_char in H2. now rewrite Ascii.eqb_refl in H2.
  - injection E as -> _. unfold not_char in H1. now rewrite Ascii.eqb_refl in H1.
  - injection E as -> E.
    apply andb_true_iff in H1 as [_ H1]. apply andb_true_iff in H2 as [_ H2].
    destruct (IH u2 H1 H2 E) as [-> ->]. auto.
Qed.

(** Cutting at the last occurrence of [x]. *)
Lemma split_last (x : ascii) g1 g2 d1 d2 :
  str_all (not_char x) d1 = true -> str_all (not_char x) d2 = true ->
  g1 ++ String x d1 = g2 ++ String x d2 -> g1 = g2 /\ d1 = d2.
Proof.
  assert (Hno : forall a b, str_all (not_char x) (a ++ String x b) = false).
  { intros a b. rewrite str_all_app. cbn. unfold not_char at 2.
    rewrite Ascii.eqb_refl. cbn. apply andb_false_r. }
  revert g2; induction g1 as [|a g1 IH]; intros [|b g2] H1 H2 E; cbn in *.
  - injection E; auto.
  - injection E as _ E. rewrite E, Hno in H1. discriminate.
  - injection E as _ E. rewrite <- E, Hno in H2. discriminate.
  - injection E as -> E. destruct (IH g2 H1 H2 E) as [-> ->]. auto.
Qed.

Lemma source_file_no_rparen file_name :
  is_source_file file_name -> str_all (not_char ")") file_name = true.
Proof.
  intros (stem & ext & -> & _ & Hstem & Hext).
  rewrite str_all_app, Hstem. cbn [andb].
  cbn in Hext. decompose [or] Hext; subst; try reflexivity. contradiction.
Qed.

Lemma source_file_not_empty file_name :
  is_source_file file_name -> file_name <> "".
Proof.
  intros (stem & ext & -> & Hne & _) E. destruct stem; [congruence | discriminate].
Qed.

(** What the pattern of [parse_symbol_output] consumes, and what it
    captures. *)
Lemma matches_source_loc (u : string) (caps : Re.Captures) :
  matches source_loc_re u [] caps <->
  exists file_name line_num,
    is_source_file file_name /\ is_line_number line_num
    /\ u = source_fragment file_name line_num
    /\ caps = [file_name; line_num].
Proof.
  unfold source_loc_re. split.
  - intros M.
    apply matches_seq_inv in M as (u1 & u2 & c1 & -> & M1 & M).
    apply matches_str_inv in M1 as [-> ->].
    apply matches_seq_inv in M as (uf & u3 & c2 & -> & Mf & M).
    apply matches_group_inv in Mf as (c3 & Mf & ->).
    apply matches_seq_inv in Mf as (stem & u4 & c4 & -> & Mstem & Mf).
    apply matches_plus_inv in Mstem as (Hne & Hstem & ->).
    apply matches_seq_inv in Mf as (dot & ext & c5 & -> & Mdot & Mext).
    apply matches_str_inv in Mdot as [-> ->].
    apply matches_seq_inv in M as (colon & u5 & c6 & -> & Mcolon & M).
    apply matches_str_inv in Mcolon as [-> ->].
    apply matches_seq_inv in M as (line & close & c7 & -> & Mline & Mclose).
    apply matches_group_inv in Mline as (c8 & Mline & ->).
    apply matches_charplus_inv in Mline as (Hlne & Hline & ->).
    apply matches_str_inv in Mclose as [-> ->].
    assert (Hext : In ext source_extensions /\ c3 = []).
    { repeat (apply matches_alt_inv in Mext as [Mext|Mext];
              [apply matches_str_inv in Mext as [-> ->]; cbn; auto 10|]).
      apply matches_str_inv in Mext as [-> ->]; cbn; auto 10. }
    destruct Hext as [Hext ->].
    exists (stem ++ "." ++ ext), line.
    split; [now exists stem, ext|].
    split; [now split|].
    split; [|reflexivity].
    unfold source_fragment. cbn [append]. now rewrite !append_assoc.
  - intros (file & line & (stem & ext & -> & Hne & Hstem & Hext)
            & (Hlne & Hline) & -> & ->).
    unfold source_fragment.
    eapply matches_seq; [reflexivity | apply MStr |].
    eapply matches_seq; [reflexivity | | ].
    + change [stem ++ "." ++ ext]
        with (@nil string ++ [(stem ++ "." ++ ext)%string])%list.
      apply MGroup.
      eapply matches_seq; [reflexivity | now apply MPlus |].
      eapply matches_seq; [reflexivity | apply MStr |].
      cbn in Hext. decompose [or] Hext; subst; try contradiction.
      * apply MAltL, MStr.
      * apply MAltR, MAltL, MStr.
      * apply MAltR, MAltR, MAltL, MStr.
      * apply MAltR, MAltR, MAltR, MAltL, MStr.
      * apply MAltR, MAltR, MAltR, MAltR, MStr.
    + eapply matches_seq; [reflexivity | apply MStr |].
      eapply matches_seq; [reflexivity | | apply MStr].
      change [stem ++ "." ++ ext; line]
        with ([(stem ++ "." ++ ext)%string] ++ [line])%list.
      apply MGroup. now apply MCharPlus.
Qed.

(** Two fragments that start at the same place are the same fragment. *)
Lemma source_fragment_unique file1 line1 rest1 file2 line2 rest2 :
  is_source_file file1 -> is_line_number line1 ->
  is_source_file file2 -> is_line_number line2 ->
  source_fragment file1 line1 ++ rest1 = source_fragment file2 line2 ++ rest2 ->
  file1 = file2 /\ line1 = line2.
Proof.
  intros F1 [_ L1] F2 [_ L2] E. unfold source_fragment in E.
  cbn [append] in E. injection E as E.
  assert (Hr : forall l, ustr_all Unicode.is_decimal l = true ->
                         str_all (not_char ")") l = true)
    by (intros l; now apply decimal_not_char).
  assert (Hc : forall l, ustr_all Unicode.is_decimal l = true ->
                         str_all (not_char ":") l = true)
    by (intros l; now apply decimal_not_char).
  assert (E' : (file1 ++ ":" ++ line1) ++ String ")" rest1
               = (file2 ++ ":" ++ line2) ++ String ")" rest2).
  { rewrite !append_assoc in *. cbn [append] in *. rewrite !append_assoc in E.
    exact E. }
  apply split_first in E' as [E' _].
  - apply (split_last ":") in E'; auto.
  - rewrite str_all_app, (source_file_no_rparen _ F1). cbn. now apply Hr.
  - rewrite str_all_app, (source_file_no_rparen _ F2). cbn. now apply Hr.
Qed.

Lemma match_here_source_fragment file_name line_num rest :
  is_source_file file_name -> is_line_number line_num ->
  Re.match_here source_loc_re (source_fragment file_name line_num ++ rest)
  = Some [file_name; line_num].
Proof.
  intros F L.
  assert (M : matches source_loc_re (source_fragment file_name line_num) []
                      [file_name; line_num])
    by (apply matches_source_loc; now exists file_name, line_num).
  destruct (Re.match_here source_loc_re (source_fragment file_name line_num ++ rest))
    as [caps|] eqn:E; [|now apply (match_here_complete _ _ rest) in M].
  apply match_here_sound in E as (u & s' & E & M').
  apply matches_source_loc in M' as (file' & line' & F' & L' & -> & ->).
  destruct (source_fragment_unique _ _ _ _ _ _ F L F' L' E) as [-> ->].
  reflexivity.
Qed.

Lemma match_here_fragment_starts (s : string) (caps : Re.Captures) :
  Re.match_here source_loc_re s = Some caps -> fragment_starts s.
Proof.
  intros E. apply match_here_sound in E as (u & s' & -> & M).
  apply matches_source_loc in M as (file & line & F & L & -> & _).
  now exists file, line, s'.
Qed.

Lemma no_fragment_no_match (s : string) :
  ~ fragment_starts s -> Re.match_here source_loc_re s = None.
Proof.
  intros H. destruct (Re.match_here source_loc_re s) eqn:E; [|reflexivity].
  now apply match_here_fragment_starts in E.
Qed.

End SourceLocation.

(** C3 (as amended).  For every string that carries a parenthesized
    fragment [(<file>.<ext>:<line>)], with [<ext>] one of m, mm, c, cpp,
    swift and [<line>] a string of decimal digits (of any script, as the
    class [\d] has them), and in which no fragment of that
    form starts further left, [parse_symbol_output] returns exactly that
    file name and that line number; for every string with no such fragment
    at any position it returns null for both. *)
Theorem parse_symbol_output_leftmost_fragment :
  forall (verbose : bool),
    (forall (pre file_name line_num post : string),
        is_source_file file_name -> is_line_number line_num ->
        (forall pre1 pre2 : string,
            pre = (pre1 ++ pre2)%string -> pre2 <> EmptyString ->
            ~ fragment_starts
                (pre2 ++ source_fragment file_name line_num ++ post)%string) ->
        fst (parse_symbol_output
               (pre ++ source_fragment file_name line_num ++ post)%string verbose)
        = (Some file_name, Some line_num))
    /\ (forall s : string,
           (forall s1 s2 : string, s = (s1 ++ s2)%string -> ~ fragment_starts s2) ->
           fst (parse_symbol_output s verbose) = (None, None)).
Proof.
  intros verbose. split.
  - intros pre file line post F L Hleft. unfold parse_symbol_output.
    rewrite (search_leftmost source_loc_re pre _ [file; line]).
    + reflexivity.
    + now apply match_here_source_fragment.
    + intros pre1 pre2 E Hne. apply no_fragment_no_match. now apply (Hleft pre1).
  - intros s Hnone. unfold parse_symbol_output.
    assert (E : Re.search source_loc_re s = None).
    { apply search_none. intros s1 s2 Hs. apply no_fragment_no_match.
      now apply (Hnone s1). }
    now rewrite E.
Qed.

Lemma no_match_before_sound (pre t : string) :
  no_match_before pre t = true ->
  forall pre1 pre2 : string,
    pre = (pre1 ++ pre2)%string -> pre2 <> EmptyString ->
    ~ fragment_starts (pre2 ++ t)%string.
Proof.
  induction pre as [|a pre IH]; intros Hcheck pre1 pre2 E Hne.
  - destruct pre1, pre2; cbn in E; congruence.
  - cbn [no_match_before] in Hcheck.
    destruct (Re.match_here source_loc_re (String a pre ++ t)%string) eqn:Hm;
      [discriminate|].
    destruct pre1 as [|b pre1]; cbn in E.
    + subst pre2. intros (file & line & rest & F & L & Es).
      rewrite Es, match_here_source_fragment in Hm by assumption.
      discriminate.
    + injection E as _ E. now apply (IH Hcheck pre1 pre2).
Qed.

Lemma is_source_file_intro (stem ext : string) :
  stem <> EmptyString -> str_all (not_char ")") stem = true ->
  In ext source_extensions -> is_source_file (stem ++ "." ++ ext)%string.
Proof. intros. now exists stem, ext. Qed.

Lemma no_match_before_anywhere (s : string) :
  no_match_before s "" = true ->
  forall s1 s2 : string, s = (s1 ++ s2)%string -> ~ fragment_starts s2.
Proof.
  intros Hcheck s1 s2 E. destruct s2 as [|a s2].
  - intros (file & line & rest & _ & _ & Es). discriminate Es.
  - rewrite <- (append_nil_r (String a s2)).
    apply (no_match_before_sound s "" Hcheck s1); [exact E | discriminate].
Qed.

(** The line [atos] prints for a frame with line information, a line
    whose number is in Arabic-Indic digits and is followed by a second
    fragment, and the line [atos] prints for a frame without line
    information. *)
Lemma parse_symbol_output_leftmost_fragment_witness :
  fst (parse_symbol_output
         ("-[Foo bar] (in MatrixTestApp) " ++ source_fragment "Foo.mm" "42" ++ "")%string
         false)
  = (Some "Foo.mm", Some "42")
  /\ fst (parse_symbol_output
            ("f " ++ source_fragment "Foo.mm" arabic_indic_42 ++ " (B.m:2)")%string
            false)
     = (Some "Foo.mm", Some arabic_indic_42)
  /\ fst (parse_symbol_output "main (in MatrixTestApp) + 52" false)
     = (None, None).
Proof.
  split; [|split].
  - apply (proj1 (parse_symbol_output_leftmost_fragment false)
                 "-[Foo bar] (in MatrixTestApp) " "Foo.mm" "42" "").
    + apply (is_source_file_intro "Foo" "mm");
        [discriminate | reflexivity | cbn; tauto].
    + split; [discriminate | reflexivity].
    + apply no_match_before_sound. vm_compute. reflexivity.
  - apply (proj1 (parse_symbol_output_leftmost_fragment false)
                 "f " "Foo.mm" arabic_indic_42 " (B.m:2)").
    + apply (is_source_file_intro "Foo" "mm");
        [discriminate | reflexivity | cbn; tauto].
    + split; [discriminate | reflexivity].
    + apply no_match_before_sound. vm_compute. reflexivity.
  - apply (proj2 (parse_symbol_output_leftmost_fragment false)
                 "main (in MatrixTestApp) + 52").
    apply no_match_before_anywhere. vm_compute. reflexivity.
Defined.

(** C3 as the specification words it does not hold when an earlier
    fragment of the same form
    precedes the suffix: the parser returns the earlier one. *)
Lemma parse_symbol_output_earlier_fragment :
  ~ (forall (pre file_name line_num : string) (verbose : bool),
        is_source_file file_name -> is_line_number line_num ->
        fst (parse_symbol_output
               (pre ++ source_fragment file_name line_num)%string verbose)
        = (Some file_name, Some line_num)).
Proof.
  intros H.
  assert (E := H "(A.m:1) " "B.m" "2" false).
  assert (F : is_source_file "B.m")
    by (apply (is_source_file_intro "B" "m");
        [discriminate | reflexivity | cbn; tauto]).
  assert (L : is_line_number "2") by (split; [discriminate | reflexivity]).
  specialize (E F L). vm_compute in E. discriminate E.
Qed.

(** ** Thread selection *)

Section ThreadSelection.

Lemma last_such_app {A : Type} (p : A -> bool) (l : list A) (x : A) :
  last_such p (l ++ [x]) = if p x then Some x else last_such p l.
Proof.
  induction l as [|y l IH]; cbn.
  - now destruct (p x).
  - rewrite IH. now destruct (p x).
Qed.


Lemma last_such_some {A : Type} (p : A -> bool) (l : list A) (x : A) :
  last_such p l = Some x -> In x l /\ p x = true.
Proof.
  induction l as [|y l IH]; cbn; [discriminate|].
  destruct (last_such p l) as [z|].
  - intros [= ->]. destruct (IH eq_refl). split; [now right | assumption].
  - destruct (p y) eqn:Hy; [|discriminate].
    intros [= ->]. split; [now left | assumption].
Qed.

Lemma scan_threads_snoc (threads : list Thread.t) (thread : Thread.t) :
  scan_threads (threads ++ [thread]) = scan_thread (scan_threads threads) thread.
Proof. unfold scan_threads. now rewrite fold_left_app. Qed.

(** What the loop of lines 336-360 leaves in its three variables. *)
Lemma scan_threads_spec (threads : list Thread.t) :
  scan_threads threads
  = {| main_thread := last_such is_main threads;
       crashed_thread := last_such flagged_crashed threads;
       app_code_threads := List.filter has_app_code threads |}.
Proof.
  induction threads as [|thread threads IH] using rev_ind; [reflexivity|].
  rewrite scan_threads_snoc, IH. unfold scan_thread. cbn.
  rewrite !last_such_app, filter_app. cbn. unfold flagged_crashed.
  destruct (has_app_code thread); [reflexivity|].
  now rewrite app_nil_r.
Qed.

Lemma filter_filter {A : Type} (p q : A -> bool) (l : list A) :
  List.filter q (List.filter p l) = List.filter (fun x => p x && q x) l.
Proof.
  induction l as [|x l IH]; [reflexivity|]. cbn.
  destruct (p x); cbn; [destruct (q x)|]; now rewrite IH.
Qed.

Lemma threads_to_show_policy (threads : list Thread.t) :
  fst (threads_to_show threads) = selection_policy threads.
Proof.
  unfold threads_to_show, selection_policy. rewrite scan_threads_spec.
  cbn [main_thread crashed_thread app_code_threads].
  rewrite filter_filter.
  rewrite (filter_ext _
             (fun t => has_app_code t
                       && negb (thread_is t (last_such is_main threads))
                       && negb (thread_is t (last_such flagged_crashed threads))))
    by (intros t; now rewrite negb_orb, andb_assoc).
  destruct (last_such is_main threads) as [m|];
    destruct (last_such flagged_crashed threads) as [c|];
    try destruct (thread_is c _); reflexivity.
Qed.







Lemma thread_is_spec (t : Thread.t) (v : option Thread.t) :
  thread_is t v = true <-> v = Some t.
Proof.
  unfold thread_is. destruct v as [t'|]; [|split; discriminate].
  destruct (thread_eq_dec t t') as [->|Hne]; split; congruence.
Qed.








End ThreadSelection.

(** ** The walk and its exits *)

Section WalkExits.

Lemma truthy_opt_some (s : string) :
  s <> EmptyString -> truthy_opt (Some s) = true.
Proof. destruct s; [congruence | reflexivity]. Qed.

Lemma truthy_int_some (z : Z) : z <> 0 -> truthy_int (Some z) = true.
Proof. intros H. cbn. now destruct (Z.eqb_spec z 0). Qed.




End WalkExits.






Example ex_selection :
  List.map fst
    (fst (threads_to_show [sample_crashed; sample_app; sample_main; sample_idle]))
  = [MainLabel; CrashedLabel; AppLabel (Some 5)].
Proof. reflexivity. Qed.

(** ** Frame classification *)

Section FrameClassification.

Lemma search_sound (r : Re.regex) (s : string) (caps : Re.Captures) :
  Re.search r s = Some caps ->
  exists pre t, s = (pre ++ t)%string /\ Re.match_here r t = Some caps.
Proof.
  induction s as [|a s IH]; cbn [Re.search]; intros H.
  - destruct (Re.match_here r "") eqn:E; [|discriminate].
    exists "", "". now rewrite <- H.
  - destruct (Re.match_here r (String a s)) eqn:E.
    + exists "", (String a s). now rewrite <- H.
    + destruct (IH H) as (pre & t & -> & Ht). now exists (String a pre), t.
Qed.

(** A parsed file name is a source file name, a parsed line is a line
    number; neither is empty, and they come together. *)
Lemma parse_symbol_output_parsed (s : string) (verbose : bool)
  (file_name line_num : option string) :
  fst (parse_symbol_output s verbose) = (file_name, line_num) ->
  (file_name = None /\ line_num = None)
  \/ (exists f l, file_name = Some f /\ line_num = Some l
                  /\ is_source_file f /\ is_line_number l).
Proof.
  unfold parse_symbol_output.
  destruct (Re.search source_loc_re s) as [caps|] eqn:E; cbn; intros H.
  - apply search_sound in E as (pre & t & -> & E).
    apply match_here_sound in E as (u & s' & -> & M).
    apply matches_source_loc in M as (f & l & F & L & -> & ->).
    injection H as <- <-. right. now exists f, l.
  - injection H as <- <-. now left.
Qed.

Lemma symbolicate_address_truthy (w : World) (binary_path : string)
  (load_addr target_addr : Z) (arch : string) (verbose : bool) (text : string) :
  fst (symbolicate_address w binary_path load_addr target_addr arch verbose)
  = Some text ->
  PyStr.truthy text = true.
Proof.
  rewrite symbolicate_address_result.
  destruct (run w _) as [rc out err|e]; [|discriminate].
  destruct (rc =? 0); [|discriminate].
  destruct (PyStr.truthy (PyStr.strip out)) eqn:Ht; [|discriminate].
  cbn [andb]. destruct (negb _); [|discriminate].
  now intros [= <-].
Qed.

Lemma is_framework_spec (f : string) :
  is_framework f = true <->
  exists p, In p framework_files /\ PyStr.startswith f p = true.
Proof. unfold is_framework. apply existsb_exists. Qed.

Lemma is_framework_worded (f : string) :
  is_framework f = true <-> has_monitoring_prefix f.
Proof.
  rewrite is_framework_spec. unfold has_monitoring_prefix.
  change framework_files with monitoring_prefixes. split.
  - intros (p & Hp & Hs). apply startswith_spec in Hs as [rest ->].
    now exists p, rest.
  - intros (p & rest & Hp & ->). exists p. split; [exact Hp|].
    apply startswith_spec. now exists rest.
Qed.

End FrameClassification.

(** C5.  For every frame whose resolution succeeded: if a source file was
    parsed, the frame is classified FrameworkCode exactly when the file
    name starts with one of the nineteen monitoring-framework prefixes,
    and AppCode otherwise; if no source file was parsed it is classified
    AppCode.  The walk counts the frame as symbolicated, marks it, and
    appends it to the application code locations, exactly when its class
    is AppCode. *)
Theorem resolved_frame_classification :
  forall (w : World) (binary_path : string) (load_addr : Z) (arch : string)
         (verbose : bool) (binary_images : list Image.t)
         (thread_label : ThreadLabel) (app_frames i : nat) (frame : Frame.t)
         (text : string) (file_name line_num : option string),
    let trace := verbose && Nat.ltb i 3 in
    let step :=
      symbolicate_frame w binary_path load_addr arch verbose binary_images
                        thread_label app_frames i frame in
    should_symbolicate app_frames (get (Frame.object_name frame) "???")
                       (Frame.symbol_name frame) = true ->
    fst (symbolicate_address w binary_path load_addr
           (get (Frame.instruction_addr frame) 0) arch trace) = Some text ->
    fst (parse_symbol_output text trace) = (file_name, line_num) ->
    match file_name with
    | Some f =>
        (classification file_name = FrameworkCode <-> has_monitoring_prefix f)
        /\ (classification file_name = AppCode <-> ~ has_monitoring_prefix f)
    | None => classification file_name = AppCode
    end
    /\ counted step = true
    /\ location step
       = match classification file_name with
         | AppCode =>
             Some {| Loc.thread := thread_label; Loc.file := file_name;
                     Loc.line := line_num; Loc.symbol := text |}
         | FrameworkCode => None
         end
    /\ exists display_name,
         In (Print (FrameResolved
                      match classification file_name with
                      | AppCode => true
                      | FrameworkCode => false
                      end
                      i display_name (get (Frame.instruction_addr frame) 0)))
            (printed step).
Proof.
  intros w bp la arch verbose images label n i frame text file_name line_num
         trace step Hshould Hsym Hparse.
  split.
  { destruct (parse_symbol_output_parsed _ _ _ _ Hparse)
      as [[-> _]|(f & l & -> & _ & F & _)]; [reflexivity|].
    assert (Hf := source_file_not_empty _ F).
    rewrite <- is_framework_worded.
    unfold classification, is_app_code. rewrite (truthy_opt_some _ Hf).
    cbn [get]. destruct (is_framework f); cbn [negb]; split; split;
      congruence. }
  subst step. unfold symbolicate_frame. fold trace. rewrite Hshould.
  assert (Htruthy := symbolicate_address_truthy _ _ _ _ _ _ _ Hsym).
  destruct (symbolicate_address w bp la _ arch trace) as [sym out1].
  cbn in Hsym. subst sym. cbn [truthy_opt get]. rewrite Htruthy.
  destruct (parse_symbol_output text trace) as [[f l] out2].
  cbn in Hparse. injection Hparse as -> ->.
  unfold classification.
  destruct (is_app_code file_name); cbn [counted location printed].
  all: split; [reflexivity|split; [reflexivity|]].
  all: eexists; rewrite !in_app_iff; do 4 right; left; reflexivity.
Qed.

(** Three redacted application frames.  The first resolves to
    [KSCrashMonitor.c:10], a file of the monitoring framework: it is
    framework code and is not recorded.  The second resolves to
    [Foo.mm:42]: it is application code and is recorded with its file
    and line.  The third resolves to a symbol without a source location:
    it is application code and is recorded without file and line. *)
Lemma resolved_frame_classification_witness :
  (classification (Some "KSCrashMonitor.c") = FrameworkCode
   /\ location (symbolicate_frame
                  (sample_world (sample_report [sample_app]) framework_line)
                  "/sim/MatrixTestApp.app/MatrixTestApp" 4294967296 "arm64"
                  false [sample_app_image; sample_objc] MainLabel 1 0
                  (frame_in "MatrixTestApp" 4294971392))
      = None)
  /\ (classification (Some "Foo.mm") = AppCode
      /\ location (symbolicate_frame
                     (sample_world (sample_report [sample_app]) resolved_line)
                     "/sim/MatrixTestApp.app/MatrixTestApp" 4294967296 "arm64"
                     false [sample_app_image; sample_objc] MainLabel 1 0
                     (frame_in "MatrixTestApp" 4294971392))
         = Some {| Loc.thread := MainLabel; Loc.file := Some "Foo.mm";
                   Loc.line := Some "42"; Loc.symbol := resolved_line |})
  /\ (classification None = AppCode
      /\ location (symbolicate_frame
                     (sample_world (sample_report [sample_app]) "main + 52")
                     "/sim/MatrixTestApp.app/MatrixTestApp" 4294967296 "arm64"
                     false [sample_app_image; sample_objc] MainLabel 1 0
                     (frame_in "MatrixTestApp" 4294971392))
         = Some {| Loc.thread := MainLabel; Loc.file := None;
                   Loc.line := None; Loc.symbol := "main + 52" |}).
Proof.
  split; [|split].
  - destruct (resolved_frame_classification
                (sample_world (sample_report [sample_app]) framework_line)
                "/sim/MatrixTestApp.app/MatrixTestApp" 4294967296 "arm64" false
                [sample_app_image; sample_objc] MainLabel 1 0
                (frame_in "MatrixTestApp" 4294971392)
                framework_line (Some "KSCrashMonitor.c") (Some "10")
                eq_refl eq_refl eq_refl)
      as ([Hfw _] & _ & Hloc & _).
    assert (E : classification (Some "KSCrashMonitor.c") = FrameworkCode).
    { apply Hfw. exists "KSCrash", "Monitor.c".
      split; [left; reflexivity | reflexivity]. }
    split; [exact E|]. rewrite Hloc, E. reflexivity.
  - destruct (resolved_frame_classification
                (sample_world (sample_report [sample_app]) resolved_line)
                "/sim/MatrixTestApp.app/MatrixTestApp" 4294967296 "arm64" false
                [sample_app_image; sample_objc] MainLabel 1 0
                (frame_in "MatrixTestApp" 4294971392)
                resolved_line (Some "Foo.mm") (Some "42")
                eq_refl eq_refl eq_refl)
      as ([_ Happ] & _ & Hloc & _).
    assert (E : classification (Some "Foo.mm") = AppCode).
    { apply Happ. intros (prefix & rest & Hp & Hf). cbn in Hp.
      decompose [or] Hp; subst; try discriminate Hf; contradiction. }
    split; [exact E|]. rewrite Hloc, E. reflexivity.
  - destruct (resolved_frame_classification
                (sample_world (sample_report [sample_app]) "main + 52")
                "/sim/MatrixTestApp.app/MatrixTestApp" 4294967296 "arm64" false
                [sample_app_image; sample_objc] MainLabel 1 0
                (frame_in "MatrixTestApp" 4294971392)
                "main + 52" None None
                eq_refl eq_refl eq_refl)
      as (Happ & _ & Hloc & _).
    split; [exact Happ|]. rewrite Hloc, Happ. reflexivity.
Defined.

Example ex_framework_file :
  classification (Some "KSCrashMonitor.c") = FrameworkCode
  /\ classification (Some "MatrixBaseView.m") = FrameworkCode
  /\ classification (Some "TestLagViewController.mm") = AppCode.
Proof. repeat split. Qed.

(** Each of the nineteen prefixes makes a file framework code. *)
Example ex_every_prefix :
  List.map (fun prefix => classification (Some (prefix ++ "X.m")%string))
           monitoring_prefixes
  = List.map (fun _ => FrameworkCode) monitoring_prefixes
  /\ List.length monitoring_prefixes = 19%nat.
Proof. split; reflexivity. Qed.

(** ** Binary Locator: the declared identity *)

Section DeclaredIdentity.

Lemma scan_app_image_spec (images : list Image.t) :
  scan_app_image images
  = match first_named images with
    | Some img => identity_of img
    | None => no_identity
    end.
Proof.
  induction images as [|I images IH]; [reflexivity|].
  cbn [scan_app_image first_named List.find]. fold (has_app_name I).
  destruct (has_app_name I); [reflexivity | exact IH].
Qed.

Lemma key_lt_trans (a b c : option Z) :
  key_lt a b = true -> key_lt b c = true -> key_lt a c = true.
Proof.
  destruct a, b, c; cbn; try congruence.
  rewrite !Z.ltb_lt. lia.
Qed.

Lemma key_lt_le_trans (a b c : option Z) :
  key_lt a b = true -> key_lt c b = false -> key_lt a c = true.
Proof.
  destruct a, b, c; cbn; try congruence.
  rewrite Z.ltb_lt, Z.ltb_ge, Z.ltb_lt. lia.
Qed.

Lemma min_from_first_smallest (l pre0 post0 : list Image.t) (best : Image.t) :
  (forall K, In K pre0 ->
             key_lt (Image.image_addr best) (Image.image_addr K) = true) ->
  (forall K, In K post0 ->
             key_lt (Image.image_addr K) (Image.image_addr best) = false) ->
  first_smallest (min_from best l) (pre0 ++ best :: post0 ++ l).
Proof.
  revert pre0 post0 best.
  induction l as [|x l IH]; intros pre0 post0 best Hpre Hpost; cbn [min_from].
  - exists pre0, post0. now rewrite app_nil_r.
  - destruct (key_lt (Image.image_addr x) (Image.image_addr best)) eqn:Hx.
    + replace (pre0 ++ best :: post0 ++ x :: l)
        with ((pre0 ++ best :: post0) ++ x :: [] ++ l)
        by (now rewrite <- app_assoc).
      apply IH; [|intros K []].
      intros K HK. apply in_app_iff in HK as [HK|[<-|HK]].
      * eapply key_lt_trans; [exact Hx | now apply Hpre].
      * exact Hx.
      * eapply key_lt_le_trans; [exact Hx | now apply Hpost].
    + replace (pre0 ++ best :: post0 ++ x :: l)
        with (pre0 ++ best :: (post0 ++ [x]) ++ l)
        by (now rewrite <- app_assoc).
      apply IH; [exact Hpre|].
      intros K HK. apply in_app_iff in HK as [HK|[<-|[]]]; auto.
Qed.

Lemma declared_identity_step1 (images : list Image.t) (I : Image.t) :
  first_named images = Some I ->
  get (Image.image_addr I) 0 <> 0 ->
  declared_identity images = (identity_of I, []).
Proof.
  intros HI Haddr. unfold declared_identity.
  rewrite scan_app_image_spec, HI. cbn [identity_of load_addr].
  now rewrite (truthy_int_some _ Haddr).
Qed.

Lemma declared_identity_fallback (images : list Image.t) :
  images <> [] ->
  first_named images = None
  \/ (exists I, first_named images = Some I /\ get (Image.image_addr I) 0 = 0) ->
  exists J,
    first_smallest J images
    /\ declared_identity images = (identity_of J, fallback_warning).
Proof.
  intros Hne Hcase. unfold declared_identity. rewrite scan_app_image_spec.
  assert (Hfalse : truthy_int
                     (load_addr match first_named images with
                                | Some img => identity_of img
                                | None => no_identity
                                end) = false).
  { destruct Hcase as [->|(I & -> & HI)]; [reflexivity|].
    cbn. now rewrite HI. }
  rewrite Hfalse. cbn [negb].
  destruct images as [|first others]; [congruence|].
  exists (min_from first others). split; [|reflexivity].
  apply (min_from_first_smallest others [] [] first); intros K [].
Qed.

End DeclaredIdentity.

(** C6 (as amended).  The Binary Locator records as the report's declared
    identity the first binary image whose basename is one of the known
    application-binary names, provided that image's image_addr is not 0
    (and not missing); then no fallback is taken and no warning printed.
    When no image's basename matches, or the first matching image has
    image_addr 0, and the list is not empty, it falls back, with the
    warning diagnostic, to the image with the smallest image_addr (the
    first of them). *)
Theorem declared_identity_spec :
  forall images : list Image.t,
    (forall I : Image.t,
        first_named images = Some I ->
        get (Image.image_addr I) 0 <> 0 ->
        declared_identity images = (identity_of I, []))
    /\ (images <> [] ->
        first_named images = None
        \/ (exists I, first_named images = Some I
                      /\ get (Image.image_addr I) 0 = 0) ->
        exists J,
          first_smallest J images
          /\ declared_identity images = (identity_of J, fallback_warning)).
Proof.
  intros images. split.
  - apply declared_identity_step1.
  - apply declared_identity_fallback.
Qed.

(** The application image at a non-zero address is the declared identity;
    with no application image, the lowest image is, with the warning. *)
Lemma declared_identity_spec_witness :
  declared_identity [sample_objc; sample_app_image]
  = (identity_of sample_app_image, [])
  /\ exists J,
       first_smallest J [sample_uikit; sample_objc]
       /\ declared_identity [sample_uikit; sample_objc]
          = (identity_of J, fallback_warning).
Proof.
  split.
  - apply (proj1 (declared_identity_spec [sample_objc; sample_app_image])
                 sample_app_image); [reflexivity | discriminate].
  - apply (proj2 (declared_identity_spec [sample_uikit; sample_objc]));
      [discriminate | left; reflexivity].
Defined.

(** C6 as the specification words it does not hold: the application
    image is present, but at
    address 0, so the fallback runs, prints its warning and records the
    first lowest image, here the dynamic linker. *)
Lemma declared_identity_zero_address :
  ~ (forall (images : list Image.t) (I : Image.t),
        first_named images = Some I ->
        declared_identity images = (identity_of I, [])).
Proof.
  intros H.
  specialize (H [zero_dyld_image; zero_app_image] zero_app_image eq_refl).
  vm_compute in H. discriminate H.
Qed.

(** ** Binary Locator: the search *)

Section Search.

Lemma spawns_app (a b : list Event) : spawns (a ++ b) = spawns a ++ spawns b.
Proof.
  induction a as [|e a IH]; [reflexivity|].
  destruct e; cbn; now rewrite IH.
Qed.

Lemma spawns_say (texts : list string) : spawns (say texts) = [].
Proof. induction texts; [reflexivity | exact IHtexts]. Qed.

Lemma spawned_run_events (events : list Event) :
  spawned (run_events events) = spawns events.
Proof.
  unfold run_events.
  assert (H : forall st, spawned (fold_left exec events st)
                         = spawned st ++ spawns events).
  { induction events as [|e events IH]; intros st; cbn [fold_left spawns].
    - now rewrite app_nil_r.
    - rewrite IH. destruct e; cbn; try destruct (stdout st); cbn;
        rewrite <- ?app_assoc; reflexivity. }
  now rewrite H.
Qed.

Lemma upper_char_idem (c : ascii) :
  PyStr.upper_char (PyStr.upper_char c) = PyStr.upper_char c.
Proof. destruct c as [[] [] [] [] [] [] [] []]; reflexivity. Qed.

Lemma upper_idem (s : string) : PyStr.upper (PyStr.upper s) = PyStr.upper s.
Proof.
  unfold PyStr.upper. induction s as [|c s IH]; [reflexivity|].
  cbn [PyStr.map]. now rewrite upper_char_idem, IH.
Qed.

Lemma upper_empty (s : string) : PyStr.upper s = EmptyString <-> s = EmptyString.
Proof. destruct s; cbn; split; congruence. Qed.

(** The longest run of the class wins when what follows it is accepted. *)
Lemma star_greedy (p : ascii -> bool) (u : string) (x : ascii) (rest : string)
  (c : Re.Captures) (k : Re.Cont) (r : Re.Captures) :
  str_all p u = true -> p x = false ->
  k (String x rest) c = Some r ->
  Re.star p (u ++ String x rest)%string c k = Some r.
Proof.
  intros Hu Hx Hk. induction u as [|a u IH]; cbn.
  - now rewrite Hx.
  - cbn in Hu. apply andb_true_iff in Hu as [Ha Hu].
    now rewrite Ha, (IH Hu).
Qed.

Lemma upper_uuid_chars (u : string) :
  str_all uuid_char u = true -> PyStr.upper u = u.
Proof.
  unfold PyStr.upper. induction u as [|c u IH]; [reflexivity|].
  cbn. intros H. apply andb_true_iff in H as [Hc Hu]. rewrite (IH Hu).
  f_equal. revert Hc. destruct c as [[] [] [] [] [] [] [] []];
    vm_compute; congruence.
Qed.

(** The line the identity tool prints for an arm64 slice, with the UUID
    in capitals, is read as that UUID. *)
Lemma scan_uuid_lines_capitals (arch u rest : string) (lines : list string) :
  u <> EmptyString -> str_all uuid_char u = true ->
  scan_uuid_lines arch (("UUID: " ++ u ++ " (arm64) " ++ rest)%string :: lines)
  = Some u.
Proof.
  intros Hne Hu. cbn [scan_uuid_lines].
  assert (Harm : PyStr.contains "arm64" ("UUID: " ++ u ++ " (arm64) " ++ rest)%string
                 = true).
  { replace ("UUID: " ++ u ++ " (arm64) " ++ rest)%string
      with (("UUID: " ++ u ++ " (") ++ "arm64" ++ (") " ++ rest))%string
      by (cbn [append]; now rewrite !append_assoc).
    apply contains_middle. }
  rewrite Harm, orb_true_r.
  assert (Hm : Re.match_here uuid_re ("UUID: " ++ u ++ " (arm64) " ++ rest)%string
               = Some [u]).
  { destruct u as [|a u]; [congruence|].
    cbn in Hu. apply andb_true_iff in Hu as [Ha Hu].
    unfold Re.match_here, uuid_re. cbn [Re.rmatch Re.strip_prefix append].
    cbn [Ascii.eqb Bool.eqb]. rewrite Ha.
    erewrite star_greedy; [|exact Hu|reflexivity|reflexivity].
    cbn [app]. f_equal. f_equal.
    exact (consumed_append (String a u) _). }
  cbn [Re.search]. destruct (_ ++ _)%string eqn:E; cbn [Re.search];
    rewrite Hm; cbn [Re.group Nat.sub nth]; f_equal; apply upper_uuid_chars;
    exact Hu.
Qed.

(** What [get_binary_uuid] returns is already in capitals. *)
Lemma get_binary_uuid_upper (w : World) (binary_path arch u : string) :
  fst (get_binary_uuid w binary_path arch) = Some u -> PyStr.upper u = u.
Proof.
  unfold get_binary_uuid. cbn [fst].
  destruct (run w _) as [rc out err|e]; [|discriminate].
  destruct (rc =? 0); [|discriminate].
  induction (PyStr.split_lines out) as [|line lines IH]; cbn; [discriminate|].
  destruct (_ || _); [|exact IH].
  destruct (Re.search uuid_re line); [|exact IH].
  intros [= <-]. apply upper_idem.
Qed.

Lemma get_binary_uuid_events (w : World) (binary_path arch : string) :
  snd (get_binary_uuid w binary_path arch) = [Spawn (dwarfdump_cmd binary_path)].
Proof. reflexivity. Qed.

(** The loop over the candidates stops at the first whose UUID is
    [report_uuid], and runs the tool on no candidate after it. *)
Lemma match_candidates_first (w : World) (report_uuid : string)
  (pre : list string) (c : string) (post : list string) :
  report_uuid <> EmptyString ->
  (forall c', In c' pre ->
              fst (get_binary_uuid w c' "arm64") <> Some report_uuid) ->
  fst (get_binary_uuid w c "arm64") = Some report_uuid ->
  fst (match_candidates w report_uuid (pre ++ c :: post)) = Some c
  /\ spawns (snd (match_candidates w report_uuid (pre ++ c :: post)))
     = List.map dwarfdump_cmd (pre ++ [c]).
Proof.
  intros Hne Hpre Hc. induction pre as [|c' pre IH];
    cbn [app match_candidates List.map].
  - assert (Hev := get_binary_uuid_events w c "arm64").
    destruct (get_binary_uuid w c "arm64") as [bu sp]. cbn in Hc, Hev.
    subst bu sp. rewrite (truthy_opt_some _ Hne). cbn [get].
    rewrite String.eqb_refl. cbn [andb fst snd].
    split; [reflexivity|].
    now rewrite !spawns_app, spawns_say.
  - assert (Hev := get_binary_uuid_events w c' "arm64").
    assert (Hc' := Hpre c' (or_introl eq_refl)).
    destruct (get_binary_uuid w c' "arm64") as [bu sp]. cbn in Hc', Hev.
    subst sp.
    assert (Hno : truthy_opt bu && String.eqb (get bu "") report_uuid = false).
    { destruct bu as [u|]; [|reflexivity]. cbn [get].
      destruct (String.eqb_spec u report_uuid) as [->|]; [congruence|].
      apply andb_false_r. }
    rewrite Hno.
    destruct IH as [IH1 IH2]; [intros; apply Hpre; now right|].
    destruct (match_candidates w report_uuid (pre ++ c :: post)) as [r later].
    cbn [fst snd] in *. split; [exact IH1|].
    rewrite !spawns_app, spawns_say, IH2.
    destruct (truthy_opt bu); cbn; now rewrite ?spawns_say.
Qed.

(** The value [find_app_binary] returns, path by path. *)
Lemma find_app_binary_result (w : World) (data : Report.t) :
  let id := fst (declared_identity (Report.binary_images data)) in
  fst (find_app_binary w data)
  = if negb (truthy_int (load_addr id)) then (None, None)
    else if truthy_opt (simulator_path id)
            && path_exists w (get (simulator_path id) "")
    then (simulator_path id, load_addr id)
    else match find_all_possible_binaries w with
         | [] => (None, load_addr id)
         | latest :: _ =>
             (Some (get (if truthy_opt (report_uuid id)
                         then fst (match_candidates
                                     w (get (report_uuid id) "")
                                     (find_all_possible_binaries w))
                         else None)
                        latest),
              load_addr id)
         end.
Proof.
  unfold find_app_binary.
  destruct (declared_identity (Report.binary_images data)) as [id out1].
  cbn [fst]. destruct (negb (truthy_int (load_addr id))); [reflexivity|].
  destruct (truthy_opt (simulator_path id) && _); [reflexivity|].
  destruct (find_all_possible_binaries w) as [|latest rest]; [reflexivity|].
  destruct (truthy_opt (report_uuid id)).
  - destruct (match_candidates w _ _) as [[c|] out5]; reflexivity.
  - reflexivity.
Qed.

(** The processes [find_app_binary] spawns are those of the loop over the
    candidates. *)
Lemma find_app_binary_spawns (w : World) (data : Report.t) :
  let id := fst (declared_identity (Report.binary_images data)) in
  truthy_int (load_addr id) = true ->
  truthy_opt (simulator_path id) && path_exists w (get (simulator_path id) "")
  = false ->
  truthy_opt (report_uuid id) = true ->
  spawns (snd (find_app_binary w data))
  = spawns (snd (match_candidates w (get (report_uuid id) "")
                                  (find_all_possible_binaries w))).
Proof.
  unfold find_app_binary.
  assert (Hid : spawns (snd (declared_identity (Report.binary_images data))) = []).
  { unfold declared_identity.
    destruct (negb _); [|reflexivity].
    now destruct (Report.binary_images data). }
  destruct (declared_identity (Report.binary_images data)) as [id out1].
  cbn [fst snd] in *. intros Hla Hsp Hu. rewrite Hla, Hsp, Hu. cbn [negb].
  destruct (find_all_possible_binaries w) as [|latest rest].
  - cbn [snd match_candidates spawns].
    now rewrite !spawns_app, !spawns_say, Hid.
  - destruct (match_candidates w _ (latest :: rest)) as [[c|] out5];
      cbn [snd]; rewrite !spawns_app, ?spawns_say, Hid; cbn [spawns app];
      now rewrite ?app_nil_r.
Qed.

End Search.

Lemma truthy_int_true (o : option Z) :
  truthy_int o = true -> exists z, o = Some z /\ z <> 0.
Proof.
  destruct o as [z|]; cbn; [|discriminate].
  destruct (Z.eqb_spec z 0); [discriminate|]. intros _. now exists z.
Qed.

(** C10.  Whenever [find_app_binary] returns a non-null binary path, the
    load address that comes with it is not 0.  An image whose image_addr
    is 0, even one with the application's name, is no step-1 success: the
    smallest-address fallback runs instead; and when the image the
    locator settled on has image_addr 0, it returns (None, None). *)
Theorem find_app_binary_load_addr_nonzero :
  forall (w : World) (data : Report.t),
    (forall (binary_path : string) (la : option Z),
        fst (find_app_binary w data) = (Some binary_path, la) ->
        exists z, la = Some z /\ z <> 0)
    /\ (forall I : Image.t,
           first_named (Report.binary_images data) = Some I ->
           get (Image.image_addr I) 0 = 0 ->
           exists J,
             first_smallest J (Report.binary_images data)
             /\ declared_identity (Report.binary_images data)
                = (identity_of J, fallback_warning))
    /\ (forall (J : Image.t) (out : list Event),
           declared_identity (Report.binary_images data) = (identity_of J, out) ->
           get (Image.image_addr J) 0 = 0 ->
           fst (find_app_binary w data) = (None, None)).
Proof.
  intros w data. split; [|split].
  - intros p la. rewrite find_app_binary_result.
    destruct (truthy_int (load_addr _)) eqn:Hla; cbn [negb]; [|discriminate].
    apply truthy_int_true in Hla.
    destruct (truthy_opt _ && _).
    + now intros [= _ <-].
    + destruct (find_all_possible_binaries w); [discriminate|].
      now intros [= _ <-].
  - intros I HI Hzero. apply declared_identity_fallback.
    + intros E. rewrite E in HI. discriminate.
    + right. now exists I.
  - intros J out HJ Hzero. rewrite find_app_binary_result, HJ.
    cbn. now rewrite Hzero.
Qed.

(** On the sample machine the report's own path is returned with the
    non-zero load address; with the application image at address 0 the
    fallback runs and the locator gives up. *)
Lemma find_app_binary_load_addr_nonzero_witness :
  (exists z, Some 4294967296 = Some z /\ z <> 0)
  /\ (exists J,
         first_smallest J [zero_dyld_image; zero_app_image]
         /\ declared_identity [zero_dyld_image; zero_app_image]
            = (identity_of J, fallback_warning))
  /\ fst (find_app_binary zero_world
            {| Report.cpu_arch := None;
               Report.binary_images := [zero_dyld_image; zero_app_image];
               Report.threads := [sample_main] |})
     = (None, None).
Proof.
  split; [|split].
  - apply (proj1 (find_app_binary_load_addr_nonzero
                    (sample_world (sample_report [sample_main]) "")
                    (sample_report [sample_main]))
                 "/sim/MatrixTestApp.app/MatrixTestApp" (Some 4294967296)).
    reflexivity.
  - apply (proj1 (proj2 (find_app_binary_load_addr_nonzero
                           zero_world
                           {| Report.cpu_arch := None;
                              Report.binary_images :=
                                [zero_dyld_image; zero_app_image];
                              Report.threads := [sample_main] |}))
                 zero_app_image); reflexivity.
  - apply (proj2 (proj2 (find_app_binary_load_addr_nonzero
                           zero_world
                           {| Report.cpu_arch := None;
                              Report.binary_images :=
                                [zero_dyld_image; zero_app_image];
                              Report.threads := [sample_main] |}))
                 zero_dyld_image fallback_warning); reflexivity.
Defined.

Section CandidateOrder.

Let newer (x y : string * Z) : Prop := snd y <= snd x.

Lemma insert_desc_in (x z : string * Z) (l : list (string * Z)) :
  In z (insert_desc x l) -> z = x \/ In z l.
Proof.
  induction l as [|y l IH]; cbn.
  - intros [<-|[]]. now left.
  - destruct (snd x <? snd y); cbn.
    + intros [<-|H]; [right; now left|].
      destruct (IH H); [now left | right; now right].
    + intros [<-|H]; [now left | now right].
Qed.

Lemma insert_desc_sorted (x : string * Z) (l : list (string * Z)) :
  StronglySorted newer l -> StronglySorted newer (insert_desc x l).
Proof.
  induction 1 as [|y l Hl IH Hy]; cbn.
  - constructor; constructor.
  - destruct (Z.ltb_spec (snd x) (snd y)) as [Hlt|Hge].
    + constructor; [exact IH|].
      apply Forall_forall. intros z Hz.
      apply insert_desc_in in Hz as [->|Hz].
      * unfold newer. lia.
      * rewrite Forall_forall in Hy. now apply Hy.
    + constructor; [now constructor|].
      constructor; [exact Hge|].
      apply Forall_forall. intros z Hz. rewrite Forall_forall in Hy.
      specialize (Hy z Hz). unfold newer in *. lia.
Qed.

Lemma sort_desc_sorted (l : list (string * Z)) :
  StronglySorted newer (sort_desc l).
Proof.
  induction l as [|x l IH]; cbn; [constructor|].
  now apply insert_desc_sorted.
Qed.

Lemma sort_desc_in (z : string * Z) (l : list (string * Z)) :
  In z (sort_desc l) -> In z l.
Proof.
  induction l as [|x l IH]; cbn; [tauto|].
  intros H. apply insert_desc_in in H as [->|H]; [now left | right; auto].
Qed.

(** The candidates come most recently modified first. *)
Lemma find_all_possible_binaries_sorted (w : World) :
  StronglySorted (newer_first w) (find_all_possible_binaries w).
Proof.
  unfold find_all_possible_binaries.
  set (binaries := flat_map _ patterns).
  assert (Hkey : forall x, In x (sort_desc binaries) -> snd x = getmtime w (fst x)).
  { intros x Hx. apply sort_desc_in in Hx. unfold binaries in Hx.
    apply in_flat_map in Hx as (pattern & _ & Hx).
    apply in_map_iff in Hx as (m & <- & _). reflexivity. }
  assert (Hs := sort_desc_sorted binaries).
  induction Hs as [|x l Hl IH Hx]; cbn; constructor.
  - apply IH. intros y Hy. apply Hkey. now right.
  - apply Forall_forall. intros b Hb.
    apply in_map_iff in Hb as (y & <- & Hy).
    rewrite Forall_forall in Hx. specialize (Hx y Hy).
    unfold newer_first, newer in *.
    rewrite <- (Hkey x (or_introl eq_refl)), <- (Hkey y (or_intror Hy)).
    exact Hx.
Qed.

End CandidateOrder.

(** C7.  When the report declares a UUID (and the locator has to search),
    the search returns the first candidate, in most-recently-modified
    order, whose computed UUID equals the declared one up to letter case;
    the identity tool is run on the candidates before it and on it, and on
    none after it. *)
Theorem find_app_binary_uuid_match :
  forall (w : World) (data : Report.t) (I : Image.t) (out0 : list Event)
         (pre : list string) (c : string) (post : list string) (u : string),
    declared_identity (Report.binary_images data) = (identity_of I, out0) ->
    get (Image.image_addr I) 0 <> 0 ->
    get (Image.uuid I) "" <> EmptyString ->
    PyStr.truthy (get (Image.name I) "")
    && path_exists w (get (Image.name I) "") = false ->
    find_all_possible_binaries w = pre ++ c :: post ->
    fst (get_binary_uuid w c "arm64") = Some u ->
    eq_ignoring_case u (get (Image.uuid I) "") ->
    (forall c' u', In c' pre ->
                   fst (get_binary_uuid w c' "arm64") = Some u' ->
                   ~ eq_ignoring_case u' (get (Image.uuid I) "")) ->
    fst (find_app_binary w data) = (Some c, Some (get (Image.image_addr I) 0))
    /\ spawned (run_events (snd (find_app_binary w data)))
       = List.map dwarfdump_cmd (pre ++ [c])
    /\ StronglySorted (newer_first w) (pre ++ c :: post).
Proof.
  intros w data I out0 pre c post u Hid Haddr Huuid Hpath Hcands Hc Hcase Hpre.
  set (declared := get (Image.uuid I) "") in *.
  assert (Hne : PyStr.upper declared <> EmptyString)
    by (intros E; apply (proj1 (upper_empty declared)) in E; exact (Huuid E)).
  assert (Hu : u = PyStr.upper declared).
  { rewrite <- (get_binary_uuid_upper _ _ _ _ Hc). exact Hcase. }
  subst u.
  assert (Hpre' : forall c', In c' pre ->
            fst (get_binary_uuid w c' "arm64") <> Some (PyStr.upper declared)).
  { intros c' Hin E. apply (Hpre c' _ Hin E).
    unfold eq_ignoring_case. apply upper_idem. }
  destruct (match_candidates_first w _ pre c post Hne Hpre' Hc) as [Hfst Hsp].
  split; [|split].
  - rewrite find_app_binary_result, Hid. cbn [fst identity_of load_addr
      simulator_path report_uuid truthy_opt get].
    rewrite (truthy_int_some _ Haddr). cbn [negb]. rewrite Hpath.
    fold declared. rewrite Hcands. rewrite <- Hcands at 1.
    destruct (find_all_possible_binaries w) as [|latest rest] eqn:E.
    + destruct pre; discriminate Hcands.
    + cbn [PyStr.truthy]. destruct (PyStr.upper declared) eqn:Eu; [congruence|].
      cbn [PyStr.truthy]. now rewrite Hfst.
  - rewrite spawned_run_events, find_app_binary_spawns; rewrite Hid;
      cbn [fst identity_of load_addr simulator_path report_uuid truthy_opt get].
    + fold declared. now rewrite Hcands.
    + now apply truthy_int_some.
    + exact Hpath.
    + now apply truthy_opt_some.
  - rewrite <- Hcands. apply find_all_possible_binaries_sorted.
Qed.

(** The report declares abcd-1234; the newer build is tried first and
    does not match, the older one computes ABCD-1234 and is returned. *)
Lemma find_app_binary_uuid_match_witness :
  fst (find_app_binary search_world (sample_report [sample_app]))
  = (Some old_build, Some 4294967296)
  /\ spawned (run_events
                (snd (find_app_binary search_world (sample_report [sample_app]))))
     = [dwarfdump_cmd new_build; dwarfdump_cmd old_build]
  /\ StronglySorted (newer_first search_world) [new_build; old_build].
Proof.
  apply (find_app_binary_uuid_match
           search_world (sample_report [sample_app]) sample_app_image []
           [new_build] old_build [] "ABCD-1234").
  - reflexivity.
  - discriminate.
  - discriminate.
  - reflexivity.
  - reflexivity.
  - reflexivity.
  - reflexivity.
  - intros c' u' [<-|[]] Hu'. vm_compute in Hu'. injection Hu' as <-.
    unfold eq_ignoring_case. vm_compute. discriminate.
Defined.

(** ** Failure exits *)

Section FailureExits.

Lemma insert_desc_perm (x : string * Z) (l : list (string * Z)) :
  Permutation (x :: l) (insert_desc x l).
Proof.
  induction l as [|y l IH]; cbn [insert_desc]; [reflexivity|].
  destruct (snd x <? snd y); [|reflexivity].
  rewrite perm_swap. now apply perm_skip.
Qed.

Lemma sort_desc_perm (l : list (string * Z)) : Permutation l (sort_desc l).
Proof.
  induction l as [|x l IH]; cbn; [constructor|].
  rewrite <- insert_desc_perm. now apply perm_skip.
Qed.

Lemma flat_map_map {A B C : Type} (f : B -> C) (g : A -> list B) (l : list A) :
  flat_map (fun x => List.map f (g x)) l = List.map f (flat_map g l).
Proof.
  induction l as [|x l IH]; cbn; [reflexivity|]. now rewrite IH, map_app.
Qed.

(** The list the function sorts: each existing match with its time. *)
Lemma find_all_possible_binaries_unfold (w : World) :
  find_all_possible_binaries w
  = List.map fst (sort_desc (List.map (fun m => (m, getmtime w m))
                                      (existing_matches w))).
Proof.
  unfold find_all_possible_binaries, existing_matches.
  now rewrite <- flat_map_map.
Qed.

Lemma find_all_possible_binaries_perm (w : World) :
  Permutation (existing_matches w) (find_all_possible_binaries w).
Proof.
  rewrite find_all_possible_binaries_unfold.
  rewrite <- sort_desc_perm, map_map. cbn [fst]. now rewrite map_id.
Qed.

Lemma existing_matches_exist (w : World) (p : string) :
  In p (existing_matches w) -> path_exists w p = true.
Proof.
  unfold existing_matches. intros H.
  apply in_flat_map in H as (pattern & _ & H).
  now apply filter_In in H as [_ H].
Qed.

Lemma find_all_possible_binaries_exist (w : World) (p : string) :
  In p (find_all_possible_binaries w) ->
  In p (existing_matches w) /\ path_exists w p = true.
Proof.
  intros H.
  apply (Permutation_in _ (Permutation_sym (find_all_possible_binaries_perm w)))
    in H.
  split; [exact H | now apply existing_matches_exist].
Qed.


Lemma spawns_prints {A : Type} (f : A -> Msg) (l : list A) :
  spawns (List.map (fun x => Print (f x)) l) = [].
Proof. induction l; [reflexivity | exact IHl]. Qed.

Lemma match_candidates_dwarfdump (w : World) (report_uuid : string)
  (candidates : list string) :
  Forall is_dwarfdump (spawns (snd (match_candidates w report_uuid candidates))).
Proof.
  induction candidates as [|c candidates IH]; cbn [match_candidates];
    [constructor|].
  assert (Hev := get_binary_uuid_events w c "arm64").
  destruct (get_binary_uuid w c "arm64") as [bu sp]. cbn in Hev. subst sp.
  destruct (truthy_opt bu && _).
  - cbn [snd]. rewrite !spawns_app, spawns_say. cbn.
    constructor; [now exists c | constructor].
  - destruct (match_candidates w report_uuid candidates) as [r later].
    cbn [snd] in *. rewrite !spawns_app, spawns_say. cbn [spawns app].
    constructor; [now exists c|].
    destruct (truthy_opt bu); now rewrite ?spawns_say.
Qed.

Lemma declared_identity_spawns (images : list Image.t) :
  spawns (snd (declared_identity images)) = [].
Proof.
  unfold declared_identity. destruct (negb _); [|reflexivity].
  now destruct images.
Qed.

Lemma find_app_binary_dwarfdump (w : World) (data : Report.t) :
  Forall is_dwarfdump (spawns (snd (find_app_binary w data))).
Proof.
  unfold find_app_binary.
  assert (Hid := declared_identity_spawns (Report.binary_images data)).
  destruct (declared_identity (Report.binary_images data)) as [id out1].
  cbn [snd] in Hid.
  destruct (negb (truthy_int (load_addr id))).
  { cbn [snd]. rewrite spawns_app, spawns_say, Hid. constructor. }
  destruct (truthy_opt (simulator_path id) && _).
  { cbn [snd]. rewrite !spawns_app, !spawns_say, Hid.
    destruct (truthy_opt (report_uuid id)); constructor. }
  destruct (find_all_possible_binaries w) as [|latest rest].
  { cbn [snd]. rewrite !spawns_app, !spawns_say, Hid.
    destruct (truthy_opt (report_uuid id)); constructor. }
  assert (Hm := match_candidates_dwarfdump w (get (report_uuid id) "")
                  (latest :: rest)).
  destruct (truthy_opt (report_uuid id)).
  - destruct (match_candidates w _ (latest :: rest)) as [[c|] out5];
      cbn [snd] in *; rewrite !spawns_app, ?spawns_say, Hid; cbn [spawns app];
      now rewrite ?app_nil_r.
  - cbn [snd]. rewrite !spawns_app, ?spawns_say, Hid. constructor.
Qed.

Lemma threads_to_show_spawns (threads : list Thread.t) :
  spawns (snd (threads_to_show threads)) = [].
Proof.
  unfold threads_to_show.
  destruct (main_thread _); destruct (crashed_thread _);
    try destruct (negb _); cbn [snd];
    rewrite !spawns_app, spawns_prints; reflexivity.
Qed.

Lemma show_modules_spawns (images : list Image.t) :
  spawns (show_modules images) = [].
Proof.
  unfold show_modules. rewrite !spawns_app, !spawns_say.
  rewrite (spawns_prints (fun img => VModule _ _)).
  now destruct (Nat.ltb _ _).
Qed.












End FailureExits.




(** ** The output file along the exits *)

Section OutputFile.

Lemma plain_say (texts : list string) : forallb plain (say texts) = true.
Proof. induction texts; [reflexivity | exact IHtexts]. Qed.

Lemma plain_prints {A : Type} (f : A -> Msg) (l : list A) :
  forallb plain (List.map (fun x => Print (f x)) l) = true.
Proof. induction l; [reflexivity | exact IHl]. Qed.

Ltac plain_events :=
  repeat match goal with
         | H : ?g |- ?g => exact H
         | |- true = true => reflexivity
         | |- forallb plain [] = true => reflexivity
         | |- forallb plain (say _) = true => apply plain_say
         | |- forallb plain (List.map (fun _ => Print _) _) = true =>
             apply plain_prints
         | |- forallb plain (_ ++ _) = true =>
             rewrite forallb_app; apply andb_true_intro; split
         | |- forallb plain (Print _ :: _) = true => cbn [forallb plain andb]
         | |- forallb plain (Spawn _ :: _) = true => cbn [forallb plain andb]
         | |- forallb plain (if ?c then _ else _) = true => destruct c
         | |- forallb plain (match ?c with _ => _ end) = true => destruct c
         end.

Lemma match_candidates_plain (w : World) (report_uuid : string)
  (candidates : list string) :
  forallb plain (snd (match_candidates w report_uuid candidates)) = true.
Proof.
  induction candidates as [|c candidates IH]; cbn [match_candidates];
    [reflexivity|].
  assert (Hev := get_binary_uuid_events w c "arm64").
  destruct (get_binary_uuid w c "arm64") as [bu sp]. cbn in Hev. subst sp.
  destruct (truthy_opt bu && _); cbn [snd].
  - plain_events.
  - destruct (match_candidates w report_uuid candidates) as [r later].
    cbn [snd] in *. plain_events.
Qed.

Lemma find_app_binary_plain (w : World) (data : Report.t) :
  forallb plain (snd (find_app_binary w data)) = true.
Proof.
  unfold find_app_binary.
  assert (Hid : forallb plain (snd (declared_identity (Report.binary_images data)))
                = true).
  { unfold declared_identity. destruct (negb _); [|reflexivity].
    now destruct (Report.binary_images data). }
  destruct (declared_identity (Report.binary_images data)) as [id out1].
  cbn [snd] in Hid.
  destruct (negb (truthy_int (load_addr id))); cbn [snd]; [plain_events|].
  destruct (truthy_opt (simulator_path id) && _); cbn [snd]; [plain_events|].
  destruct (find_all_possible_binaries w) as [|latest rest]; cbn [snd];
    [plain_events|].
  assert (Hm := match_candidates_plain w (get (report_uuid id) "")
                  (latest :: rest)).
  destruct (truthy_opt (report_uuid id)).
  - destruct (match_candidates w _ (latest :: rest)) as [[c|] out5];
      cbn [snd] in *; plain_events.
  - cbn [snd]. plain_events.
Qed.

Lemma symbolicate_address_plain (w : World) (binary_path : string)
  (load_addr target_addr : Z) (arch : string) (verbose : bool) :
  forallb plain
    (snd (symbolicate_address w binary_path load_addr target_addr arch verbose))
  = true.
Proof.
  unfold symbolicate_address.
  destruct (run w _) as [rc out err|e].
  - destruct (rc =? 0); [destruct (_ && _)|]; cbn [snd]; plain_events.
  - cbn [snd]. plain_events.
Qed.

Lemma parse_symbol_output_plain (symbol_str : string) (verbose : bool) :
  forallb plain (snd (parse_symbol_output symbol_str verbose)) = true.
Proof.
  unfold parse_symbol_output.
  destruct (Re.search source_loc_re symbol_str); cbn [snd]; plain_events.
Qed.

Lemma symbolicate_frame_plain (w : World) (binary_path : string) (load_addr : Z)
  (arch : string) (verbose : bool) (binary_images : list Image.t)
  (thread_label : ThreadLabel) (app_frames i : nat) (frame : Frame.t) :
  forallb plain
    (printed (symbolicate_frame w binary_path load_addr arch verbose
                binary_images thread_label app_frames i frame)) = true.
Proof.
  unfold symbolicate_frame.
  destruct (should_symbolicate _ _ _).
  - assert (Ha := symbolicate_address_plain w binary_path load_addr
                    (get (Frame.instruction_addr frame) 0) arch
                    (verbose && Nat.ltb i 3)).
    destruct (symbolicate_address _ _ _ _ _ _) as [sym out1]. cbn [snd] in Ha.
    destruct (truthy_opt sym).
    + assert (Hp := parse_symbol_output_plain (get sym "")
                      (verbose && Nat.ltb i 3)).
      destruct (parse_symbol_output _ _) as [[f l] out2]. cbn [snd] in Hp.
      cbn [printed]. plain_events.
    + cbn [printed]. plain_events.
  - cbn [printed]. plain_events.
Qed.

Lemma symbolicate_frames_plain (w : World) (binary_path : string)
  (load_addr : Z) (arch : string) (verbose : bool)
  (binary_images : list Image.t) (thread_label : ThreadLabel)
  (app_frames : nat) (frames : list Frame.t) :
  forall (i : nat) (acc : Walk),
    forallb plain (output acc) = true ->
    forallb plain
      (output (symbolicate_frames w binary_path load_addr arch verbose
                 binary_images thread_label app_frames i frames acc)) = true.
Proof.
  induction frames as [|frame frames IH]; intros i acc Hacc;
    cbn [symbolicate_frames]; [exact Hacc|].
  apply IH. cbn [output]. rewrite forallb_app, Hacc.
  apply symbolicate_frame_plain.
Qed.

Lemma symbolicate_thread_plain (w : World) (binary_path : string)
  (load_addr : Z) (arch : string) (verbose : bool)
  (binary_images : list Image.t) (acc : Walk) (entry : ThreadLabel * Thread.t) :
  forallb plain (output acc) = true ->
  forallb plain
    (output (symbolicate_thread w binary_path load_addr arch verbose
               binary_images acc entry)) = true.
Proof.
  intros Hacc. unfold symbolicate_thread. destruct entry as [label thread].
  destruct (frames_of thread) as [|frame frames]; cbn [output].
  - plain_events.
  - rewrite forallb_app. apply andb_true_intro. split; [|plain_events].
    apply symbolicate_frames_plain. cbn [output]. plain_events.
Qed.

Lemma symbolicate_threads_plain (w : World) (binary_path : string)
  (load_addr : Z) (arch : string) (verbose : bool)
  (binary_images : list Image.t) (shown : list (ThreadLabel * Thread.t)) :
  forall acc : Walk,
    forallb plain (output acc) = true ->
    forallb plain
      (output (fold_left (symbolicate_thread w binary_path load_addr arch
                            verbose binary_images) shown acc)) = true.
Proof.
  induction shown as [|entry shown IH]; intros acc Hacc; cbn [fold_left];
    [exact Hacc|].
  apply IH. now apply symbolicate_thread_plain.
Qed.

Lemma show_locations_plain (locs : list Loc.t) :
  forallb plain (flat_map show_location locs) = true.
Proof.
  induction locs as [|loc locs IH]; cbn [flat_map]; [reflexivity|].
  rewrite forallb_app. apply andb_true_intro. split; [|exact IH].
  unfold show_location. plain_events.
Qed.

Lemma summary_plain (walk : Walk) : forallb plain (summary walk) = true.
Proof.
  unfold summary.
  assert (H := show_locations_plain (app_code_locations walk)).
  destruct (app_code_locations walk); plain_events.
Qed.

Lemma threads_to_show_plain (threads : list Thread.t) :
  forallb plain (snd (threads_to_show threads)) = true.
Proof.
  unfold threads_to_show.
  destruct (main_thread _); destruct (crashed_thread _);
    try destruct (negb _); cbn [snd]; plain_events.
Qed.

Lemma show_modules_plain (images : list Image.t) :
  forallb plain (show_modules images) = true.
Proof.
  unfold show_modules. plain_events.
Qed.

(** The body of the walk prints and spawns, and does nothing else. *)
Lemma walk_report_plain (w : World) (report_path : string) (verbose : bool) :
  forallb plain (snd (walk_report w report_path verbose)) = true.
Proof.
  unfold walk_report.
  destruct (load_json w report_path) as [data|]; [|reflexivity].
  assert (Hf := find_app_binary_plain w data).
  destruct (find_app_binary w data) as [[bp la] out2]. cbn [snd] in Hf.
  destruct (negb (truthy_opt bp) || negb (truthy_int la)); cbn [snd];
    [plain_events|].
  assert (Hmod : forallb plain (if verbose
                                then show_modules (Report.binary_images data)
                                else []) = true)
    by (destruct verbose; [apply show_modules_plain | reflexivity]).
  destruct (negb (path_exists w (get bp ""))); cbn [snd]; [plain_events|].
  destruct (Report.threads data) as [|t threads]; cbn [snd]; [plain_events|].
  destruct (existsb main_test_raises (t :: threads)); cbn [snd];
    [plain_events|].
  assert (Hshow := threads_to_show_plain (t :: threads)).
  destruct (threads_to_show (t :: threads)) as [[|entry shown] out6];
    cbn [snd] in *; [plain_events|].
  rewrite forallb_app. apply andb_true_intro. split; [|apply summary_plain].
  apply symbolicate_threads_plain. cbn [output]. plain_events.
Qed.

Lemma plain_preserves (events : list Event) :
  forallb plain events = true ->
  forall st : Sys,
    stdout (fold_left exec events st) = stdout st
    /\ output_handle (fold_left exec events st) = output_handle st.
Proof.
  induction events as [|e events IH]; intros Hplain st; [now split|].
  cbn [forallb] in Hplain. apply andb_true_iff in Hplain as [He Hplain].
  cbn [fold_left]. destruct (IH Hplain (exec st e)) as [-> ->].
  destruct e; try discriminate; cbn; destruct (stdout st); now split.
Qed.

(** Where the output file is left by a call that redirects to it: closed
    and with [sys.stdout] restored at the end of the body, open and with
    [sys.stdout] still redirected at every earlier return. *)
Lemma symbolicate_report_output_state (w : World) (report_path : string)
  (path : string) (verbose : bool) :
  path_exists w report_path = true ->
  path <> EmptyString ->
  open_w w path = true ->
  let st := run_events (snd (symbolicate_report w report_path (Some path)
                                                verbose)) in
  match fst (symbolicate_report w report_path (Some path) verbose) with
  | ReturnEnd => stdout st = Console /\ output_handle st = Closed
  | _ => stdout st = OutputFile /\ output_handle st = Opened
  end.
Proof.
  intros Hp Hne Ho. unfold symbolicate_report.
  rewrite Hp, (truthy_opt_some _ Hne). cbn [negb get]. rewrite Ho.
  assert (Hplain := walk_report_plain w report_path verbose).
  destruct (walk_report w report_path verbose) as [ret out2]. cbn [snd] in Hplain.
  set (st0 := fold_left exec [OpenOutput path; RedirectStdout;
                              PrintOriginal (SavingTo path)] boot).
  assert (Hst0 : stdout st0 = OutputFile /\ output_handle st0 = Opened)
    by now split.
  assert (Hmid : forall tail,
             run_events ([OpenOutput path; RedirectStdout;
                          PrintOriginal (SavingTo path)] ++ out2 ++ tail)
             = fold_left exec tail (fold_left exec out2 st0))
    by (intros tail; unfold run_events; now rewrite !fold_left_app).
  destruct (plain_preserves out2 Hplain st0) as [Hout Hhandle].
  destruct Hst0 as [Hs0 Hh0]. rewrite Hs0 in Hout. rewrite Hh0 in Hhandle.
  clearbody st0.
  destruct ret; cbn [fst snd];
    try (specialize (Hmid []); rewrite app_nil_r in Hmid; rewrite Hmid;
         cbn [fold_left]; now split).
  rewrite Hmid. cbn [fold_left exec stdout output_handle].
  now split.
Qed.

End OutputFile.

(** C9 (the code at the failing input).  The specification asks that the output
    file be closed and the original standard output restored on every
    exit path.  On a report with no threads, run with an output file, the
    walk leaves by the empty-thread-list return of line 323 with
    [sys.stdout] still bound to the output file and the file handle still
    open: lines 624-626, which restore and close, are only reached at the
    end of the body. *)
Theorem output_left_open_on_empty_thread_list :
  fst (symbolicate_report (sample_world (sample_report []) "")
         "report.json" (Some "out.txt") false)
  = ReturnNoThreads
  /\ stdout (run_events
               (snd (symbolicate_report (sample_world (sample_report []) "")
                       "report.json" (Some "out.txt") false)))
     = OutputFile
  /\ output_handle
       (run_events
          (snd (symbolicate_report (sample_world (sample_report []) "")
                  "report.json" (Some "out.txt") false)))
     = Opened.
Proof. vm_compute. repeat split. Qed.

(** The same run on a report with a main thread reaches the end of the
    body, where the stream is restored and the file closed. *)
Example ex_output_closed_at_end :
  fst (symbolicate_report (sample_world (sample_report [sample_main]) "")
         "report.json" (Some "out.txt") false)
  = ReturnEnd
  /\ stdout (run_events
               (snd (symbolicate_report
                       (sample_world (sample_report [sample_main]) "")
                       "report.json" (Some "out.txt") false)))
     = Console
  /\ output_handle
       (run_events
          (snd (symbolicate_report
                  (sample_world (sample_report [sample_main]) "")
                  "report.json" (Some "out.txt") false)))
     = Closed.
Proof. vm_compute. repeat split. Qed.

(** The end-to-end scenario of the specification: one main thread, one
    redacted application frame, a symbolizer that answers with
    [Foo.mm:42]. *)
Example ex_end_to_end :
  let '(ret, events) :=
    symbolicate_report
      (sample_world
         (sample_report [thread_with 0 None false
                           [{| Frame.object_name := Some "MatrixTestApp";
                               Frame.symbol_name := Some "<redacted>";
                               Frame.instruction_addr := Some 4294971392;
                               Frame.extra := "" |}]])
         (resolved_line ++ newline)%string)
      "report.json" None false in
  ret = ReturnEnd
  /\ In (Print (LocWithFile MainLabel "Foo.mm" "42")) events
  /\ spawns events = [atos_cmd "arm64" "/sim/MatrixTestApp.app/MatrixTestApp"
                               4294967296 4294971392].
Proof.
  vm_compute. repeat split.
  repeat first [left; reflexivity | right].
Qed.

(* ================================================================== *)
(** * Part V.  Further properties of the code *)
(* ================================================================== *)

(** Properties of the code beyond those the specification states: the
    functions it passes over, the converse of what it states one way,
    and what holds along a whole run.  Each is read off the code. *)

(** ** The architecture *)

(** X1.  [get_cpu_arch] answers [x86_64] exactly when the lower-cased
    [system.cpu_arch] contains [x86_64] and does not contain [arm]; in
    every other case, a missing key included, it answers [arm64]. *)
Theorem get_cpu_arch_cases :
  forall data : Report.t,
    let cpu_arch := PyStr.lower (get (Report.cpu_arch data) "") in
    (get_cpu_arch data = "x86_64" <->
     PyStr.contains "x86_64" cpu_arch = true
     /\ PyStr.contains "arm" cpu_arch = false)
    /\ (get_cpu_arch data = "arm64" \/ get_cpu_arch data = "x86_64")
    /\ get_cpu_arch {| Report.cpu_arch := None;
                       Report.binary_images := Report.binary_images data;
                       Report.threads := Report.threads data |} = "arm64".
Proof.
  intros data cpu_arch.
  assert (Harm : PyStr.contains "arm64" cpu_arch = true ->
                 PyStr.contains "arm" cpu_arch = true)
    by apply (contains_app_l "arm" "64").
  assert (Hcases : get_cpu_arch data
                   = if PyStr.contains "arm" cpu_arch then "arm64"
                     else if PyStr.contains "x86_64" cpu_arch then "x86_64"
                     else "arm64").
  { unfold get_cpu_arch. fold cpu_arch.
    destruct (PyStr.contains "arm64" cpu_arch);
      [now rewrite (Harm eq_refl) | reflexivity]. }
  rewrite Hcases. split; [|split]; [| |reflexivity].
  - destruct (PyStr.contains "arm" cpu_arch);
      [|destruct (PyStr.contains "x86_64" cpu_arch)];
      (split; [intros E | intros [E1 E2]]); try discriminate; now try split.
  - destruct (PyStr.contains "arm" cpu_arch);
      [|destruct (PyStr.contains "x86_64" cpu_arch)]; auto.
Qed.

(** ** Names of the application's image *)

Lemma basename_no_slash (p : string) :
  PyStr.contains "/" (PyStr.basename p) = false.
Proof.
  induction p as [|c p IH]; [reflexivity|].
  cbn [PyStr.basename].
  destruct (PyStr.contains "/" (String c p)) eqn:E; [exact IH | exact E].
Qed.

(** X2.  A basename holds no slash, so the third name of the list of
    line 70, [MatrixTestApp.app/MatrixTestApp], is never the one that
    matches: an image is taken as the application's exactly when its
    basename is [MatrixTestApp] or [MatrixTestApp.app]. *)
Theorem app_binary_names_reachable :
  forall (image : Image.t) (rest : list Image.t),
    let name := PyStr.basename (get (Image.name image) "") in
    name <> "MatrixTestApp.app/MatrixTestApp"
    /\ (PyStr.mem name app_binary_names = true <->
        name = "MatrixTestApp" \/ name = "MatrixTestApp.app")
    /\ scan_app_image (image :: rest)
       = if String.eqb name "MatrixTestApp" || String.eqb name "MatrixTestApp.app"
         then identity_of image
         else scan_app_image rest.
Proof.
  intros image rest name.
  assert (Hno : name <> "MatrixTestApp.app/MatrixTestApp").
  { intros E. assert (H := basename_no_slash (get (Image.name image) "")).
    fold name in H. rewrite E in H. discriminate. }
  assert (Hmem : PyStr.mem name app_binary_names
                 = String.eqb name "MatrixTestApp"
                   || String.eqb name "MatrixTestApp.app").
  { unfold PyStr.mem, app_binary_names. cbn [existsb].
    apply String.eqb_neq in Hno. rewrite Hno.
    now rewrite !orb_false_r. }
  split; [exact Hno|]. split.
  - rewrite Hmem, orb_true_iff, !String.eqb_eq. tauto.
  - cbn [scan_app_image]. fold name. now rewrite Hmem.
Qed.

(** ** The Image Map over a concatenation *)

(** X3.  Looking an address up in two lists of images, one after the
    other, is looking it up in the first and, only when that finds
    nothing, in the second; and the lookup finds nothing exactly when no
    image contains the address. *)
Theorem find_library_for_address_app :
  forall (a : Z) (images more : list Image.t),
    find_library_for_address a (images ++ more)
    = match find_library_for_address a images with
      | Some label => Some label
      | None => find_library_for_address a more
      end
    /\ (find_library_for_address a images = None <->
        forallb (fun image => negb (contains_address a image)) images = true).
Proof.
  intros a images more. rewrite !find_library_for_address_find. split.
  - induction images as [|image images IH]; [reflexivity|].
    cbn [app List.find]. destruct (contains_address a image); [reflexivity|].
    exact IH.
  - induction images as [|image images IH]; [now split|].
    cbn [List.find forallb]. destruct (contains_address a image).
    + cbn. split; discriminate.
    + exact IH.
Qed.

(** ** The candidates of the search *)

Section Candidates.

(** Inserting leaves the elements of each key in their order: the new
    element goes before the old ones of its key. *)
Lemma insert_desc_stable (k : Z) (x : string * Z) (l : list (string * Z)) :
  List.filter (fun b => snd b =? k) (insert_desc x l)
  = List.filter (fun b => snd b =? k) (x :: l).
Proof.
  induction l as [|y l IH]; [reflexivity|].
  cbn [insert_desc]. destruct (Z.ltb_spec (snd x) (snd y)) as [Hlt|Hge];
    [|reflexivity].
  cbn [List.filter] in *. rewrite IH.
  destruct (Z.eqb_spec (snd x) k) as [Hx|Hx];
    destruct (Z.eqb_spec (snd y) k) as [Hy|Hy]; try reflexivity; lia.
Qed.

Lemma sort_desc_stable (k : Z) (l : list (string * Z)) :
  List.filter (fun b => snd b =? k) (sort_desc l)
  = List.filter (fun b => snd b =? k) l.
Proof.
  induction l as [|x l IH]; [reflexivity|].
  cbn [sort_desc fold_right]. rewrite insert_desc_stable.
  cbn [List.filter]. fold (sort_desc l). now rewrite IH.
Qed.

Lemma find_all_possible_binaries_modified_at (w : World) (k : Z) :
  modified_at w k (find_all_possible_binaries w)
  = modified_at w k (existing_matches w).
Proof.
  rewrite find_all_possible_binaries_unfold. unfold modified_at.
  set (timed := List.map (fun m => (m, getmtime w m)) (existing_matches w)).
  assert (Hkey : forall l : list (string * Z),
             Forall (fun b => snd b = getmtime w (fst b)) l ->
             List.filter (fun p => getmtime w p =? k) (List.map fst l)
             = List.map fst (List.filter (fun b => snd b =? k) l)).
  { induction 1 as [|b l Hb Hl IH]; [reflexivity|].
    cbn [List.map List.filter]. rewrite <- Hb, IH.
    now destruct (snd b =? k). }
  assert (Htimed : Forall (fun b => snd b = getmtime w (fst b)) timed).
  { apply Forall_forall. intros b Hb. unfold timed in Hb.
    now apply in_map_iff in Hb as (m & <- & _). }
  rewrite Hkey.
  - rewrite sort_desc_stable, <- Hkey by exact Htimed.
    unfold timed. rewrite map_map. cbn [fst]. now rewrite map_id.
  - apply Forall_forall. intros b Hb. rewrite Forall_forall in Htimed.
    apply Htimed. now apply sort_desc_in.
Qed.

(** *** The identity tool *)

Lemma scan_uuid_lines_app (arch : string) (lines more : list string) :
  scan_uuid_lines arch (lines ++ more)
  = match scan_uuid_lines arch lines with
    | Some u => Some u
    | None => scan_uuid_lines arch more
    end.
Proof.
  induction lines as [|line lines IH]; [reflexivity|].
  cbn [app scan_uuid_lines]. destruct (_ || _); [|exact IH].
  destruct (Re.search uuid_re line); [reflexivity | exact IH].
Qed.

Lemma scan_uuid_lines_skipped (arch : string) (lines : list string) :
  forallb (fun line => negb (PyStr.contains arch line
                             || PyStr.contains "arm64" line)) lines = true ->
  scan_uuid_lines arch lines = None.
Proof.
  induction lines as [|line lines IH]; [reflexivity|].
  cbn [forallb scan_uuid_lines]. intros H.
  apply andb_true_iff in H as [Hline H]. apply negb_true_iff in Hline.
  rewrite Hline. now apply IH.
Qed.

Lemma matches_uuid_re (u : string) (caps : Re.Captures) :
  matches uuid_re u [] caps ->
  exists g, u = ("UUID: " ++ g)%string /\ caps = [g]
            /\ g <> EmptyString /\ str_all uuid_char g = true.
Proof.
  unfold uuid_re. intros H.
  apply matches_seq_inv in H as (u1 & u2 & c1 & -> & H1 & H2).
  apply matches_str_inv in H1 as [-> ->].
  apply matches_group_inv in H2 as (c2 & H2 & ->).
  apply matches_plus_inv in H2 as (Hne & Hall & ->).
  now exists u2.
Qed.

(** What the scan returns was read, as it stands, from a line that names
    the architecture. *)
Lemma scan_uuid_lines_found (arch : string) (lines : list string) (u : string) :
  scan_uuid_lines arch lines = Some u ->
  u <> EmptyString /\ str_all uuid_char u = true
  /\ exists line,
       In line lines
       /\ PyStr.contains arch line || PyStr.contains "arm64" line = true
       /\ PyStr.contains ("UUID: " ++ u)%string line = true.
Proof.
  induction lines as [|line lines IH]; [discriminate|].
  cbn [scan_uuid_lines].
  assert (Hrest : scan_uuid_lines arch lines = Some u ->
                  u <> EmptyString /\ str_all uuid_char u = true
                  /\ exists line0,
                       In line0 (line :: lines)
                       /\ PyStr.contains arch line0
                          || PyStr.contains "arm64" line0 = true
                       /\ PyStr.contains ("UUID: " ++ u)%string line0 = true).
  { intros H. destruct (IH H) as (Hne & Hall & l0 & Hin & Harch & Hc).
    repeat split; try assumption. exists l0. repeat split; try assumption.
    now right. }
  destruct (_ || _) eqn:Harch; [|exact Hrest].
  destruct (Re.search uuid_re line) as [m|] eqn:Hs; [|exact Hrest].
  intros [= <-].
  apply search_sound in Hs as (pre & t & -> & Hm).
  apply match_here_sound in Hm as (v & s' & -> & Hm).
  apply matches_uuid_re in Hm as (g & -> & -> & Hne & Hall).
  cbn [Re.group Nat.sub nth]. rewrite (upper_uuid_chars g Hall).
  repeat split; try assumption.
  exists (pre ++ ("UUID: " ++ g) ++ s')%string. repeat split.
  - now left.
  - exact Harch.
  - apply contains_middle.
Qed.

Lemma get_binary_uuid_none (w : World) (binary_path arch : string) :
  (forall rc out err,
      run w (dwarfdump_cmd binary_path) = Completed rc out err ->
      rc <> 0
      \/ forallb (fun line => negb (PyStr.contains arch line
                                    || PyStr.contains "arm64" line))
                 (PyStr.split_lines out) = true) ->
  fst (get_binary_uuid w binary_path arch) = None.
Proof.
  unfold get_binary_uuid, dwarfdump_cmd. cbn [fst]. intros H.
  destruct (run w _) as [rc out err|e]; [|reflexivity].
  destruct (Z.eqb_spec rc 0) as [->|Hrc]; [|reflexivity].
  destruct (H 0 out err eq_refl) as [Hne|Hlines]; [congruence|].
  now apply scan_uuid_lines_skipped.
Qed.

(** *** The loop over the candidates *)

Lemma match_candidates_found (w : World) (report_uuid : string)
  (candidates : list string) (c : string) :
  fst (match_candidates w report_uuid candidates) = Some c ->
  report_uuid <> EmptyString
  /\ exists pre post,
       candidates = pre ++ c :: post
       /\ fst (get_binary_uuid w c "arm64") = Some report_uuid
       /\ (forall c', In c' pre ->
                      fst (get_binary_uuid w c' "arm64") <> Some report_uuid)
       /\ spawns (snd (match_candidates w report_uuid candidates))
          = List.map dwarfdump_cmd (pre ++ [c]).
Proof.
  induction candidates as [|c0 candidates IH]; cbn [match_candidates];
    [discriminate|].
  assert (Hev := get_binary_uuid_events w c0 "arm64").
  destruct (get_binary_uuid w c0 "arm64") as [bu sp] eqn:Hget.
  cbn [snd] in Hev. subst sp.
  destruct (truthy_opt bu && String.eqb (get bu "") report_uuid) eqn:Hcond.
  - cbn [fst snd]. intros [= <-].
    apply andb_true_iff in Hcond as [Ht He].
    destruct bu as [u|]; [|discriminate]. cbn [get] in He.
    apply String.eqb_eq in He. subst u.
    split; [intros ->; discriminate|].
    exists [], candidates. cbn [app List.map]. split; [reflexivity|].
    split; [now rewrite Hget|]. split.
    + intros c' [].
    + reflexivity.
  - destruct (match_candidates w report_uuid candidates) as [r later].
    cbn [fst snd] in *. intros Hr.
    destruct (IH Hr) as (Hne & pre & post & -> & Hc & Hpre & Hsp).
    split; [exact Hne|].
    exists (c0 :: pre), post. split; [reflexivity|].
    split; [exact Hc|]. split.
    + intros c' [<-|Hin]; [|now apply Hpre].
      rewrite Hget. cbn [fst]. intros ->.
      rewrite (truthy_opt_some _ Hne) in Hcond. cbn [get] in Hcond.
      now rewrite String.eqb_refl in Hcond.
    + rewrite !spawns_app, spawns_say, Hsp.
      destruct (truthy_opt bu); cbn; now rewrite ?spawns_say.
Qed.

Lemma match_candidates_none (w : World) (report_uuid : string)
  (candidates : list string) :
  (forall c, In c candidates ->
             fst (get_binary_uuid w c "arm64") <> Some report_uuid) ->
  fst (match_candidates w report_uuid candidates) = None
  /\ spawns (snd (match_candidates w report_uuid candidates))
     = List.map dwarfdump_cmd candidates.
Proof.
  induction candidates as [|c0 candidates IH]; cbn [match_candidates];
    [now split|].
  intros Hall.
  assert (Hev := get_binary_uuid_events w c0 "arm64").
  assert (Hc0 := Hall c0 (or_introl eq_refl)).
  destruct (get_binary_uuid w c0 "arm64") as [bu sp].
  cbn [fst snd] in Hev, Hc0. subst sp.
  assert (Hno : truthy_opt bu && String.eqb (get bu "") report_uuid = false).
  { destruct bu as [u|]; [|reflexivity]. cbn [get].
    destruct (String.eqb_spec u report_uuid) as [->|]; [congruence|].
    apply andb_false_r. }
  rewrite Hno.
  destruct IH as [IH1 IH2]; [intros; apply Hall; now right|].
  destruct (match_candidates w report_uuid candidates) as [r later].
  cbn [fst snd List.map] in *. split; [exact IH1|].
  rewrite !spawns_app, spawns_say, IH2.
  destruct (truthy_opt bu); cbn; now rewrite ?spawns_say.
Qed.

End Candidates.

(** X4.  The candidates are exactly the matches of the three patterns
    that exist, each as often as it was matched; they come most recently
    modified first, and those with the same modification time keep the
    order in which the patterns and the glob produced them. *)
Theorem find_all_possible_binaries_stable_sort :
  forall w : World,
    Permutation (existing_matches w) (find_all_possible_binaries w)
    /\ StronglySorted (newer_first w) (find_all_possible_binaries w)
    /\ (forall k : Z,
           modified_at w k (find_all_possible_binaries w)
           = modified_at w k (existing_matches w))
    /\ Forall (fun p => path_exists w p = true) (find_all_possible_binaries w).
Proof.
  intros w. split; [|split; [|split]].
  - apply find_all_possible_binaries_perm.
  - apply find_all_possible_binaries_sorted.
  - intros k. apply find_all_possible_binaries_modified_at.
  - apply Forall_forall. intros p Hp.
    now apply find_all_possible_binaries_exist in Hp.
Qed.

(** X5.  [get_binary_uuid] runs the identity tool once, whatever comes of
    it.  A UUID it returns is a non-empty string over [A-F], [0-9] and
    [-], read as it stands from a line of the tool's output that names
    the architecture or arm64; it returns null when the tool raises (its
    timeout included) or exits with a status other than 0. *)
Theorem get_binary_uuid_shape :
  forall (w : World) (binary_path arch : string),
    snd (get_binary_uuid w binary_path arch)
    = [Spawn (dwarfdump_cmd binary_path)]
    /\ (forall u : string,
           fst (get_binary_uuid w binary_path arch) = Some u ->
           u <> EmptyString /\ str_all uuid_char u = true
           /\ exists out err line,
                run w (dwarfdump_cmd binary_path) = Completed 0 out err
                /\ In line (PyStr.split_lines out)
                /\ PyStr.contains arch line || PyStr.contains "arm64" line = true
                /\ PyStr.contains ("UUID: " ++ u)%string line = true)
    /\ (forall (rc : Z) (out err : string),
           run w (dwarfdump_cmd binary_path) = Completed rc out err ->
           rc <> 0 ->
           fst (get_binary_uuid w binary_path arch) = None)
    /\ (forall e : RunError,
           run w (dwarfdump_cmd binary_path) = Raised e ->
           fst (get_binary_uuid w binary_path arch) = None).
Proof.
  intros w binary_path arch. split; [apply get_binary_uuid_events|].
  unfold get_binary_uuid, dwarfdump_cmd. cbn [fst]. split; [|split].
  - intros u. destruct (run w _) as [rc out err|e]; [|discriminate].
    destruct (Z.eqb_spec rc 0) as [->|Hrc]; [|discriminate].
    intros H. apply scan_uuid_lines_found in H as (Hne & Hall & line & H).
    repeat split; try assumption. now exists out, err, line.
  - intros rc out err -> Hrc.
    now destruct (Z.eqb_spec rc 0).
  - now intros e ->.
Qed.

Lemma get_binary_uuid_shape_witness :
  ("FFFF-0000" <> EmptyString /\ str_all uuid_char "FFFF-0000" = true)
  /\ fst (get_binary_uuid (exit_world 1 "UUID: FFFF-0000 (arm64) /x")
            new_build "arm64") = None
  /\ fst (get_binary_uuid bare_world new_build "arm64") = None.
Proof.
  destruct (get_binary_uuid_shape search_world new_build "arm64")
    as (_ & Hshape & _ & _).
  destruct (get_binary_uuid_shape
              (exit_world 1 "UUID: FFFF-0000 (arm64) /x") new_build "arm64")
    as (_ & _ & Hexit & _).
  destruct (get_binary_uuid_shape bare_world new_build "arm64")
    as (_ & _ & _ & Hraise).
  split; [|split].
  - destruct (Hshape "FFFF-0000" eq_refl) as (Hne & Hall & _).
    now split.
  - apply (Hexit 1 "UUID: FFFF-0000 (arm64) /x" ""); [reflexivity | discriminate].
  - apply (Hraise OtherError). reflexivity.
Defined.

(** X6.  When the identity tool exits with 0 and the first line of its
    output that names the architecture or arm64 reads
    [UUID: <u> (arm64) ...], with [<u>] a non-empty string over [A-F],
    [0-9] and [-], [get_binary_uuid] returns [<u>]. *)
Theorem get_binary_uuid_reads_first_line :
  forall (w : World) (binary_path arch out err : string)
         (skipped : list string) (u rest : string) (later : list string),
    run w (dwarfdump_cmd binary_path) = Completed 0 out err ->
    PyStr.split_lines out
    = skipped ++ ("UUID: " ++ u ++ " (arm64) " ++ rest)%string :: later ->
    forallb (fun line => negb (PyStr.contains arch line
                               || PyStr.contains "arm64" line)) skipped = true ->
    u <> EmptyString -> str_all uuid_char u = true ->
    fst (get_binary_uuid w binary_path arch) = Some u.
Proof.
  intros w binary_path arch out err skipped u rest later Hrun Hlines Hskip Hne Hu.
  unfold get_binary_uuid. cbn [fst]. fold (dwarfdump_cmd binary_path).
  rewrite Hrun. cbn [Z.eqb]. rewrite Hlines, scan_uuid_lines_app.
  rewrite (scan_uuid_lines_skipped _ _ Hskip).
  now apply scan_uuid_lines_capitals.
Qed.

Lemma get_binary_uuid_reads_first_line_witness :
  fst (get_binary_uuid
         (printing_world (intel_only ++ "UUID: FFFF-0000 (arm64) /x"))
         new_build "arm64")
  = Some "FFFF-0000".
Proof.
  apply (get_binary_uuid_reads_first_line
           (printing_world (intel_only ++ "UUID: FFFF-0000 (arm64) /x"))
           new_build "arm64" (intel_only ++ "UUID: FFFF-0000 (arm64) /x") ""
           ["UUID: ABCD-1234 (x86_64) /dd/A/MatrixTestApp"]
           "FFFF-0000" "/x" []);
    try reflexivity.
  discriminate.
Defined.

(** X7.  The search asks for the UUID of each candidate with the default
    architecture, arm64, whatever the report's architecture.  A candidate
    for which no line of the tool's output contains [arm64] (an
    Intel-only simulator build) gets no UUID, so no candidate of that
    kind is ever matched, even when its UUID is the report's. *)
Theorem match_candidates_needs_arm64 :
  forall (w : World) (report_uuid : string) (candidates : list string),
    (forall c rc out err,
        In c candidates ->
        run w (dwarfdump_cmd c) = Completed rc out err ->
        forallb (fun line => negb (PyStr.contains "arm64" line))
                (PyStr.split_lines out) = true) ->
    Forall (fun c => fst (get_binary_uuid w c "arm64") = None) candidates
    /\ fst (match_candidates w report_uuid candidates) = None.
Proof.
  intros w report_uuid candidates Hlines.
  assert (Hnone : forall c, In c candidates ->
                            fst (get_binary_uuid w c "arm64") = None).
  { intros c Hc. apply get_binary_uuid_none. intros rc out err Hrun. right.
    specialize (Hlines c rc out err Hc Hrun).
    induction (PyStr.split_lines out) as [|line lines IH]; [reflexivity|].
    cbn [forallb] in *. apply andb_true_iff in Hlines as [Hline Hlines].
    now rewrite orb_diag, Hline, IH. }
  split; [now apply Forall_forall|].
  apply match_candidates_none. intros c Hc. now rewrite (Hnone c Hc).
Qed.

Lemma match_candidates_needs_arm64_witness :
  Forall (fun c => fst (get_binary_uuid (printing_world intel_only) c "arm64")
                   = None) [old_build]
  /\ fst (match_candidates (printing_world intel_only) "ABCD-1234" [old_build])
     = None.
Proof.
  apply (match_candidates_needs_arm64 (printing_world intel_only) "ABCD-1234"
           [old_build]).
  intros c rc out err _ [= _ <- _]. reflexivity.
Defined.

(** X8.  A candidate that the loop over the candidates returns has the
    report's UUID, which is not empty; it is the first candidate, in
    search order, that has it, and the identity tool was run on the
    candidates up to it and on no other. *)
Theorem match_candidates_sound :
  forall (w : World) (report_uuid : string) (candidates : list string)
         (c : string),
    fst (match_candidates w report_uuid candidates) = Some c ->
    report_uuid <> EmptyString
    /\ exists pre post,
         candidates = pre ++ c :: post
         /\ fst (get_binary_uuid w c "arm64") = Some report_uuid
         /\ (forall c', In c' pre ->
                        fst (get_binary_uuid w c' "arm64") <> Some report_uuid)
         /\ spawns (snd (match_candidates w report_uuid candidates))
            = List.map dwarfdump_cmd (pre ++ [c]).
Proof.
  intros w report_uuid candidates c. apply match_candidates_found.
Qed.

Lemma match_candidates_sound_witness :
  "ABCD-1234" <> EmptyString
  /\ exists pre post,
       [new_build; old_build] = pre ++ old_build :: post
       /\ fst (get_binary_uuid search_world old_build "arm64") = Some "ABCD-1234"
       /\ (forall c', In c' pre ->
                      fst (get_binary_uuid search_world c' "arm64")
                      <> Some "ABCD-1234")
       /\ spawns (snd (match_candidates search_world "ABCD-1234"
                                        [new_build; old_build]))
          = List.map dwarfdump_cmd (pre ++ [old_build]).
Proof.
  apply (match_candidates_sound search_world "ABCD-1234" [new_build; old_build]
           old_build).
  reflexivity.
Defined.

(** X9.  A path that [find_app_binary] returns exists on disk: it is the
    path the report declares, or one of the existing matches of the three
    patterns.  When the declared path exists, it is returned and no
    process is run. *)
Theorem find_app_binary_returns_existing_path :
  forall (w : World) (data : Report.t),
    let id := fst (declared_identity (Report.binary_images data)) in
    (forall (binary_path : string) (la : option Z),
        fst (find_app_binary w data) = (Some binary_path, la) ->
        path_exists w binary_path = true
        /\ (simulator_path id = Some binary_path
            \/ In binary_path (existing_matches w)))
    /\ (truthy_int (load_addr id) = true ->
        truthy_opt (simulator_path id) = true ->
        path_exists w (get (simulator_path id) "") = true ->
        fst (find_app_binary w data) = (simulator_path id, load_addr id)
        /\ spawns (snd (find_app_binary w data)) = []).
Proof.
  intros w data id. split.
  - intros binary_path la. rewrite find_app_binary_result. fold id.
    destruct (negb (truthy_int (load_addr id))); [discriminate|].
    destruct (truthy_opt (simulator_path id)
              && path_exists w (get (simulator_path id) "")) eqn:Hsim.
    + intros [= Hp _]. apply andb_true_iff in Hsim as [_ Hex].
      rewrite Hp in *. cbn [get] in Hex. split; [exact Hex | now left].
    + destruct (find_all_possible_binaries w) as [|latest rest] eqn:Hcands;
        [discriminate|].
      assert (Hin : forall x,
                 get (if truthy_opt (report_uuid id)
                      then fst (match_candidates w (get (report_uuid id) "")
                                                 (latest :: rest))
                      else None) latest = x ->
                 In x (latest :: rest)).
      { intros x. destruct (truthy_opt (report_uuid id));
          [|cbn [get]; intros <-; now left].
        destruct (fst (match_candidates w (get (report_uuid id) "")
                                        (latest :: rest))) as [c|] eqn:Hm;
          cbn [get]; intros <-; [|now left].
        apply match_candidates_found in Hm as (_ & pre & post & Heq & _).
        rewrite Heq. apply in_or_app. right. now left. }
      intros [= Hp _]. apply Hin in Hp. rewrite <- Hcands in Hp.
      apply find_all_possible_binaries_exist in Hp as [Hp Hex].
      split; [exact Hex | now right].
  - intros Hla Ht Hex. split.
    + rewrite find_app_binary_result. fold id. now rewrite Hla, Ht, Hex.
    + unfold find_app_binary.
      assert (Hid := declared_identity_spawns (Report.binary_images data)).
      unfold id in *.
      destruct (declared_identity (Report.binary_images data)) as [id0 out1].
      cbn [fst snd] in *. rewrite Hla, Ht, Hex. cbn [negb andb snd].
      rewrite !spawns_app, !spawns_say, Hid. cbn [spawns app].
      now destruct (truthy_opt (report_uuid id0)).
Qed.

Lemma find_app_binary_returns_existing_path_witness :
  (path_exists search_world old_build = true
   /\ (simulator_path (fst (declared_identity
                              (Report.binary_images (sample_report [sample_app]))))
       = Some old_build
       \/ In old_build (existing_matches search_world)))
  /\ (fst (find_app_binary (sample_world (sample_report [sample_app]) "")
             (sample_report [sample_app]))
      = (Some "/sim/MatrixTestApp.app/MatrixTestApp", Some 4294967296)
      /\ spawns (snd (find_app_binary
                        (sample_world (sample_report [sample_app]) "")
                        (sample_report [sample_app]))) = []).
Proof.
  split.
  - apply (proj1 (find_app_binary_returns_existing_path
                    search_world (sample_report [sample_app]))
                 old_build (Some 4294967296)).
    reflexivity.
  - apply (proj2 (find_app_binary_returns_existing_path
                    (sample_world (sample_report [sample_app]) "")
                    (sample_report [sample_app])));
      reflexivity.
Defined.

(** X10.  The degraded fallback.  When the declared path does not exist,
    candidates were found and none of them has the report's UUID, or the
    report declares no UUID, [find_app_binary] returns the first
    candidate, which no other candidate is more recent than, with the
    declared load address, and names it in its warning.  With a UUID in
    the report the identity tool was run on every candidate, in order;
    without one it was not run at all. *)
Theorem find_app_binary_fallback :
  forall (w : World) (data : Report.t) (latest : string) (rest : list string),
    let id := fst (declared_identity (Report.binary_images data)) in
    truthy_int (load_addr id) = true ->
    truthy_opt (simulator_path id) && path_exists w (get (simulator_path id) "")
    = false ->
    find_all_possible_binaries w = latest :: rest ->
    (truthy_opt (report_uuid id) = true ->
     forall c, In c (latest :: rest) ->
               fst (get_binary_uuid w c "arm64")
               <> Some (get (report_uuid id) "")) ->
    fst (find_app_binary w data) = (Some latest, load_addr id)
    /\ In (Print (Chosen latest)) (snd (find_app_binary w data))
    /\ Forall (newer_first w latest) rest
    /\ spawns (snd (find_app_binary w data))
       = if truthy_opt (report_uuid id)
         then List.map dwarfdump_cmd (latest :: rest)
         else [].
Proof.
  intros w data latest rest id Hla Hsim Hcands Hnone.
  assert (Hsorted := find_all_possible_binaries_sorted w).
  rewrite Hcands in Hsorted. apply StronglySorted_inv in Hsorted as [_ Hnew].
  assert (Hid := declared_identity_spawns (Report.binary_images data)).
  unfold find_app_binary. unfold id in *.
  destruct (declared_identity (Report.binary_images data)) as [id0 out1].
  cbn [fst snd] in *. rewrite Hla, Hsim, Hcands. cbn [negb].
  destruct (truthy_opt (report_uuid id0)) eqn:Hu.
  - destruct (match_candidates_none w (get (report_uuid id0) "") (latest :: rest)
                (Hnone eq_refl)) as [Hm Hsp].
    destruct (match_candidates w (get (report_uuid id0) "") (latest :: rest))
      as [r out5].
    cbn [fst snd] in Hm, Hsp. subst r. cbn [fst snd].
    repeat split.
    + do 3 (apply in_or_app; right). apply in_or_app. left. now left.
    + exact Hnew.
    + rewrite !spawns_app, !spawns_say, Hid, Hsp. cbn [spawns app].
      now rewrite app_nil_r.
  - cbn [fst snd]. repeat split.
    + do 3 (apply in_or_app; right). apply in_or_app. left. now left.
    + exact Hnew.
    + now rewrite !spawns_app, !spawns_say, Hid.
Qed.

Lemma find_app_binary_fallback_witness :
  (fst (find_app_binary search_world (report_of stale_app_image))
   = (Some new_build, Some 4294967296)
   /\ spawns (snd (find_app_binary search_world (report_of stale_app_image)))
      = [dwarfdump_cmd new_build; dwarfdump_cmd old_build])
  /\ (fst (find_app_binary search_world (report_of anonymous_app_image))
      = (Some new_build, Some 4294967296)
      /\ spawns (snd (find_app_binary search_world
                        (report_of anonymous_app_image))) = []).
Proof.
  split.
  - destruct (find_app_binary_fallback search_world (report_of stale_app_image)
                new_build [old_build]) as (Hr & _ & _ & Hs);
      try reflexivity.
    + intros _ c [<-|[<-|[]]]; vm_compute; discriminate.
    + split; [exact Hr | exact Hs].
  - destruct (find_app_binary_fallback search_world
                (report_of anonymous_app_image) new_build [old_build])
      as (Hr & _ & _ & Hs);
      try reflexivity.
    + intros H. discriminate H.
    + split; [exact Hr | exact Hs].
Defined.

(** ** The threads shown *)

Section ShownThreads.

Lemma thread_is_false (t : Thread.t) (v : option Thread.t) :
  thread_is t v = false <-> v <> Some t.
Proof.
  rewrite <- thread_is_spec. destruct (thread_is t v); split; congruence.
Qed.

Lemma selection_policy_shown_as (threads : list Thread.t)
  (label : ThreadLabel) (t : Thread.t) :
  In (label, t) (selection_policy threads) ->
  In t threads /\ shown_as threads label t.
Proof.
  unfold selection_policy. rewrite !in_app_iff. intros [H|[H|H]].
  - destruct (last_such is_main threads) as [m|] eqn:Hm; [|destruct H].
    destruct H as [[= <- <-]|[]].
    split; [now apply last_such_some in Hm | exact Hm].
  - destruct (last_such flagged_crashed threads) as [c|] eqn:Hc; [|destruct H].
    destruct (thread_is c (last_such is_main threads)) eqn:Hcm; [destruct H|].
    destruct H as [[= <- <-]|[]].
    split; [now apply last_such_some in Hc|].
    split; [exact Hc | now apply thread_is_false].
  - apply in_map_iff in H as (t' & [= <- <-] & H).
    apply filter_In in H as [Hin H].
    apply andb_true_iff in H as [H Hnc]. apply andb_true_iff in H as [Happ Hnm].
    apply negb_true_iff in Hnc, Hnm.
    split; [exact Hin|]. cbn [shown_as].
    split; [reflexivity|]. split; [exact Happ|].
    split; now apply thread_is_false.
Qed.

Lemma shown_as_one_label (threads : list Thread.t) (l1 l2 : ThreadLabel)
  (t : Thread.t) :
  shown_as threads l1 t -> shown_as threads l2 t -> l1 = l2.
Proof.
  destruct l1, l2; cbn [shown_as]; intros H1 H2; try reflexivity;
    try (exfalso; tauto).
  destruct H1 as [-> _], H2 as [-> _]. reflexivity.
Qed.

End ShownThreads.

(** X11.  Every thread the report shows is a thread of the report, and
    its label tells why it is shown: the main label goes to the last
    thread that counts as main, the crashed label to the last thread
    flagged as crashed when that is not the main one, an application
    label, which carries the thread's own index, to a thread with
    application frames that is neither.  No thread is shown under two
    different labels, and each thread shown is announced by one line. *)
Theorem threads_to_show_sound :
  forall threads : list Thread.t,
    let shown := fst (threads_to_show threads) in
    (forall label t, In (label, t) shown ->
                     In t threads /\ shown_as threads label t /\ qualifies t = true)
    /\ (forall l1 l2 t, In (l1, t) shown -> In (l2, t) shown -> l1 = l2)
    /\ List.length (snd (threads_to_show threads)) = List.length shown.
Proof.
  intros threads shown. unfold shown. split; [|split].
  - intros label t H. rewrite threads_to_show_policy in H.
    apply selection_policy_shown_as in H as [Hin Hs].
    split; [exact Hin|]. split; [exact Hs|].
    unfold qualifies. destruct label; cbn [shown_as] in Hs.
    + apply last_such_some in Hs as [_ ->]. reflexivity.
    + destruct Hs as [Hs _]. apply last_such_some in Hs as [_ ->].
      apply orb_true_iff. left. apply orb_true_r.
    + destruct Hs as (_ & -> & _). apply orb_true_r.
  - intros l1 l2 t H1 H2. rewrite threads_to_show_policy in H1, H2.
    apply selection_policy_shown_as in H1 as [_ H1].
    apply selection_policy_shown_as in H2 as [_ H2].
    exact (shown_as_one_label threads l1 l2 t H1 H2).
  - unfold threads_to_show.
    destruct (main_thread (scan_threads threads));
      destruct (crashed_thread (scan_threads threads));
      try destruct (negb _); cbn [fst snd];
      rewrite ?length_app, ?length_map; reflexivity.
Qed.

Lemma threads_to_show_sound_witness :
  (In sample_crashed [sample_crashed; sample_app; sample_main; sample_idle]
   /\ shown_as [sample_crashed; sample_app; sample_main; sample_idle]
               CrashedLabel sample_crashed
   /\ qualifies sample_crashed = true)
  /\ AppLabel (Some 5) = AppLabel (Some 5).
Proof.
  destruct (threads_to_show_sound
              [sample_crashed; sample_app; sample_main; sample_idle])
    as (Hshown & Hone & _).
  split.
  - apply (Hshown CrashedLabel sample_crashed). right. now left.
  - apply (Hone (AppLabel (Some 5)) (AppLabel (Some 5)) sample_app);
      right; right; now left.
Defined.

(** ** The symbolizer runs of a walk *)

Section Lookups.

Variables (w : World) (binary_path : string) (load_addr : Z) (arch : string).
Variables (verbose : bool) (binary_images : list Image.t).

Lemma symbolicate_address_spawns (target_addr : Z) (trace : bool) :
  spawns (snd (symbolicate_address w binary_path load_addr target_addr arch trace))
  = [atos_cmd arch binary_path load_addr target_addr].
Proof.
  unfold symbolicate_address, atos_cmd.
  destruct (run w _) as [rc out err|e]; destruct trace;
    repeat match goal with
           | |- context [if ?c then _ else _] => destruct c
           end; reflexivity.
Qed.

Lemma parse_symbol_output_spawns (symbol_str : string) (trace : bool) :
  spawns (snd (parse_symbol_output symbol_str trace)) = [].
Proof.
  unfold parse_symbol_output.
  destruct (Re.search source_loc_re symbol_str); destruct trace; reflexivity.
Qed.

Lemma symbolicate_frame_lookup (thread_label : ThreadLabel)
  (app_frames i : nat) (frame : Frame.t) :
  spawns (printed (symbolicate_frame w binary_path load_addr arch verbose
                     binary_images thread_label app_frames i frame))
  = if should_symbolicate app_frames (get (Frame.object_name frame) "???")
                          (Frame.symbol_name frame)
    then [atos_cmd arch binary_path load_addr
                   (get (Frame.instruction_addr frame) 0)]
    else [].
Proof.
  unfold symbolicate_frame.
  destruct (should_symbolicate _ _ _).
  - assert (Ha := symbolicate_address_spawns
                    (get (Frame.instruction_addr frame) 0)
                    (verbose && Nat.ltb i 3)).
    destruct (symbolicate_address _ _ _ _ _ _) as [sym out1]. cbn [snd] in Ha.
    destruct (truthy_opt sym).
    + assert (Hp := parse_symbol_output_spawns (get sym "")
                      (verbose && Nat.ltb i 3)).
      destruct (parse_symbol_output _ _) as [[f l] out2]. cbn [snd] in Hp.
      cbn [printed]. rewrite !spawns_app, Ha, Hp.
      destruct (verbose && Nat.ltb i 3); destruct (truthy_opt f); reflexivity.
    + cbn [printed]. rewrite !spawns_app, Ha.
      destruct (verbose && Nat.ltb i 3); reflexivity.
  - cbn [printed]. rewrite !spawns_app.
    destruct (verbose && Nat.ltb i 3); reflexivity.
Qed.

Lemma symbolicate_frames_lookups (thread_label : ThreadLabel)
  (app_frames : nat) (frames : list Frame.t) :
  forall (i : nat) (acc : Walk),
    spawns (output (symbolicate_frames w binary_path load_addr arch verbose
                      binary_images thread_label app_frames i frames acc))
    = spawns (output acc)
        ++ List.map (fun frame =>
                       atos_cmd arch binary_path load_addr
                                (get (Frame.instruction_addr frame) 0))
             (List.filter (fun frame =>
                             should_symbolicate app_frames
                               (get (Frame.object_name frame) "???")
                               (Frame.symbol_name frame))
                          frames).
Proof.
  induction frames as [|frame frames IH]; intros i acc;
    cbn [symbolicate_frames List.filter List.map].
  - now rewrite app_nil_r.
  - rewrite IH. cbn [output]. rewrite spawns_app, symbolicate_frame_lookup.
    rewrite <- app_assoc.
    now destruct (should_symbolicate _ _ _).
Qed.

Lemma symbolicate_thread_spawns (acc : Walk) (label : ThreadLabel)
  (thread : Thread.t) :
  spawns (output (symbolicate_thread w binary_path load_addr arch verbose
                    binary_images acc (label, thread)))
  = spawns (output acc) ++ lookups arch binary_path load_addr thread.
Proof.
  unfold symbolicate_thread, lookups, eligible, app_frame_count.
  destruct (frames_of thread) as [|frame frames] eqn:Hframes; cbn [output].
  - rewrite !spawns_app, !spawns_say. cbn [spawns List.filter List.map].
    now rewrite !app_nil_r.
  - rewrite !spawns_app, symbolicate_frames_lookups. cbn [output].
    rewrite !spawns_app, !spawns_say. cbn [spawns].
    rewrite !app_nil_r.
    assert (Htail : forall b : bool,
               spawns (if b then say ["⚠️  未识别出应用代码栈帧，将尝试符号化所有地址"; ""]
                       else []) = [])
      by (intros []; reflexivity).
    rewrite Htail, app_nil_r.
    destruct (Nat.ltb 0 _); cbn [spawns]; now rewrite app_nil_r.
Qed.

Lemma symbolicate_threads_spawns (shown : list (ThreadLabel * Thread.t)) :
  forall acc : Walk,
    spawns (output (fold_left (symbolicate_thread w binary_path load_addr arch
                                 verbose binary_images) shown acc))
    = spawns (output acc)
        ++ flat_map (fun entry =>
                       lookups arch binary_path load_addr (snd entry)) shown.
Proof.
  induction shown as [|[label thread] shown IH]; intros acc;
    cbn [fold_left flat_map].
  - now rewrite app_nil_r.
  - rewrite IH, symbolicate_thread_spawns. cbn [snd]. now rewrite app_assoc.
Qed.

Lemma lookups_are_lookups (threads : list Thread.t) (thread : Thread.t) :
  In thread threads ->
  Forall (is_lookup arch binary_path load_addr threads)
         (lookups arch binary_path load_addr thread).
Proof.
  intros Hin. apply Forall_forall. intros cmd Hcmd. unfold lookups in Hcmd.
  apply in_map_iff in Hcmd as (frame & <- & Hframe).
  apply filter_In in Hframe as [Hframe _].
  now exists thread, frame.
Qed.

End Lookups.

(** X12.  A frame is sent to the symbolizer exactly when it is eligible,
    and then once.  In a thread with application frames a frame is
    eligible when its object name contains the application's name and it
    has no usable symbol; in a thread without application frames, when
    its object name is [???] (or missing) and it has no usable symbol.  A
    frame that carries a symbol other than [<redacted>] is never sent:
    it is listed with the symbol it carries, counts for nothing and
    leaves no location. *)
Theorem symbolicate_frame_spawns :
  forall (w : World) (binary_path : string) (load_addr : Z) (arch : string)
         (verbose : bool) (binary_images : list Image.t)
         (thread_label : ThreadLabel) (app_frames i : nat) (frame : Frame.t),
    let step :=
      symbolicate_frame w binary_path load_addr arch verbose binary_images
                        thread_label app_frames i frame in
    let obj_name := get (Frame.object_name frame) "???" in
    let addr := get (Frame.instruction_addr frame) 0 in
    spawns (printed step)
    = (if (if Nat.ltb 0 app_frames then PyStr.contains app_name obj_name
           else String.eqb obj_name "???")
          && no_usable_symbol (Frame.symbol_name frame)
       then [atos_cmd arch binary_path load_addr addr] else [])
    /\ (forall s : string,
           Frame.symbol_name frame = Some s ->
           s <> EmptyString -> s <> "<redacted>" ->
           spawns (printed step) = []
           /\ counted step = false /\ location step = None
           /\ In (Print (FrameSymbol i obj_name addr s)) (printed step)).
Proof.
  intros w binary_path load_addr arch verbose binary_images thread_label
         app_frames i frame step obj_name addr.
  split.
  - unfold step. rewrite symbolicate_frame_lookup. fold obj_name addr.
    unfold should_symbolicate. now destruct (Nat.ltb 0 app_frames).
  - intros s Hs Hne Hred.
    assert (Hno : should_symbolicate app_frames obj_name
                                     (Frame.symbol_name frame) = false).
    { unfold should_symbolicate, no_usable_symbol. rewrite Hs.
      rewrite (truthy_opt_some _ Hne). cbn [negb orb get].
      apply String.eqb_neq in Hred. rewrite Hred.
      destruct (Nat.ltb 0 app_frames); apply andb_false_r. }
    split; [unfold step; rewrite symbolicate_frame_lookup; fold obj_name;
            now rewrite Hno|].
    unfold step, symbolicate_frame. fold obj_name addr. rewrite Hno.
    cbn [counted location printed]. repeat split.
    apply in_or_app. right. left.
    rewrite Hs, (truthy_opt_some _ Hne). reflexivity.
Qed.

Lemma symbolicate_frame_spawns_witness :
  let step :=
    symbolicate_frame bare_world "/b" 4096 "arm64" false [] MainLabel 1 0
      {| Frame.object_name := Some "MatrixTestApp";
         Frame.symbol_name := Some "main";
         Frame.instruction_addr := Some 4100;
         Frame.extra := "" |} in
  spawns (printed step) = []
  /\ counted step = false /\ location step = None
  /\ In (Print (FrameSymbol 0 "MatrixTestApp" 4100 "main")) (printed step).
Proof.
  apply (proj2 (symbolicate_frame_spawns bare_world "/b" 4096 "arm64" false []
                  MainLabel 1 0
                  {| Frame.object_name := Some "MatrixTestApp";
                     Frame.symbol_name := Some "main";
                     Frame.instruction_addr := Some 4100;
                     Frame.extra := "" |}) "main");
    [reflexivity | discriminate | discriminate].
Defined.

(** X13.  The symbolizer runs of one shown thread are those of its
    eligible frames, in frame order, each against the binary, load
    address and architecture the walk was given; a thread without frames
    causes none.  Over the loop of the shown threads the runs follow one
    another in display order. *)
Theorem symbolicate_thread_lookups :
  forall (w : World) (binary_path : string) (load_addr : Z) (arch : string)
         (verbose : bool) (binary_images : list Image.t) (acc : Walk)
         (shown : list (ThreadLabel * Thread.t)) (label : ThreadLabel)
         (thread : Thread.t),
    spawns (output (symbolicate_thread w binary_path load_addr arch verbose
                      binary_images acc (label, thread)))
    = spawns (output acc) ++ lookups arch binary_path load_addr thread
    /\ spawns (output (fold_left
                         (symbolicate_thread w binary_path load_addr arch
                                             verbose binary_images) shown acc))
       = spawns (output acc)
           ++ flat_map (fun entry =>
                          lookups arch binary_path load_addr (snd entry)) shown
    /\ lookups arch binary_path load_addr
         {| Thread.index := Thread.index thread;
            Thread.name := Thread.name thread;
            Thread.crashed := Thread.crashed thread;
            Thread.backtrace := None;
            Thread.extra := Thread.extra thread |} = [].
Proof.
  intros. split; [apply symbolicate_thread_spawns|].
  split; [apply symbolicate_threads_spawns | reflexivity].
Qed.

(** ** The lines that list frames *)

Lemma frame_lines_app (a b : list Event) :
  frame_lines (a ++ b) = frame_lines a ++ frame_lines b.
Proof.
  induction a as [|e a IH]; [reflexivity|].
  cbn [app frame_lines]. rewrite IH. now destruct (frame_line e).
Qed.

Lemma count_lines_app (p : Event -> bool) (a b : list Event) :
  count_lines p (a ++ b) = (count_lines p a + count_lines p b)%nat.
Proof. unfold count_lines. now rewrite filter_app, length_app. Qed.

Lemma frame_lines_quiet (l : list Event) :
  forallb lists_no_frame l = true -> frame_lines l = [].
Proof.
  induction l as [|e l IH]; [reflexivity|].
  cbn [forallb frame_lines]. intros H. apply andb_true_iff in H as [He H].
  unfold lists_no_frame in He. destruct (frame_line e); [discriminate|].
  now apply IH.
Qed.

Lemma count_lines_quiet (p : Event -> bool) (l : list Event) :
  (forall e, p e = true -> lists_no_frame e = false) ->
  forallb lists_no_frame l = true -> count_lines p l = 0%nat.
Proof.
  intros Hp. induction l as [|e l IH]; [reflexivity|].
  cbn [forallb]. intros H. apply andb_true_iff in H as [He H].
  unfold count_lines in *. cbn [List.filter].
  destruct (p e) eqn:Hpe; [|now apply IH].
  rewrite (Hp e Hpe) in He. discriminate.
Qed.

Lemma resolved_lists_frame (e : Event) :
  resolved_line_of e = true -> lists_no_frame e = false.
Proof. destruct e as [m| | | | | |]; try discriminate. now destruct m. Qed.

Lemma marked_lists_frame (e : Event) :
  marked_line_of e = true -> lists_no_frame e = false.
Proof.
  destruct e as [m| | | | | |]; try discriminate.
  destruct m; try discriminate. reflexivity.
Qed.

Lemma quiet_say (texts : list string) :
  forallb lists_no_frame (say texts) = true.
Proof. induction texts; [reflexivity | exact IHtexts]. Qed.

Ltac quiet_events :=
  repeat match goal with
         | H : ?g |- ?g => exact H
         | |- true = true => reflexivity
         | |- forallb lists_no_frame [] = true => reflexivity
         | |- forallb lists_no_frame (say _) = true => apply quiet_say
         | |- forallb lists_no_frame (_ ++ _) = true =>
             rewrite forallb_app; apply andb_true_intro; split
         | |- forallb lists_no_frame (Print _ :: _) = true =>
             cbn [forallb lists_no_frame frame_line andb]
         | |- forallb lists_no_frame (PrintOriginal _ :: _) = true =>
             cbn [forallb lists_no_frame frame_line andb]
         | |- forallb lists_no_frame (Spawn _ :: _) = true =>
             cbn [forallb lists_no_frame frame_line andb]
         | |- forallb lists_no_frame (OpenOutput _ :: _) = true =>
             cbn [forallb lists_no_frame frame_line andb]
         | |- forallb lists_no_frame (RedirectStdout :: _) = true =>
             cbn [forallb lists_no_frame frame_line andb]
         | |- forallb lists_no_frame (RestoreStdout :: _) = true =>
             cbn [forallb lists_no_frame frame_line andb]
         | |- forallb lists_no_frame (CloseOutput :: _) = true =>
             cbn [forallb lists_no_frame frame_line andb]
         | |- forallb lists_no_frame (if ?c then _ else _) = true => destruct c
         | |- forallb lists_no_frame (match ?c with _ => _ end) = true =>
             destruct c
         end.

Lemma match_candidates_quiet (w : World) (report_uuid : string)
  (candidates : list string) :
  forallb lists_no_frame (snd (match_candidates w report_uuid candidates)) = true.
Proof.
  induction candidates as [|c candidates IH]; cbn [match_candidates];
    [reflexivity|].
  assert (Hev := get_binary_uuid_events w c "arm64").
  destruct (get_binary_uuid w c "arm64") as [bu sp]. cbn in Hev. subst sp.
  destruct (truthy_opt bu && _); cbn [snd].
  - quiet_events.
  - destruct (match_candidates w report_uuid candidates) as [r later].
    cbn [snd] in *. quiet_events.
Qed.

Lemma find_app_binary_quiet (w : World) (data : Report.t) :
  forallb lists_no_frame (snd (find_app_binary w data)) = true.
Proof.
  unfold find_app_binary.
  assert (Hid : forallb lists_no_frame
                  (snd (declared_identity (Report.binary_images data))) = true).
  { unfold declared_identity. destruct (negb _); [|reflexivity].
    now destruct (Report.binary_images data). }
  destruct (declared_identity (Report.binary_images data)) as [id out1].
  cbn [snd] in Hid.
  destruct (negb (truthy_int (load_addr id))); cbn [snd]; [quiet_events|].
  destruct (truthy_opt (simulator_path id) && _); cbn [snd]; [quiet_events|].
  destruct (find_all_possible_binaries w) as [|latest rest]; cbn [snd];
    [quiet_events|].
  assert (Hm := match_candidates_quiet w (get (report_uuid id) "")
                  (latest :: rest)).
  destruct (truthy_opt (report_uuid id)).
  - destruct (match_candidates w _ (latest :: rest)) as [[c|] out5];
      cbn [snd] in *; quiet_events.
  - cbn [snd]. quiet_events.
Qed.

Lemma symbolicate_address_quiet (w : World) (binary_path : string)
  (load_addr target_addr : Z) (arch : string) (verbose : bool) :
  forallb lists_no_frame
    (snd (symbolicate_address w binary_path load_addr target_addr arch verbose))
  = true.
Proof.
  unfold symbolicate_address.
  destruct (run w _) as [rc out err|e].
  - destruct (rc =? 0); [destruct (_ && _)|]; cbn [snd]; quiet_events.
  - cbn [snd]. quiet_events.
Qed.

Lemma parse_symbol_output_quiet (symbol_str : string) (verbose : bool) :
  forallb lists_no_frame (snd (parse_symbol_output symbol_str verbose)) = true.
Proof.
  unfold parse_symbol_output.
  destruct (Re.search source_loc_re symbol_str); cbn [snd]; quiet_events.
Qed.

Lemma threads_to_show_quiet (threads : list Thread.t) :
  forallb lists_no_frame (snd (threads_to_show threads)) = true.
Proof.
  unfold threads_to_show.
  assert (Hmap : forall l : list Thread.t,
             forallb lists_no_frame
               (List.map (fun thread => Print (FoundAppThread thread)) l) = true)
    by (induction l as [|t l IH]; [reflexivity | exact IH]).
  destruct (main_thread _); destruct (crashed_thread _);
    try destruct (negb _); cbn [snd]; quiet_events; apply Hmap.
Qed.

Lemma show_modules_quiet (images : list Image.t) :
  forallb lists_no_frame (show_modules images) = true.
Proof.
  unfold show_modules.
  assert (Hmap : forall l : list Image.t,
             forallb lists_no_frame
               (List.map (fun img =>
                            Print (VModule
                                     (PyStr.basename (get (Image.name img) "???"))
                                     (get (Image.image_addr img) 0))) l) = true)
    by (induction l as [|t l IH]; [reflexivity | exact IH]).
  quiet_events; apply Hmap.
Qed.

Lemma show_locations_quiet (locs : list Loc.t) :
  forallb lists_no_frame (flat_map show_location locs) = true.
Proof.
  induction locs as [|loc locs IH]; cbn [flat_map]; [reflexivity|].
  rewrite forallb_app. apply andb_true_intro. split; [|exact IH].
  unfold show_location. quiet_events.
Qed.

Lemma summary_quiet (walk : Walk) : forallb lists_no_frame (summary walk) = true.
Proof.
  unfold summary.
  assert (H := show_locations_quiet (app_code_locations walk)).
  destruct (app_code_locations walk); quiet_events.
Qed.

Section FrameLines.

Variables (w : World) (binary_path : string) (load_addr : Z) (arch : string).
Variables (verbose : bool) (binary_images : list Image.t).

(** One turn of the frame loop prints, among lines that list no frame,
    one line that lists the frame; the line is that of a resolved frame
    when the counters went up, and is marked when a location was kept. *)
Lemma symbolicate_frame_line (thread_label : ThreadLabel)
  (app_frames i : nat) (frame : Frame.t) :
  let step :=
    symbolicate_frame w binary_path load_addr arch verbose binary_images
                      thread_label app_frames i frame in
  frame_lines (printed step) = [i]
  /\ count_lines resolved_line_of (printed step) = count_of (counted step)
  /\ count_lines marked_line_of (printed step)
     = List.length (match location step with Some l => [l] | None => [] end).
Proof.
  cbn zeta. unfold symbolicate_frame.
  assert (Hout0 : forallb lists_no_frame
                    (if verbose && Nat.ltb i 3
                     then [Print (VFrame i (get (Frame.object_name frame) "???")
                                         (Frame.symbol_name frame)
                                         (get (Frame.instruction_addr frame) 0))]
                     else []) = true)
    by (destruct (verbose && Nat.ltb i 3); reflexivity).
  set (out0 := if verbose && Nat.ltb i 3 then _ else _) in *.
  assert (Hr0 := count_lines_quiet _ _ resolved_lists_frame Hout0).
  assert (Hm0 := count_lines_quiet _ _ marked_lists_frame Hout0).
  apply frame_lines_quiet in Hout0.
  destruct (should_symbolicate _ _ _).
  - assert (Ha := symbolicate_address_quiet w binary_path load_addr
                    (get (Frame.instruction_addr frame) 0) arch
                    (verbose && Nat.ltb i 3)).
    destruct (symbolicate_address _ _ _ _ _ _) as [sym out1]. cbn [snd] in Ha.
    assert (Hr1 := count_lines_quiet _ _ resolved_lists_frame Ha).
    assert (Hm1 := count_lines_quiet _ _ marked_lists_frame Ha).
    apply frame_lines_quiet in Ha.
    destruct (truthy_opt sym).
    + assert (Hp := parse_symbol_output_quiet (get sym "")
                      (verbose && Nat.ltb i 3)).
      destruct (parse_symbol_output _ _) as [[f l] out2]. cbn [snd] in Hp.
      assert (Hr2 := count_lines_quiet _ _ resolved_lists_frame Hp).
      assert (Hm2 := count_lines_quiet _ _ marked_lists_frame Hp).
      apply frame_lines_quiet in Hp.
      cbn [printed counted location].
      set (out3 := if truthy_opt f then _ else _).
      assert (Hout3 : forallb lists_no_frame out3 = true)
        by (unfold out3; destruct (truthy_opt f);
            destruct (verbose && Nat.ltb i 3); reflexivity).
      assert (Hr3 := count_lines_quiet _ _ resolved_lists_frame Hout3).
      assert (Hm3 := count_lines_quiet _ _ marked_lists_frame Hout3).
      apply frame_lines_quiet in Hout3.
      rewrite !frame_lines_app, !count_lines_app.
      rewrite Hout0, Ha, Hp, Hout3, Hr0, Hr1, Hr2, Hr3, Hm0, Hm1, Hm2, Hm3.
      repeat split. destruct (is_app_code f); reflexivity.
    + cbn [printed counted location].
      rewrite !frame_lines_app, !count_lines_app.
      rewrite Hout0, Ha, Hr0, Hr1, Hm0, Hm1.
      repeat match goal with
             | |- context [Print (if ?c then _ else _)] => destruct c
             end; repeat split.
  - cbn [printed counted location].
    rewrite !frame_lines_app, !count_lines_app.
    rewrite Hout0, Hr0, Hm0.
    repeat match goal with
           | |- context [Print (if ?c then _ else _)] => destruct c
           end; repeat split.
Qed.

Lemma symbolicate_frames_lines (thread_label : ThreadLabel)
  (app_frames : nat) (frames : list Frame.t) :
  forall (i : nat) (acc : Walk),
    let scanned :=
      symbolicate_frames w binary_path load_addr arch verbose binary_images
                         thread_label app_frames i frames acc in
    frame_lines (output scanned)
    = frame_lines (output acc) ++ seq i (List.length frames)
    /\ (count_lines resolved_line_of (output scanned) + total_symbolicated acc
        = count_lines resolved_line_of (output acc)
          + total_symbolicated scanned)%nat
    /\ (count_lines marked_line_of (output scanned)
        + List.length (app_code_locations acc)
        = count_lines marked_line_of (output acc)
          + List.length (app_code_locations scanned))%nat.
Proof.
  induction frames as [|frame frames IH]; intros i acc;
    cbn [symbolicate_frames List.length seq].
  - cbn zeta. rewrite app_nil_r. repeat split.
  - cbn zeta.
    destruct (symbolicate_frame_line thread_label app_frames i frame)
      as (Hl & Hr & Hm).
    match goal with
    | |- context [symbolicate_frames _ _ _ _ _ _ _ _ _ _ ?a] =>
        destruct (IH (S i) a) as (IHl & IHr & IHm)
    end.
    cbn [output total_symbolicated app_code_locations] in IHl, IHr, IHm.
    rewrite frame_lines_app, count_lines_app, ?length_app in *.
    rewrite Hl in IHl. rewrite Hr in IHr. rewrite Hm in IHm.
    split; [|split].
    + rewrite IHl, <- app_assoc. reflexivity.
    + lia.
    + lia.
Qed.

Lemma symbolicate_thread_lines (acc : Walk) (entry : ThreadLabel * Thread.t) :
  let walk :=
    symbolicate_thread w binary_path load_addr arch verbose binary_images
                       acc entry in
  frame_lines (output walk)
  = frame_lines (output acc) ++ seq 0 (List.length (frames_of (snd entry)))
  /\ (count_lines resolved_line_of (output walk) + total_symbolicated acc
      = count_lines resolved_line_of (output acc) + total_symbolicated walk)%nat
  /\ (count_lines marked_line_of (output walk)
      + List.length (app_code_locations acc)
      = count_lines marked_line_of (output acc)
        + List.length (app_code_locations walk))%nat.
Proof.
  destruct entry as [label thread]. cbn zeta. cbn [snd].
  unfold symbolicate_thread.
  assert (Hq : forall l, forallb lists_no_frame l = true ->
                         frame_lines l = []
                         /\ count_lines resolved_line_of l = 0%nat
                         /\ count_lines marked_line_of l = 0%nat).
  { intros l Hl. split; [now apply frame_lines_quiet|].
    split; apply count_lines_quiet; auto using resolved_lists_frame,
                                      marked_lists_frame. }
  destruct (frames_of thread) as [|frame frames] eqn:Hframes.
  - cbn [output total_symbolicated app_code_locations List.length seq].
    match goal with
    | |- context [(output acc ++ ?a) ++ ?b] =>
        destruct (Hq (a ++ b)) as (Hl & Hr & Hm); [quiet_events|];
        rewrite <- (app_assoc (output acc) a b);
        set (head := a ++ b) in *
    end.
    rewrite frame_lines_app, !count_lines_app, Hl, Hr, Hm.
    repeat split; lia.
  - cbn [output total_symbolicated app_code_locations].
    match goal with
    | |- context [symbolicate_frames _ _ _ _ _ _ _ ?n ?i ?fs ?a] =>
        destruct (symbolicate_frames_lines label n fs i a) as (Hl & Hr & Hm);
        set (scanned := symbolicate_frames _ _ _ _ _ _ _ n i fs a) in *
    end.
    cbn [output total_symbolicated app_code_locations] in Hl, Hr, Hm.
    match goal with
    | |- context [output scanned ++ ?t] =>
        destruct (Hq t) as (Htl & Htr & Htm); [quiet_events|];
        set (tail := t) in *
    end.
    match type of Hl with
    | context [(output acc ++ ?a) ++ ?b] =>
        destruct (Hq (a ++ b)) as (Hhl & Hhr & Hhm); [quiet_events|];
        rewrite <- (app_assoc (output acc) a b) in Hl, Hr, Hm;
        set (head := a ++ b) in *
    end.
    rewrite frame_lines_app, !count_lines_app.
    rewrite frame_lines_app in Hl. rewrite !count_lines_app in Hr, Hm.
    rewrite Htl, Htr, Htm. rewrite Hhl in Hl. rewrite Hhr in Hr. rewrite Hhm in Hm.
    rewrite !app_nil_r in *.
    split; [exact Hl|]. split; lia.
Qed.

Lemma symbolicate_threads_lines (shown : list (ThreadLabel * Thread.t)) :
  forall acc : Walk,
    let walk :=
      fold_left (symbolicate_thread w binary_path load_addr arch verbose
                                    binary_images) shown acc in
    frame_lines (output walk)
    = frame_lines (output acc)
        ++ flat_map (fun entry => seq 0 (List.length (frames_of (snd entry))))
                    shown
    /\ (count_lines resolved_line_of (output walk) + total_symbolicated acc
        = count_lines resolved_line_of (output acc)
          + total_symbolicated walk)%nat
    /\ (count_lines marked_line_of (output walk)
        + List.length (app_code_locations acc)
        = count_lines marked_line_of (output acc)
          + List.length (app_code_locations walk))%nat.
Proof.
  induction shown as [|entry shown IH]; intros acc; cbn [fold_left flat_map].
  - cbn zeta. rewrite app_nil_r. repeat split.
  - cbn zeta. destruct (symbolicate_thread_lines acc entry) as (Hl & Hr & Hm).
    destruct (IH (symbolicate_thread w binary_path load_addr arch verbose
                    binary_images acc entry)) as (IHl & IHr & IHm).
    split; [|split].
    + rewrite IHl, Hl, <- app_assoc. reflexivity.
    + lia.
    + lia.
Qed.

End FrameLines.

(** ** A run that reaches the end of the body *)

Section WholeRun.

Variables (w : World) (report_path : string) (verbose : bool).

Lemma walk_report_end (events : list Event) :
  walk_report w report_path verbose = (ReturnEnd, events) ->
  exists data binary_path load_addr header,
    load_json w report_path = Some data
    /\ fst (find_app_binary w data) = (Some binary_path, Some load_addr)
    /\ binary_path <> EmptyString /\ load_addr <> 0
    /\ path_exists w binary_path = true
    /\ spawns header = spawns (snd (find_app_binary w data))
    /\ forallb lists_no_frame header = true
    /\ events = output (walk_from w verbose data binary_path load_addr header)
                  ++ summary (walk_from w verbose data binary_path load_addr header).
Proof.
  unfold walk_report.
  destruct (load_json w report_path) as [data|]; [|discriminate].
  assert (Hq := find_app_binary_quiet w data).
  destruct (find_app_binary w data) as [[bp la] out2] eqn:Hfind.
  cbn [snd] in Hq.
  destruct (negb (truthy_opt bp) || negb (truthy_int la)) eqn:Hcond;
    [discriminate|].
  apply orb_false_iff in Hcond as [Hbp Hla]. apply negb_false_iff in Hbp, Hla.
  destruct bp as [bp|]; [|discriminate].
  apply truthy_int_true in Hla as (z & -> & Hz). cbn [get].
  destruct (path_exists w bp) eqn:Hex; cbn [negb]; [|discriminate].
  destruct (Report.threads data) as [|t threads] eqn:Hthreads; [discriminate|].
  destruct (existsb main_test_raises (t :: threads)); [discriminate|].
  assert (Hsq := threads_to_show_quiet (t :: threads)).
  assert (Hss := threads_to_show_spawns (t :: threads)).
  destruct (threads_to_show (t :: threads)) as [[|entry shown] out6] eqn:Hshow;
    [discriminate|].
  cbn [fst snd] in *. intros H. apply (f_equal snd) in H. cbn [snd] in H.
  assert (Hmq : forallb lists_no_frame
                  (if verbose then show_modules (Report.binary_images data)
                   else []) = true)
    by (destruct verbose; [apply show_modules_quiet | reflexivity]).
  assert (Hms : spawns (if verbose then show_modules (Report.binary_images data)
                        else []) = [])
    by (destruct verbose; [apply show_modules_spawns | reflexivity]).
  match type of H with
  | context [fold_left _ _ {| output := ?h; total_symbolicated := _;
                              app_code_locations := _ |}] =>
      exists data, bp, z, h
  end.
  unfold walk_from. rewrite Hthreads, Hshow, Hfind.
  cbn [fst snd]. split; [reflexivity|]. split; [reflexivity|].
  split; [intros ->; discriminate|]. split; [exact Hz|].
  split; [exact Hex|]. split; [|split]; [| |symmetry; exact H].
  - rewrite !spawns_app, !spawns_say, Hms, Hss. cbn [spawns app].
    now rewrite !app_nil_r.
  - quiet_events.
Qed.

Lemma show_locations_spawns (locs : list Loc.t) :
  spawns (flat_map show_location locs) = [].
Proof.
  induction locs as [|loc locs IH]; cbn [flat_map]; [reflexivity|].
  rewrite spawns_app, IH. unfold show_location.
  now destruct (truthy_opt (Loc.file loc) && truthy_opt (Loc.line loc)).
Qed.

Lemma summary_spawns (walk : Walk) : spawns (summary walk) = [].
Proof.
  unfold summary. rewrite !spawns_app, !spawns_say. cbn [spawns app].
  assert (H := show_locations_spawns (app_code_locations walk)).
  destruct (Nat.ltb 0 (total_symbolicated walk));
    destruct (Nat.eqb (total_symbolicated walk) 0);
    destruct (app_code_locations walk);
    rewrite ?spawns_app, ?spawns_say, ?H; reflexivity.
Qed.

Lemma symbolicate_report_end (output_file : option string) :
  fst (symbolicate_report w report_path output_file verbose) = ReturnEnd ->
  exists before body after,
    snd (symbolicate_report w report_path output_file verbose)
    = before ++ body ++ after
    /\ walk_report w report_path verbose = (ReturnEnd, body)
    /\ forallb lists_no_frame before = true
    /\ forallb lists_no_frame after = true
    /\ spawns before = [] /\ spawns after = [].
Proof.
  unfold symbolicate_report.
  destruct (negb (path_exists w report_path)); [discriminate|].
  destruct (truthy_opt output_file).
  - destruct (open_w w (get output_file "")); [|discriminate].
    destruct (walk_report w report_path verbose) as [ret out2].
    destruct ret; try discriminate. cbn [fst snd]. intros _.
    eexists _, out2, _. split; [reflexivity|]. repeat split.
  - destruct (walk_report w report_path verbose) as [ret out2].
    cbn [fst snd]. intros ->. exists [], out2, []. rewrite app_nil_r.
    repeat split.
Qed.

End WholeRun.

(** X14.  In a run that reaches the end of the body the processes run
    are, in this order: the runs of the identity tool that the search
    for the binary made, and then, shown thread after shown thread, one
    run of the symbolizer for each eligible frame, in frame order.  Each
    of these is run with the architecture of the report, the path and the
    load address that the search returned, and the instruction address of
    a frame of a thread of the report. *)
Theorem symbolicate_report_processes :
  forall (w : World) (report_path : string) (output_file : option string)
         (verbose : bool),
    fst (symbolicate_report w report_path output_file verbose) = ReturnEnd ->
    exists data binary_path load_addr,
      load_json w report_path = Some data
      /\ fst (find_app_binary w data) = (Some binary_path, Some load_addr)
      /\ spawned (run_events
                    (snd (symbolicate_report w report_path output_file verbose)))
         = spawns (snd (find_app_binary w data))
             ++ flat_map (fun entry =>
                            lookups (get_cpu_arch data) binary_path load_addr
                                    (snd entry))
                         (fst (threads_to_show (Report.threads data)))
      /\ Forall is_dwarfdump (spawns (snd (find_app_binary w data)))
      /\ Forall (is_lookup (get_cpu_arch data) binary_path load_addr
                           (Report.threads data))
                (flat_map (fun entry =>
                             lookups (get_cpu_arch data) binary_path load_addr
                                     (snd entry))
                          (fst (threads_to_show (Report.threads data)))).
Proof.
  intros w report_path output_file verbose Hend.
  destruct (symbolicate_report_end w report_path verbose output_file Hend)
    as (before & body & after & -> & Hbody & _ & _ & Hsb & Hsa).
  destruct (walk_report_end w report_path verbose body Hbody)
    as (data & bp & la & header & Hload & Hfind & _ & _ & _ & Hsh & _ & ->).
  exists data, bp, la. split; [exact Hload|]. split; [exact Hfind|].
  split; [|split].
  - rewrite spawned_run_events, !spawns_app, Hsb, Hsa, app_nil_r.
    cbn [app].
    unfold walk_from.
    rewrite summary_spawns, app_nil_r, symbolicate_threads_spawns.
    cbn [output]. now rewrite Hsh.
  - apply find_app_binary_dwarfdump.
  - apply Forall_forall. intros cmd Hcmd.
    apply in_flat_map in Hcmd as ([label thread] & Hin & Hcmd). cbn [snd] in Hcmd.
    rewrite threads_to_show_policy in Hin.
    apply selection_policy_shown_as in Hin as [Hin _].
    assert (H := lookups_are_lookups bp la (get_cpu_arch data)
                   (Report.threads data) thread Hin).
    rewrite Forall_forall in H. now apply H.
Qed.

Lemma symbolicate_report_processes_witness :
  exists data binary_path load_addr,
    load_json resolving_world "report.json" = Some data
    /\ fst (find_app_binary resolving_world data)
       = (Some binary_path, Some load_addr)
    /\ spawned (run_events
                  (snd (symbolicate_report resolving_world "report.json"
                                           (Some "out.txt") true)))
       = spawns (snd (find_app_binary resolving_world data))
           ++ flat_map (fun entry =>
                          lookups (get_cpu_arch data) binary_path load_addr
                                  (snd entry))
                       (fst (threads_to_show (Report.threads data)))
    /\ Forall is_dwarfdump (spawns (snd (find_app_binary resolving_world data)))
    /\ Forall (is_lookup (get_cpu_arch data) binary_path load_addr
                         (Report.threads data))
              (flat_map (fun entry =>
                           lookups (get_cpu_arch data) binary_path load_addr
                                   (snd entry))
                        (fst (threads_to_show (Report.threads data)))).
Proof.
  apply (symbolicate_report_processes resolving_world "report.json"
           (Some "out.txt") true).
  reflexivity.
Defined.

(** X15.  A run that reaches the end of the body lists every frame of
    every shown thread once, whether or not the frame was sent to the
    symbolizer and whatever the symbolizer answered: the frame lines of
    the run are, shown thread after shown thread, the indices 0, 1, 2,
    ... of the thread's frames. *)
Theorem symbolicate_report_lists_every_frame :
  forall (w : World) (report_path : string) (output_file : option string)
         (verbose : bool),
    fst (symbolicate_report w report_path output_file verbose) = ReturnEnd ->
    exists data,
      load_json w report_path = Some data
      /\ frame_lines (snd (symbolicate_report w report_path output_file verbose))
         = flat_map (fun entry =>
                       seq 0 (List.length (frames_of (snd entry))))
                    (fst (threads_to_show (Report.threads data))).
Proof.
  intros w report_path output_file verbose Hend.
  destruct (symbolicate_report_end w report_path verbose output_file Hend)
    as (before & body & after & -> & Hbody & Hqb & Hqa & _ & _).
  destruct (walk_report_end w report_path verbose body Hbody)
    as (data & bp & la & header & Hload & _ & _ & _ & _ & _ & Hqh & ->).
  exists data. split; [exact Hload|].
  rewrite !frame_lines_app.
  rewrite (frame_lines_quiet _ Hqb), (frame_lines_quiet _ Hqa).
  rewrite (frame_lines_quiet _ (summary_quiet _)), !app_nil_r. cbn [app].
  unfold walk_from.
  destruct (symbolicate_threads_lines w bp la (get_cpu_arch data) verbose
              (Report.binary_images data)
              (fst (threads_to_show (Report.threads data)))
              {| output := header; total_symbolicated := 0;
                 app_code_locations := [] |}) as (Hl & _ & _).
  rewrite Hl. cbn [output]. now rewrite (frame_lines_quiet _ Hqh).
Qed.

Lemma symbolicate_report_lists_every_frame_witness :
  exists data,
    load_json resolving_world "report.json" = Some data
    /\ frame_lines (snd (symbolicate_report resolving_world "report.json"
                                            None false))
       = flat_map (fun entry =>
                     seq 0 (List.length (frames_of (snd entry))))
                  (fst (threads_to_show (Report.threads data))).
Proof.
  apply (symbolicate_report_lists_every_frame resolving_world "report.json"
           None false).
  reflexivity.
Defined.

(** X16.  In a run that reaches the end of the body, the total that the
    closing summary prints is the number of resolved frames the run
    listed, and the closing list of application code locations has one
    entry for each listed frame that carries the application-code
    marker. *)
Theorem symbolicate_report_totals :
  forall (w : World) (report_path : string) (output_file : option string)
         (verbose : bool),
    fst (symbolicate_report w report_path output_file verbose) = ReturnEnd ->
    let events := snd (symbolicate_report w report_path output_file verbose) in
    exists before walk after,
      events = before ++ summary walk ++ after
      /\ total_symbolicated walk = count_lines resolved_line_of events
      /\ List.length (app_code_locations walk)
         = count_lines marked_line_of events
      /\ In (Print (Total (count_lines resolved_line_of events))) events.
Proof.
  intros w report_path output_file verbose Hend events. unfold events.
  destruct (symbolicate_report_end w report_path verbose output_file Hend)
    as (before & body & after & -> & Hbody & Hqb & Hqa & _ & _).
  destruct (walk_report_end w report_path verbose body Hbody)
    as (data & bp & la & header & _ & _ & _ & _ & _ & _ & Hqh & ->).
  set (walk := walk_from w verbose data bp la header).
  destruct (symbolicate_threads_lines w bp la (get_cpu_arch data) verbose
              (Report.binary_images data)
              (fst (threads_to_show (Report.threads data)))
              {| output := header; total_symbolicated := 0;
                 app_code_locations := [] |}) as (_ & Hr & Hm).
  fold (walk_from w verbose data bp la header) in Hr, Hm. fold walk in Hr, Hm.
  cbn [output total_symbolicated app_code_locations List.length] in Hr, Hm.
  rewrite (count_lines_quiet _ _ resolved_lists_frame Hqh) in Hr.
  rewrite (count_lines_quiet _ _ marked_lists_frame Hqh) in Hm.
  assert (Hcount : forall p,
             (forall e, p e = true -> lists_no_frame e = false) ->
             count_lines p (before ++ (output walk ++ summary walk) ++ after)
             = count_lines p (output walk)).
  { intros p Hp. rewrite !count_lines_app.
    rewrite (count_lines_quiet p _ Hp Hqb), (count_lines_quiet p _ Hp Hqa).
    rewrite (count_lines_quiet p _ Hp (summary_quiet walk)). lia. }
  rewrite (Hcount _ resolved_lists_frame), (Hcount _ marked_lists_frame).
  exists (before ++ output walk), walk, after.
  split; [now rewrite <- !app_assoc|]. split; [lia|]. split; [lia|].
  apply in_or_app. right. apply in_or_app. left. apply in_or_app. right.
  unfold summary. apply in_or_app. right. apply in_or_app. left.
  left. f_equal. f_equal. lia.
Qed.

Lemma symbolicate_report_totals_witness :
  let events :=
    snd (symbolicate_report resolving_world "report.json" None false) in
  exists before walk after,
    events = before ++ summary walk ++ after
    /\ total_symbolicated walk = count_lines resolved_line_of events
    /\ List.length (app_code_locations walk)
       = count_lines marked_line_of events
    /\ In (Print (Total (count_lines resolved_line_of events))) events.
Proof.
  apply (symbolicate_report_totals resolving_world "report.json" None false).
  reflexivity.
Defined.

Example ex_totals :
  count_lines resolved_line_of
    (snd (symbolicate_report resolving_world "report.json" None false)) = 1%nat
  /\ frame_lines
       (snd (symbolicate_report resolving_world "report.json" None false))
     = [0%nat; 1%nat].
Proof. vm_compute. split; reflexivity. Qed.

(** ** Verbose runs *)

Lemma added_refl (l : list Event) : with_added_lines l l.
Proof. induction l; constructor; assumption. Qed.

Lemma added_app (a a' b b' : list Event) :
  with_added_lines a a' -> with_added_lines b b' ->
  with_added_lines (a ++ b) (a' ++ b').
Proof.
  intros Ha Hb. induction Ha; cbn [app]; try (constructor; assumption).
  exact Hb.
Qed.

Lemma added_say (texts : list string) : with_added_lines [] (say texts).
Proof. induction texts; constructor; assumption. Qed.

Lemma added_spawns (l l' : list Event) :
  with_added_lines l l' -> spawns l = spawns l'.
Proof.
  induction 1 as [|m l l' _ IH|e l l' _ IH]; cbn [spawns]; try assumption.
  - reflexivity.
  - destruct e; cbn [spawns]; now rewrite IH.
Qed.

Lemma added_show_modules (images : list Image.t) :
  with_added_lines [] (show_modules images).
Proof.
  unfold show_modules.
  assert (Hmap : forall l : list Image.t,
             with_added_lines []
               (List.map (fun img =>
                            Print (VModule
                                     (PyStr.basename (get (Image.name img) "???"))
                                     (get (Image.image_addr img) 0))) l))
    by (induction l; constructor; assumption).
  apply (added_app [] _ [] _); [apply added_say|].
  apply (added_app [] _ [] _); [apply Hmap|].
  apply (added_app [] _ [] _); [|apply added_say].
  destruct (Nat.ltb 10 _); repeat constructor.
Qed.

Ltac added_lines :=
  repeat first [ assumption
               | apply added_refl
               | apply added_say
               | apply added_app
               | progress cbv iota
               | match goal with
                 | |- with_added_lines [] (if ?c then _ else _) => destruct c
                 | |- with_added_lines [] (_ ++ _) =>
                     apply (added_app [] _ [] _)
                 end
               | apply added_line
               | apply added_nil ].

Section Verbose.

Variables (w : World) (binary_path : string) (load_addr : Z) (arch : string).
Variable binary_images : list Image.t.

Lemma symbolicate_address_trace (target_addr : Z) (trace : bool) :
  fst (symbolicate_address w binary_path load_addr target_addr arch trace)
  = fst (symbolicate_address w binary_path load_addr target_addr arch false)
  /\ with_added_lines
       (snd (symbolicate_address w binary_path load_addr target_addr arch false))
       (snd (symbolicate_address w binary_path load_addr target_addr arch trace)).
Proof.
  destruct trace; [|split; [reflexivity | apply added_refl]].
  unfold symbolicate_address.
  destruct (run w _) as [rc out err|e].
  - destruct (rc =? 0); [destruct (_ && _)|]; cbn [fst snd];
      (split; [reflexivity | added_lines]).
  - cbn [fst snd]. split; [reflexivity | added_lines].
Qed.

Lemma parse_symbol_output_trace (symbol_str : string) (trace : bool) :
  fst (parse_symbol_output symbol_str trace)
  = fst (parse_symbol_output symbol_str false)
  /\ with_added_lines (snd (parse_symbol_output symbol_str false))
                      (snd (parse_symbol_output symbol_str trace)).
Proof.
  destruct trace; [|split; [reflexivity | apply added_refl]].
  unfold parse_symbol_output.
  destruct (Re.search source_loc_re symbol_str); cbn [fst snd];
    (split; [reflexivity | added_lines]).
Qed.

Lemma symbolicate_frame_trace (verbose : bool) (thread_label : ThreadLabel)
  (app_frames i : nat) (frame : Frame.t) :
  let quiet :=
    symbolicate_frame w binary_path load_addr arch false binary_images
                      thread_label app_frames i frame in
  let step :=
    symbolicate_frame w binary_path load_addr arch verbose binary_images
                      thread_label app_frames i frame in
  counted step = counted quiet /\ location step = location quiet
  /\ with_added_lines (printed quiet) (printed step).
Proof.
  cbn zeta. unfold symbolicate_frame. cbn [andb].
  generalize (verbose && Nat.ltb i 3). intros trace.
  destruct (should_symbolicate _ _ _).
  - destruct (symbolicate_address_trace
                (get (Frame.instruction_addr frame) 0) trace) as [Hfst Hsnd].
    destruct (symbolicate_address w binary_path load_addr
                (get (Frame.instruction_addr frame) 0) arch trace)
      as [sym' out1'].
    destruct (symbolicate_address w binary_path load_addr
                (get (Frame.instruction_addr frame) 0) arch false)
      as [sym out1].
    cbn [fst snd] in Hfst, Hsnd. subst sym'.
    destruct (truthy_opt sym).
    + destruct (parse_symbol_output_trace (get sym "") trace) as [Hpf Hps].
      destruct (parse_symbol_output (get sym "") trace) as [[f' l'] out2'].
      destruct (parse_symbol_output (get sym "") false) as [[f l] out2].
      cbn [fst snd] in Hpf, Hps. injection Hpf as -> ->.
      cbn [printed counted location].
      split; [reflexivity|]. split; [reflexivity|].
      destruct trace; destruct (truthy_opt f); added_lines.
    + cbn [printed counted location].
      split; [reflexivity|]. split; [reflexivity|].
      destruct trace; added_lines.
  - cbn [printed counted location].
    split; [reflexivity|]. split; [reflexivity|].
    destruct trace; added_lines.
Qed.

Lemma symbolicate_frames_trace (verbose : bool) (thread_label : ThreadLabel)
  (app_frames : nat) (frames : list Frame.t) :
  forall (i : nat) (quiet walk : Walk),
    traced quiet walk ->
    traced (symbolicate_frames w binary_path load_addr arch false binary_images
              thread_label app_frames i frames quiet)
           (symbolicate_frames w binary_path load_addr arch verbose
              binary_images thread_label app_frames i frames walk).
Proof.
  induction frames as [|frame frames IH]; intros i quiet walk Hacc;
    cbn [symbolicate_frames]; [exact Hacc|].
  apply IH. destruct Hacc as (Ho & Ht & Hl).
  destruct (symbolicate_frame_trace verbose thread_label app_frames i frame)
    as (Hc & Hloc & Hp).
  unfold traced. cbn [output total_symbolicated app_code_locations].
  rewrite Ht, Hl, Hc, Hloc. split; [|split; reflexivity].
  now apply added_app.
Qed.

Lemma symbolicate_thread_trace (verbose : bool) (quiet walk : Walk)
  (entry : ThreadLabel * Thread.t) :
  traced quiet walk ->
  traced (symbolicate_thread w binary_path load_addr arch false binary_images
            quiet entry)
         (symbolicate_thread w binary_path load_addr arch verbose binary_images
            walk entry).
Proof.
  intros (Ho & Ht & Hl). destruct entry as [label thread].
  unfold symbolicate_thread.
  destruct (frames_of thread) as [|frame frames].
  - unfold traced. cbn [output total_symbolicated app_code_locations].
    split; [|split; assumption]. added_lines.
  - match goal with
    | |- traced
           {| output := output (symbolicate_frames _ _ _ _ _ _ ?lb ?n ?i ?fs ?q) ++ _;
              total_symbolicated := _; app_code_locations := _ |}
           {| output := output (symbolicate_frames _ _ _ _ _ _ _ _ _ _ ?a) ++ _;
              total_symbolicated := _; app_code_locations := _ |} =>
        destruct (symbolicate_frames_trace verbose lb n fs i q a)
          as (Hso & Hst & Hsl)
    end.
    { unfold traced. cbn [output total_symbolicated app_code_locations].
      split; [|split; [reflexivity | assumption]]. added_lines. }
    unfold traced. cbn [output total_symbolicated app_code_locations].
    rewrite Hst, Ht. split; [|split; [reflexivity | assumption]].
    apply added_app; [assumption | apply added_refl].
Qed.

Lemma symbolicate_threads_trace (verbose : bool)
  (shown : list (ThreadLabel * Thread.t)) :
  forall quiet walk : Walk,
    traced quiet walk ->
    traced (fold_left (symbolicate_thread w binary_path load_addr arch false
                         binary_images) shown quiet)
           (fold_left (symbolicate_thread w binary_path load_addr arch verbose
                         binary_images) shown walk).
Proof.
  induction shown as [|entry shown IH]; intros quiet walk Hacc;
    cbn [fold_left]; [exact Hacc|].
  apply IH. now apply symbolicate_thread_trace.
Qed.

End Verbose.

Lemma walk_report_trace (w : World) (report_path : string) (verbose : bool) :
  fst (walk_report w report_path verbose) = fst (walk_report w report_path false)
  /\ with_added_lines (snd (walk_report w report_path false))
                      (snd (walk_report w report_path verbose)).
Proof.
  destruct verbose; [|split; [reflexivity | apply added_refl]].
  unfold walk_report.
  destruct (load_json w report_path) as [data|];
    [|split; [reflexivity | apply added_refl]].
  destruct (find_app_binary w data) as [[bp la] out2].
  destruct (negb (truthy_opt bp) || negb (truthy_int la));
    [split; [reflexivity | apply added_refl]|].
  assert (Hmod := added_show_modules (Report.binary_images data)).
  destruct (negb (path_exists w (get bp ""))); cbn [fst snd].
  { split; [reflexivity|]. added_lines. }
  destruct (Report.threads data) as [|t threads]; cbn [fst snd].
  { split; [reflexivity|]. added_lines. }
  destruct (existsb main_test_raises (t :: threads)); cbn [fst snd].
  { split; [reflexivity|]. added_lines. }
  destruct (threads_to_show (t :: threads)) as [[|entry shown] out6];
    cbn [fst snd].
  { split; [reflexivity|]. added_lines. }
  split; [reflexivity|].
  match goal with
  | |- with_added_lines (output (fold_left _ ?s ?q) ++ _)
                        (output (fold_left _ _ ?a) ++ _) =>
      destruct (symbolicate_threads_trace w (get bp "") (get la 0)
                  (get_cpu_arch data) (Report.binary_images data) true s q a)
        as (Ho & Ht & Hl)
  end.
  { unfold traced. cbn [output total_symbolicated app_code_locations].
    split; [|split; reflexivity]. added_lines. }
  apply added_app; [exact Ho|].
  unfold summary. rewrite Ht, Hl. apply added_refl.
Qed.

(** X17.  The verbose flag changes neither the return the call leaves
    by, nor the processes it runs, nor any line of the quiet run: the
    events of a verbose run are those of the quiet run, in the same
    order, with printed lines added. *)
Theorem verbose_only_adds_lines :
  forall (w : World) (report_path : string) (output_file : option string)
         (verbose : bool),
    fst (symbolicate_report w report_path output_file verbose)
    = fst (symbolicate_report w report_path output_file false)
    /\ with_added_lines
         (snd (symbolicate_report w report_path output_file false))
         (snd (symbolicate_report w report_path output_file verbose))
    /\ spawned (run_events
                  (snd (symbolicate_report w report_path output_file verbose)))
       = spawned (run_events
                    (snd (symbolicate_report w report_path output_file false))).
Proof.
  intros w report_path output_file verbose.
  assert (H : fst (symbolicate_report w report_path output_file verbose)
              = fst (symbolicate_report w report_path output_file false)
              /\ with_added_lines
                   (snd (symbolicate_report w report_path output_file false))
                   (snd (symbolicate_report w report_path output_file verbose))).
  { unfold symbolicate_report.
    destruct (negb (path_exists w report_path));
      [split; [reflexivity | apply added_refl]|].
    destruct (walk_report_trace w report_path verbose) as [Hf Hs].
    destruct (truthy_opt output_file); [|now split].
    destruct (open_w w (get output_file ""));
      [|split; [reflexivity | apply added_refl]].
    destruct (walk_report w report_path verbose) as [ret' out2'].
    destruct (walk_report w report_path false) as [ret out2].
    cbn [fst snd] in Hf, Hs. subst ret'.
    destruct ret; cbn [fst snd]; (split; [reflexivity|]);
      added_lines. }
  destruct H as [Hf Hs]. split; [exact Hf|]. split; [exact Hs|].
  rewrite !spawned_run_events. symmetry. now apply added_spawns.
Qed.

(** On the sample run the verbose flag does add lines. *)
Example ex_verbose_adds_lines :
  Nat.ltb
    (List.length (snd (symbolicate_report resolving_world "report.json" None
                                          false)))
    (List.length (snd (symbolicate_report resolving_world "report.json" None
                                          true)))
  = true.
Proof. vm_compute. reflexivity. Qed.

(** ** Where the lines go *)

Section Routing.

Lemma prints_app (a b : list Event) : prints (a ++ b) = prints a ++ prints b.
Proof.
  induction a as [|e a IH]; [reflexivity|].
  destruct e; cbn [app prints]; now rewrite IH.
Qed.

(** Plain events leave the streams as they are; what they print goes to
    the stream [sys.stdout] is bound to. *)
Lemma exec_plain (events : list Event) :
  forallb plain events = true ->
  forall st : Sys,
    let st' := fold_left exec events st in
    stdout st' = stdout st /\ output_handle st' = output_handle st
    /\ console st'
       = match stdout st with
         | Console => console st ++ prints events
         | OutputFile => console st
         end
    /\ file st'
       = match stdout st with
         | Console => file st
         | OutputFile => file st ++ prints events
         end.
Proof.
  induction events as [|e events IH]; intros Hplain st; cbn zeta.
  - cbn [fold_left prints]. rewrite !app_nil_r. now destruct (stdout st).
  - cbn [forallb] in Hplain. apply andb_true_iff in Hplain as [He Hplain].
    cbn [fold_left]. destruct (IH Hplain (exec st e)) as (Hs & Hh & Hc & Hf).
    rewrite Hs, Hh, Hc, Hf.
    destruct e; try discriminate; cbn [exec prints];
      destruct (stdout st); cbn [stdout output_handle console file];
      rewrite <- ?app_assoc; repeat split.
Qed.

End Routing.

(** X18.  With an output file that opens, everything the walk prints
    goes to the file and nothing of it to the terminal, the diagnostic of
    a failure exit included: the terminal receives the line that names
    the file and, when the end of the body is reached, the two closing
    lines, and nothing else. *)
Theorem output_file_receives_the_report :
  forall (w : World) (report_path path : string) (verbose : bool),
    path_exists w report_path = true ->
    path <> EmptyString ->
    open_w w path = true ->
    let call := symbolicate_report w report_path (Some path) verbose in
    file (run_events (snd call)) = prints (snd (walk_report w report_path verbose))
    /\ console (run_events (snd call))
       = SavingTo path
           :: match fst call with
              | ReturnEnd => [SavedTo path; ViewFile path]
              | _ => []
              end
    /\ fst call = fst (walk_report w report_path verbose).
Proof.
  intros w report_path path verbose Hp Hne Ho. cbn zeta.
  unfold symbolicate_report.
  rewrite Hp, (truthy_opt_some _ Hne). cbn [negb get]. rewrite Ho.
  assert (Hplain := walk_report_plain w report_path verbose).
  destruct (walk_report w report_path verbose) as [ret out2]. cbn [snd] in Hplain.
  set (st0 := fold_left exec [OpenOutput path; RedirectStdout;
                              PrintOriginal (SavingTo path)] boot).
  assert (Hmid : forall tail,
             run_events ([OpenOutput path; RedirectStdout;
                          PrintOriginal (SavingTo path)] ++ out2 ++ tail)
             = fold_left exec tail (fold_left exec out2 st0))
    by (intros tail; unfold run_events; now rewrite !fold_left_app).
  destruct (exec_plain out2 Hplain st0) as (Hs & Hh & Hc & Hf).
  change (stdout st0) with OutputFile in Hs, Hc, Hf.
  change (file st0) with (@nil Msg) in Hf.
  change (console st0) with [SavingTo path] in Hc.
  cbn [app] in Hf. clearbody st0.
  destruct ret; cbn [fst snd];
    try (specialize (Hmid []); rewrite app_nil_r in Hmid; rewrite Hmid;
         cbn [fold_left]; now repeat split).
  rewrite Hmid. cbn [fold_left exec stdout output_handle console file].
  rewrite Hc, Hf. now repeat split.
Qed.

Lemma output_file_receives_the_report_witness :
  let call :=
    symbolicate_report (sample_world (sample_report []) "") "report.json"
                       (Some "out.txt") false in
  file (run_events (snd call))
  = prints (snd (walk_report (sample_world (sample_report []) "")
                             "report.json" false))
  /\ console (run_events (snd call))
     = SavingTo "out.txt"
         :: match fst call with
            | ReturnEnd => [SavedTo "out.txt"; ViewFile "out.txt"]
            | _ => []
            end
  /\ fst call
     = fst (walk_report (sample_world (sample_report []) "") "report.json" false).
Proof.
  apply (output_file_receives_the_report (sample_world (sample_report []) "")
           "report.json" "out.txt" false);
    [reflexivity | discriminate | reflexivity].
Defined.

(** X19.  Without an output file (none given, or an empty name), and
    when the report file does not exist, no file is opened and the
    standard output is never rebound: every line of the run goes to the
    terminal, in order. *)
Theorem no_output_file_nothing_opened :
  forall (w : World) (report_path : string) (output_file : option string)
         (verbose : bool),
    truthy_opt output_file = false \/ path_exists w report_path = false ->
    let events := snd (symbolicate_report w report_path output_file verbose) in
    forallb plain events = true
    /\ stdout (run_events events) = Console
    /\ output_handle (run_events events) = NoHandle
    /\ file (run_events events) = []
    /\ console (run_events events) = prints events.
Proof.
  intros w report_path output_file verbose Hcase. cbn zeta.
  assert (Hplain : forallb plain
                     (snd (symbolicate_report w report_path output_file verbose))
                   = true).
  { unfold symbolicate_report.
    destruct (path_exists w report_path); cbn [negb]; [|reflexivity].
    destruct Hcase as [->|Hcase]; [|discriminate].
    apply walk_report_plain. }
  split; [exact Hplain|].
  destruct (exec_plain _ Hplain boot) as (Hs & Hh & Hc & Hf).
  unfold run_events. rewrite Hs, Hh, Hc, Hf. now repeat split.
Qed.

Lemma no_output_file_nothing_opened_witness :
  let events :=
    snd (symbolicate_report resolving_world "report.json" (Some "") true) in
  forallb plain events = true
  /\ stdout (run_events events) = Console
  /\ output_handle (run_events events) = NoHandle
  /\ file (run_events events) = []
  /\ console (run_events events) = prints events.
Proof.
  apply (no_output_file_nothing_opened resolving_world "report.json" (Some "")
           true).
  left. reflexivity.
Defined.

(** ** What the symbolizer's answer looks like *)

Section Stripped.

Local Open Scope string_scope.

Lemma lstrip_eq (s : string) :
  PyStr.lstrip s
  = match Unicode.leading Unicode.is_space s with
    | Some (_, s') => PyStr.lstrip s'
    | None => s
    end.
Proof.
  destruct s as [|b1 s]; [reflexivity|]. cbn [PyStr.lstrip Unicode.leading].
  destruct (Unicode.is_space (String b1 "")); [reflexivity|].
  destruct s as [|b2 s]; [reflexivity|].
  destruct (Unicode.is_space (String b1 (String b2 ""))); [reflexivity|].
  destruct s as [|b3 s]; [reflexivity|].
  destruct (Unicode.is_space (String b1 (String b2 (String b3 ""))));
    [reflexivity|].
  destruct s as [|b4 s]; [reflexivity|].
  destruct (Unicode.is_space
              (String b1 (String b2 (String b3 (String b4 "")))));
    reflexivity.
Qed.

(** No character is the beginning of another one: a character of a class
    is the one that [leading] finds, whatever follows it. *)
Lemma in_class_leading (ranges : list (N * N)) (t y : string) :
  Unicode.in_class ranges t = true ->
  Unicode.leading (Unicode.in_class ranges) (t ++ y) = Some (t, y).
Proof.
  intros Ht.
  assert (Hno : forall b r r',
             Unicode.in_class ranges (String b r) = true ->
             String.length r <> String.length r' ->
             Unicode.in_class ranges (String b r') = false).
  { intros b r r' H Hlen. unfold Unicode.in_class in *.
    destruct (Unicode.code_point (String b r)) as [c|] eqn:E; [|discriminate].
    destruct (Unicode.code_point (String b r')) as [c'|] eqn:E';
      [|reflexivity].
    apply code_point_lead in E. apply code_point_lead in E'. cbn zeta in *.
    lia. }
  assert (Hlen : exists c, Unicode.code_point t = Some c).
  { unfold Unicode.in_class in Ht.
    destruct (Unicode.code_point t) as [c|]; [now exists c | discriminate]. }
  destruct Hlen as [c Hc].
  destruct t as [|b1 [|b2 [|b3 [|b4 [|b5 t]]]]]; try discriminate Hc;
    cbn [append Unicode.leading].
  - now rewrite Ht.
  - rewrite (Hno _ _ "" Ht) by (cbn; lia). now rewrite Ht.
  - rewrite (Hno _ _ "" Ht), (Hno _ _ (String b2 "") Ht) by (cbn; lia).
    now rewrite Ht.
  - rewrite (Hno _ _ "" Ht), (Hno _ _ (String b2 "") Ht),
      (Hno _ _ (String b2 (String b3 "")) Ht) by (cbn; lia).
    now rewrite Ht.
Qed.

Lemma lstrip_head (t rest : string) :
  Unicode.is_space t = true -> forall s, PyStr.lstrip s <> t ++ rest.
Proof.
  intros Ht.
  assert (G : forall n s, (String.length s <= n)%nat ->
                          PyStr.lstrip s <> t ++ rest);
    [|intros s; exact (G _ s (Nat.le_refl _))].
  induction n as [|n IH]; intros s Hn; rewrite lstrip_eq;
    (destruct (Unicode.leading Unicode.is_space s) as [[t' s1]|] eqn:E;
     [|intros ->; unfold Unicode.is_space in E;
       rewrite in_class_leading in E by exact Ht; discriminate]).
  - apply leading_shorter in E. lia.
  - apply leading_shorter in E. apply IH. lia.
Qed.

(** What [rstrip] cuts off is white space, and it cuts at the first place
    from which only white space follows. *)
Lemma rstrip_spec (l : string) :
  exists w,
    l = PyStr.rstrip l ++ w /\ PyStr.lstrip w = ""
    /\ forall r1 r2, PyStr.rstrip l = r1 ++ r2 -> r2 <> "" ->
                     PyStr.lstrip (r2 ++ w) <> "".
Proof.
  induction l as [|c l (w & E & Hw & Hmin)].
  - exists "". repeat split. intros [|] r2 H Hne; cbn in H; congruence.
  - cbn [PyStr.rstrip].
    destruct (PyStr.lstrip (String c l)) as [|d r] eqn:El; cbn [PyStr.truthy].
    + exists (String c l). repeat split; [exact El|].
      intros [|] r2 H Hne; cbn in H; congruence.
    + exists w. split; [cbn [append]; now rewrite <- E|]. split; [exact Hw|].
      intros [|a r1] r2 H Hne; cbn [append] in H.
      * subst r2. cbn [append]. rewrite <- E, El. discriminate.
      * injection H as _ H. now apply (Hmin r1 r2).
Qed.

Lemma strip_is_stripped (s : string) : is_stripped (PyStr.strip s).
Proof.
  intros t rest Ht. unfold PyStr.strip.
  destruct (rstrip_spec (PyStr.lstrip s)) as (w & E & Hw & Hmin). split.
  - intros Er. rewrite Er, append_assoc in E.
    now apply (lstrip_head _ _ Ht) in E.
  - intros Er. apply (Hmin rest t Er).
    + intros ->. discriminate Ht.
    + rewrite lstrip_eq. unfold Unicode.is_space in *.
      now rewrite in_class_leading.
Qed.

End Stripped.

(** X20.  A text that [symbolicate_address] returns is the stripped
    output of a symbolizer run that exited with 0: it is not empty, has
    no white space at either end, does not contain [0x] and so is not the
    echoed address.  Whatever the answer, and with or without tracing,
    the symbolizer is run once, on the command line made of the
    architecture, the binary and the two addresses in hexadecimal. *)
Theorem symbolicate_address_resolved_text :
  forall (w : World) (binary_path : string) (load_addr target_addr : Z)
         (arch : string) (verbose : bool),
    let call :=
      symbolicate_address w binary_path load_addr target_addr arch verbose in
    spawns (snd call) = [atos_cmd arch binary_path load_addr target_addr]
    /\ fst call
       = fst (symbolicate_address w binary_path load_addr target_addr arch false)
    /\ (forall text : string,
           fst call = Some text ->
           text <> EmptyString /\ is_stripped text
           /\ PyStr.contains "0x" text = false
           /\ text <> hex target_addr
           /\ exists out err,
                run w (atos_cmd arch binary_path load_addr target_addr)
                = Completed 0 out err
                /\ text = PyStr.strip out).
Proof.
  intros w binary_path load_addr target_addr arch verbose. cbn zeta.
  split; [apply symbolicate_address_spawns|].
  split; [apply symbolicate_address_trace|].
  intros text. rewrite symbolicate_address_result.
  destruct (run w _) as [rc out err|e]; [|discriminate].
  destruct (Z.eqb_spec rc 0) as [->|Hrc]; [|discriminate]. cbn [andb].
  destruct (PyStr.truthy (PyStr.strip out)) eqn:Ht; [|discriminate].
  destruct (PyStr.contains "0x" (PyStr.strip out)) eqn:Hx; [discriminate|].
  cbn [andb negb]. intros [= <-].
  split; [intros E; rewrite E in Ht; discriminate|].
  split; [apply strip_is_stripped|]. split; [exact Hx|].
  split; [|now exists out, err].
  intros E. rewrite E, hex_contains_0x in Hx. discriminate.
Qed.

Lemma symbolicate_address_resolved_text_witness :
  resolved_line <> EmptyString /\ is_stripped resolved_line
  /\ PyStr.contains "0x" resolved_line = false
  /\ resolved_line <> hex 4100
  /\ exists out err,
       run (printing_world
              (ideographic_space ++ resolved_line ++ no_break_space
               ++ newline)%string)
           (atos_cmd "arm64" "/b/MatrixTestApp" 4096 4100)
       = Completed 0 out err
       /\ resolved_line = PyStr.strip out.
Proof.
  apply (proj2 (proj2 (symbolicate_address_resolved_text
                         (printing_world
                            (ideographic_space ++ resolved_line
                             ++ no_break_space ++ newline)%string)
                         "/b/MatrixTestApp" 4096 4100 "arm64" true))
               resolved_line).
  reflexivity.
Defined.

(** ** The locations the walk records *)

Section Locations.

Variables (w : World) (binary_path : string) (load_addr : Z) (arch : string).
Variables (verbose : bool) (binary_images : list Image.t).

Lemma symbolicate_frame_location (thread_label : ThreadLabel)
  (app_frames i : nat) (frame : Frame.t) (loc : Loc.t) :
  location (symbolicate_frame w binary_path load_addr arch verbose binary_images
              thread_label app_frames i frame) = Some loc ->
  Loc.thread loc = thread_label /\ well_formed_location loc.
Proof.
  unfold symbolicate_frame.
  destruct (should_symbolicate _ _ _); [|discriminate].
  assert (Ha := symbolicate_address_result w binary_path load_addr
                  (get (Frame.instruction_addr frame) 0) arch
                  (verbose && Nat.ltb i 3)).
  destruct (symbolicate_address _ _ _ _ _ _) as [sym out1]. cbn [fst] in Ha.
  destruct (truthy_opt sym) eqn:Hsym; [|discriminate].
  destruct sym as [text|]; [|discriminate]. cbn [get truthy_opt] in *.
  assert (Hp := parse_symbol_output_parsed text (verbose && Nat.ltb i 3)).
  destruct (parse_symbol_output _ _) as [[f l] out2]. cbn [fst] in Hp.
  specialize (Hp f l eq_refl). cbn [location].
  destruct (is_app_code f) eqn:Happ; [|discriminate].
  intros [= <-]. split; [reflexivity|].
  unfold well_formed_location. cbn [Loc.symbol Loc.file Loc.line].
  split; [intros E; rewrite E in Hsym; discriminate|]. split.
  - destruct (run w _) as [rc out err|e]; [|discriminate].
    destruct (rc =? 0); [|discriminate]. cbn [andb] in Ha.
    destruct (PyStr.truthy (PyStr.strip out)); [|discriminate].
    destruct (PyStr.contains "0x" (PyStr.strip out)) eqn:Hx; [discriminate|].
    cbn in Ha. injection Ha as ->. exact Hx.
  - destruct Hp as [[-> ->]|(f0 & l0 & -> & -> & Hf & Hl)]; [exact I|].
    split; [exact Hf|]. split; [exact Hl|].
    unfold is_app_code in Happ.
    rewrite (truthy_opt_some _ (source_file_not_empty _ Hf)) in Happ.
    cbn [get] in Happ. apply negb_true_iff in Happ.
    intros H. apply is_framework_worded in H. congruence.
Qed.

Lemma symbolicate_frames_locations (thread_label : ThreadLabel)
  (app_frames : nat) (frames : list Frame.t) :
  forall (i : nat) (acc : Walk),
    Forall well_formed_location (app_code_locations acc) ->
    Forall well_formed_location
      (app_code_locations
         (symbolicate_frames w binary_path load_addr arch verbose binary_images
                             thread_label app_frames i frames acc)).
Proof.
  induction frames as [|frame frames IH]; intros i acc Hacc;
    cbn [symbolicate_frames]; [exact Hacc|].
  apply IH. cbn [app_code_locations]. apply Forall_app. split; [exact Hacc|].
  destruct (location _) as [loc|] eqn:Hloc; [|constructor].
  apply symbolicate_frame_location in Hloc as [_ Hloc].
  constructor; [exact Hloc | constructor].
Qed.

Lemma symbolicate_thread_locations (acc : Walk)
  (entry : ThreadLabel * Thread.t) :
  Forall well_formed_location (app_code_locations acc) ->
  Forall well_formed_location
    (app_code_locations
       (symbolicate_thread w binary_path load_addr arch verbose binary_images
                           acc entry)).
Proof.
  intros Hacc. destruct entry as [label thread]. unfold symbolicate_thread.
  destruct (frames_of thread) as [|frame frames];
    cbn [app_code_locations]; [exact Hacc|].
  now apply symbolicate_frames_locations.
Qed.

End Locations.

(** X21.  Every entry of the closing list of application code locations
    is well formed: its text is a resolved one (not empty, without
    [0x]), and it has either no file and no line, or the file and the
    line of a source-location fragment, the file without a framework
    prefix.  The loop over the shown threads keeps this, so the closing
    list prints the file-and-line form exactly for the entries that have
    a file. *)
Theorem app_code_locations_well_formed :
  forall (w : World) (binary_path : string) (load_addr : Z) (arch : string)
         (verbose : bool) (binary_images : list Image.t)
         (shown : list (ThreadLabel * Thread.t)) (acc : Walk),
    Forall well_formed_location (app_code_locations acc) ->
    Forall (fun loc =>
              well_formed_location loc
              /\ show_location loc
                 = match Loc.file loc with
                   | Some f =>
                       [Print (LocWithFile (Loc.thread loc) f
                                           (get (Loc.line loc) ""));
                        Print (LocSymbol (Loc.symbol loc)); Print (Line "")]
                   | None =>
                       [Print (LocNoFile (Loc.thread loc));
                        Print (LocSymbol (Loc.symbol loc)); Print (Line "")]
                   end)
           (app_code_locations
              (fold_left (symbolicate_thread w binary_path load_addr arch
                                             verbose binary_images)
                         shown acc)).
Proof.
  intros w binary_path load_addr arch verbose binary_images shown.
  assert (Hshow : forall loc,
             well_formed_location loc ->
             show_location loc
             = match Loc.file loc with
               | Some f =>
                   [Print (LocWithFile (Loc.thread loc) f
                                       (get (Loc.line loc) ""));
                    Print (LocSymbol (Loc.symbol loc)); Print (Line "")]
               | None =>
                   [Print (LocNoFile (Loc.thread loc));
                    Print (LocSymbol (Loc.symbol loc)); Print (Line "")]
               end).
  { intros loc (_ & _ & H). unfold show_location.
    destruct (Loc.file loc) as [f|], (Loc.line loc) as [l|];
      try (now destruct H); try reflexivity.
    destruct H as (Hf & Hl & _). destruct Hl as [Hl _].
    rewrite (truthy_opt_some _ (source_file_not_empty _ Hf)).
    now rewrite (truthy_opt_some _ Hl). }
  induction shown as [|entry shown IH]; intros acc Hacc; cbn [fold_left].
  - apply Forall_forall. intros loc Hloc. rewrite Forall_forall in Hacc.
    split; [now apply Hacc | apply Hshow; now apply Hacc].
  - apply IH. now apply symbolicate_thread_locations.
Qed.

Lemma app_code_locations_well_formed_witness :
  Forall (fun loc =>
            well_formed_location loc
            /\ show_location loc
               = match Loc.file loc with
                 | Some f =>
                     [Print (LocWithFile (Loc.thread loc) f
                                         (get (Loc.line loc) ""));
                      Print (LocSymbol (Loc.symbol loc)); Print (Line "")]
                 | None =>
                     [Print (LocNoFile (Loc.thread loc));
                      Print (LocSymbol (Loc.symbol loc)); Print (Line "")]
                 end)
         (app_code_locations
            (fold_left (symbolicate_thread resolving_world
                          "/sim/MatrixTestApp.app/MatrixTestApp" 4294967296
                          "arm64" false [sample_app_image; sample_objc])
                       [(MainLabel, redacted_main)]
                       {| output := []; total_symbolicated := 0;
                          app_code_locations := [] |})).
Proof.
  apply (app_code_locations_well_formed resolving_world
           "/sim/MatrixTestApp.app/MatrixTestApp" 4294967296 "arm64" false
           [sample_app_image; sample_objc] [(MainLabel, redacted_main)]
           {| output := []; total_symbolicated := 0; app_code_locations := [] |}).
  constructor.
Defined.

Example ex_recorded_location :
  app_code_locations
    (fold_left (symbolicate_thread resolving_world
                  "/sim/MatrixTestApp.app/MatrixTestApp" 4294967296
                  "arm64" false [sample_app_image; sample_objc])
               [(MainLabel, redacted_main)]
               {| output := []; total_symbolicated := 0;
                  app_code_locations := [] |})
  = [{| Loc.thread := MainLabel; Loc.file := Some "Foo.mm";
        Loc.line := Some "42"; Loc.symbol := resolved_line |}].
Proof. vm_compute. reflexivity. Qed.

(** A line number in Arabic-Indic digits is recorded as it stands. *)
Example ex_recorded_location_digits :
  app_code_locations
    (fold_left (symbolicate_thread
                  (sample_world (sample_report [redacted_main])
                     ("-[Foo bar] (in MatrixTestApp) (Foo.mm:"
                      ++ arabic_indic_42 ++ ")" ++ newline)%string)
                  "/sim/MatrixTestApp.app/MatrixTestApp" 4294967296
                  "arm64" false [sample_app_image; sample_objc])
               [(MainLabel, redacted_main)]
               {| output := []; total_symbolicated := 0;
                  app_code_locations := [] |})
  = [{| Loc.thread := MainLabel; Loc.file := Some "Foo.mm";
        Loc.line := Some arabic_indic_42;
        Loc.symbol := ("-[Foo bar] (in MatrixTestApp) (Foo.mm:"
                       ++ arabic_indic_42 ++ ")")%string |}].
Proof. vm_compute. reflexivity. Qed.

(** ** Application frames and the framework tag *)

Lemma has_app_code_count (thread : Thread.t) :
  has_app_code thread = Nat.ltb 0 (app_frame_count (frames_of thread)).
Proof.
  unfold has_app_code, app_frame_count.
  induction (frames_of thread) as [|frame frames IH]; [reflexivity|].
  cbn [existsb List.filter].
  assert (Hsame : PyStr.contains app_name (get (Frame.object_name frame) "")
                  = PyStr.contains app_name (get (Frame.object_name frame) "???"))
    by (destruct (Frame.object_name frame); reflexivity).
  rewrite Hsame.
  destruct (PyStr.contains app_name (get (Frame.object_name frame) "???"));
    [reflexivity | exact IH].
Qed.

(** X22.  The thread scan and the frame loop agree on what an
    application frame is, although they read a missing object name
    differently: a thread has application code exactly when the frame
    loop counts at least one application frame in it.  So a thread shown
    under an application label is never walked in the mode that tries
    every unknown address: its eligible frames are those whose object
    name contains the application's name and that have no usable
    symbol. *)
Theorem app_threads_have_app_frames :
  forall (threads : list Thread.t) (thread : Thread.t),
    has_app_code thread = Nat.ltb 0 (app_frame_count (frames_of thread))
    /\ (forall idx : option Z,
           In (AppLabel idx, thread) (fst (threads_to_show threads)) ->
           forall frame : Frame.t,
             eligible (frames_of thread) frame
             = PyStr.contains app_name (get (Frame.object_name frame) "???")
               && no_usable_symbol (Frame.symbol_name frame)).
Proof.
  intros threads thread. split; [apply has_app_code_count|].
  intros idx Hin frame. rewrite threads_to_show_policy in Hin.
  apply selection_policy_shown_as in Hin as [_ (_ & Happ & _)].
  rewrite has_app_code_count in Happ.
  unfold eligible, should_symbolicate. now rewrite Happ.
Qed.

Lemma app_threads_have_app_frames_witness :
  eligible (frames_of sample_app) (frame_in "MatrixTestApp" 4294971392)
  = PyStr.contains app_name
      (get (Frame.object_name (frame_in "MatrixTestApp" 4294971392)) "???")
    && no_usable_symbol (Frame.symbol_name (frame_in "MatrixTestApp" 4294971392)).
Proof.
  apply (proj2 (app_threads_have_app_frames
                  [sample_crashed; sample_app; sample_main; sample_idle]
                  sample_app) (Some 5)).
  right. right. now left.
Defined.

(** X23.  A resolved frame of the object [MatrixTestApp] whose text
    carries a source file is listed under the name
    [MatrixTestApp [框架]] exactly when the file name starts with [KS] or
    [WC], and under [MatrixTestApp] otherwise; the marker is set exactly
    when the file has none of the framework prefixes.  The two tests
    differ: a file that starts with [KS] is never marked, but a file that
    starts with [WC] is unmarked only when it starts with one of
    [WCCrash], [WCBlock], [WCMemory], [WCFPS], [WCDump]; any other [WC]
    file is listed with the framework tag and the application-code
    marker both. *)
Theorem framework_tag_and_marker :
  forall (w : World) (binary_path : string) (load_addr : Z) (arch : string)
         (verbose : bool) (binary_images : list Image.t)
         (thread_label : ThreadLabel) (app_frames i : nat) (frame : Frame.t)
         (text f : string) (l : option string),
    let trace := verbose && Nat.ltb i 3 in
    let step :=
      symbolicate_frame w binary_path load_addr arch verbose binary_images
                        thread_label app_frames i frame in
    let addr := get (Frame.instruction_addr frame) 0 in
    let tagged := existsb (PyStr.startswith f) ["KS"; "WC"] in
    get (Frame.object_name frame) "???" = "MatrixTestApp" ->
    should_symbolicate app_frames "MatrixTestApp" (Frame.symbol_name frame)
    = true ->
    fst (symbolicate_address w binary_path load_addr addr arch trace)
    = Some text ->
    fst (parse_symbol_output text trace) = (Some f, l) ->
    In (Print (FrameResolved (negb (is_framework f)) i
                 (if tagged then "MatrixTestApp [框架]" else "MatrixTestApp")
                 addr))
       (printed step)
    /\ (PyStr.startswith f "KS" = true -> is_framework f = true)
    /\ (PyStr.startswith f "WC" = true ->
        is_framework f
        = existsb (PyStr.startswith f)
                  ["WCCrash"; "WCBlock"; "WCMemory"; "WCFPS"; "WCDump"]).
Proof.
  intros w bp la arch verbose images label n i frame text f l
         trace step addr tagged Hobj Hshould Hsym Hparse.
  assert (Hf : f <> EmptyString).
  { destruct (parse_symbol_output_parsed _ _ _ _ Hparse)
      as [[[=] _]|(f0 & l0 & [= <-] & _ & F & _)].
    now apply source_file_not_empty. }
  split; [|split].
  - subst step. unfold symbolicate_frame. fold trace addr.
    rewrite Hobj, Hshould.
    assert (Htruthy := symbolicate_address_truthy _ _ _ _ _ _ _ Hsym).
    destruct (symbolicate_address w bp la addr arch trace) as [sym out1].
    cbn in Hsym. subst sym. cbn [truthy_opt get]. rewrite Htruthy.
    destruct (parse_symbol_output text trace) as [[f' l'] out2].
    cbn in Hparse. injection Hparse as -> ->.
    unfold is_app_code. rewrite (truthy_opt_some _ Hf). cbn [get].
    change (String.eqb "MatrixTestApp" "???") with false. cbv iota.
    change (String.eqb "MatrixTestApp" "MatrixTestApp") with true.
    cbn [andb printed]. fold tagged.
    do 4 (apply in_or_app; right). left. reflexivity.
  - intros H. apply is_framework_spec. exists "KS". split; [|exact H].
    right. now left.
  - destruct f as [|a [|b f']]; cbn [PyStr.startswith];
      rewrite ?andb_false_r; try discriminate.
    intros H.
    apply andb_true_iff in H as [Ha H]. apply andb_true_iff in H as [Hb _].
    apply Ascii.eqb_eq in Ha, Hb. subst a b.
    unfold is_framework, framework_files. cbn. now rewrite !orb_false_r.
Qed.

Lemma framework_tag_and_marker_witness :
  In (Print (FrameResolved true 0 "MatrixTestApp [框架]" 4294971392))
     (printed (symbolicate_frame
                 (printing_world "-[WCUtil run] (in MatrixTestApp) (WCUtil.mm:7)")
                 "/b" 4294967296 "arm64" false [] MainLabel 1 0
                 (frame_in "MatrixTestApp" 4294971392)))
  /\ is_framework "WCUtil.mm" = false.
Proof.
  destruct (framework_tag_and_marker
              (printing_world "-[WCUtil run] (in MatrixTestApp) (WCUtil.mm:7)")
              "/b" 4294967296 "arm64" false [] MainLabel 1 0
              (frame_in "MatrixTestApp" 4294971392)
              "-[WCUtil run] (in MatrixTestApp) (WCUtil.mm:7)" "WCUtil.mm"
              (Some "7")) as (Hline & _ & Hwc); try reflexivity.
  split; [exact Hline|]. now rewrite Hwc.
Defined.
